(** * codescan: a shallow embedding of the indexing / scanning pipeline

    The development follows the layout of [src/backend]:
    - [Py]         the few Python primitives the code relies on
                   ([int(str)], [str.strip], [str.lower], [os.path.basename],
                   the arithmetic of [float]);
    - [Models]     the rows of [models.py] and the DTOs of [storage_interface.py];
    - [SQLite]     [storage_sqlite.py], the relational backend;
    - [Redis]      [storage_redis.py], the key/value backend;
    - [Progress]   [progress_store.py];
    - [Similarity] [similarity_config.py] and the matcher of [scanner.py];
    - [Scanner]    the sequential scan pipeline of [scanner.py];
    - [Indexer]    the per-file indexing functions of [indexer.py];
    - [Ignore]     [ignored_files_config.py].

    Conventions.  A Python [str] is a Rocq [string] read as a sequence of code
    points below 256.  A Python [float] is the rational a finite double
    stands for ([Q]); comparisons are exact, and the product and the mean the
    matcher computes are rounded to the nearest double, ties to even, as
    IEEE 754 arithmetic does ([Py.round_double]).  Infinities and NaN are
    not modelled.  A [datetime] is an integer tick count.  Reading the
    clock and drawing a UUID are made explicit arguments.  A Python
    exception is the [Raise] branch of [result]. *)

From Stdlib Require Import ZArith QArith Qround Qpower Lia Bool Ascii String List DecimalString.
From Stdlib Require DecimalPos Sorted.
From stdpp Require Import gmap strings list.

Local Open Scope string_scope.
Local Open Scope Z_scope.

(** ** Results and exceptions *)

Inductive exn : Type :=
| ValueError
| PermissionError
| OSError
| IntegrityError
| IndexError.

Inductive result (A : Type) : Type :=
| Ok (a : A)
| Raise (e : exn).

Arguments Ok {A} a.
Arguments Raise {A} e.

(** Sequencing stops at the first exception; [x ← r; k] is stdpp's notation
    for it. *)
#[global] Instance result_bind : MBind result :=
  fun A B (k : A -> result B) (r : result A) =>
    match r with
    | Ok a => k a
    | Raise e => Raise e
    end.

#[global] Instance result_ret : MRet result := fun A a => Ok a.

Definition float : Type := Q.
Definition datetime : Type := Z.
Definition bytes : Type := list Byte.byte.

(** ** Python primitives *)

Module Py.

(** [str.isspace] on one code point below 256: TAB..CR, FS..US, SPACE, NEL
    and NBSP. *)
Definition is_space (c : ascii) : bool :=
  let n := Z.of_nat (nat_of_ascii c) in
  ((9 <=? n) && (n <=? 13)) || ((28 <=? n) && (n <=? 32))
  || (n =? 133) || (n =? 160).

(** The blanks [int] accepts around a literal: the same but for FS..US. *)
Definition is_int_space (c : ascii) : bool :=
  let n := Z.of_nat (nat_of_ascii c) in
  ((9 <=? n) && (n <=? 13)) || (n =? 32) || (n =? 133) || (n =? 160).

Section Strip.

Variable blank : ascii -> bool.

Fixpoint lstrip_with (s : string) : string :=
  match s with
  | String c r => if blank c then lstrip_with r else s
  | EmptyString => EmptyString
  end.

(** A character is kept when it is not blank or when something survives to
    its right. *)
Fixpoint rstrip_with (s : string) : string :=
  match s with
  | EmptyString => EmptyString
  | String c r =>
      match rstrip_with r with
      | EmptyString => if blank c then EmptyString else String c EmptyString
      | r' => String c r'
      end
  end.

Definition strip_with (s : string) : string := rstrip_with (lstrip_with s).

End Strip.

(** [str.strip()] *)
Definition strip (s : string) : string := strip_with is_space s.

Definition is_digit (c : ascii) : bool :=
  let n := Z.of_nat (nat_of_ascii c) in (48 <=? n) && (n <=? 57).

Definition digit_val (c : ascii) : Z := Z.of_nat (nat_of_ascii c) - 48.

(** The digit part of a base-10 literal: digits, with single underscores
    allowed between two digits. [prev] tells whether the previous character
    was a digit. *)
Fixpoint int_digits (acc : Z) (prev : bool) (s : string) : option Z :=
  match s with
  | EmptyString => if prev then Some acc else None
  | String c r =>
      if is_digit c then int_digits (10 * acc + digit_val c) true r
      else if Ascii.eqb c "_" then
             (if prev then int_digits acc false r else None)
      else None
  end.

(** [int(s)] for a [str] argument and the default base: surrounding white
    space is dropped, one optional sign, then the digits. [None] stands for
    [ValueError].  (CPython also refuses literals of more than 4300 digits;
    that only adds failures.) *)
Definition int (s : string) : option Z :=
  match strip_with is_int_space s with
  | String "-" r => Z.opp <$> int_digits 0 false r
  | String "+" r => int_digits 0 false r
  | r => int_digits 0 false r
  end.

(** [str.lower] on one code point below 256: A..Z and the Latin-1 capitals
    (all of 192..222 but the multiplication sign) move up by 32. *)
Definition lower_char (c : ascii) : ascii :=
  let n := nat_of_ascii c in
  let z := Z.of_nat n in
  if ((65 <=? z) && (z <=? 90))
     || ((192 <=? z) && (z <=? 222) && negb (z =? 215))
  then ascii_of_nat (n + 32) else c.

Fixpoint lower (s : string) : string :=
  match s with
  | EmptyString => EmptyString
  | String c r => String (lower_char c) (lower r)
  end.

(** [c in s] for a one-character [c]. *)
Fixpoint contains (c : ascii) (s : string) : bool :=
  match s with
  | EmptyString => false
  | String d r => Ascii.eqb c d || contains c r
  end.

(** What follows the last ["/"] of [p], when there is one. *)
Fixpoint after_last_slash (p : string) : option string :=
  match p with
  | EmptyString => None
  | String c r =>
      match after_last_slash r with
      | Some t => Some t
      | None => if Ascii.eqb c "/" then Some r else None
      end
  end.

(** [os.path.basename] (posixpath): [p[p.rfind('/') + 1:]]. *)
Definition basename (p : string) : string :=
  match after_last_slash p with
  | Some t => t
  | None => p
  end.

(** [s.replace(old, "")]: the occurrences of [old] are dropped, left to
    right and without overlap. [skip] counts the characters of an occurrence
    still to drop. *)
Fixpoint remove_all_from (old : string) (skip : nat) (s : string) : string :=
  match s with
  | EmptyString => EmptyString
  | String c r =>
      match skip with
      | S n => remove_all_from old n r
      | O =>
          if String.prefix old s && negb (String.eqb old "")
          then remove_all_from old (String.length old - 1) r
          else String c (remove_all_from old 0 r)
      end
  end.

Definition remove_all (old s : string) : string := remove_all_from old 0 s.

(** [str(n)] for an integer. *)
Definition str_of_int (n : Z) : string :=
  NilEmpty.string_of_int (Z.to_int n).

(** The integer nearest to [q], the even one of the two when [q] is half
    way. *)
Definition round_half_even (q : Q) : Z :=
  let f := Qfloor q in
  match (q - inject_Z f ?= 1 # 2)%Q with
  | Lt => f
  | Gt => f + 1
  | Eq => if Z.even f then f else f + 1
  end.

(** The exponent [e] of a positive [q]: [2 ^ e <= q < 2 ^ (e + 1)]. *)
Definition ilog2 (q : Q) : Z :=
  let e := Z.log2 (Qnum q) - Z.log2 (Zpos (Qden q)) in
  if Qle_bool (2 ^ e) q then e else e - 1.

(** The double nearest to a non-negative [q]: 53 significant bits; below
    [2 ^ -1022] the spacing is that of the subnormal numbers. *)
Definition round_magnitude (q : Q) : Q :=
  let ulp := (2 ^ (Z.max (ilog2 q) (-1022) - 52))%Q in
  (inject_Z (round_half_even (q / ulp)) * ulp)%Q.

(** Rounding to binary64, in lowest terms. *)
Definition round_double (q : Q) : float :=
  Qred (if Qle_bool 0 q then round_magnitude q
        else - round_magnitude (- q)).

(** A decimal literal of the source, such as [0.8]. *)
Definition double (literal : Q) : float := round_double literal.

(** [x * y], [x + y] and [x / y] on floats. *)
Definition float_mul (x y : float) : float := round_double (x * y).
Definition float_add (x y : float) : float := round_double (x + y).
Definition float_truediv (x y : float) : float := round_double (x / y).

End Py.

(** ** models.py and storage_interface.py *)

Module Models.

(** [match_type] is a string column; the pipeline only ever writes these
    three literals. *)
Inductive MatchType : Type :=
| exact
| high_confidence
| similarity.

(** Table [indexed_files]. *)
Record IndexedFile : Type := mkIndexedFile {
  id : Z;
  path : string;
  filename : string;
  file_hash : string;
  vector : option bytes;
  last_modified : float;
  indexed_at : datetime
}.

(** Table [scan_results]; [matched_file_id] is a foreign key to
    [indexed_files.id]. *)
Record ScanResult : Type := mkScanResult {
  result_id : Z;
  scan_id : string;
  file_path : string;
  match_type : MatchType;
  score : float;
  matched_file_id : Z;
  timestamp : datetime
}.

End Models.

Module Data.

(** [IndexedFileData]: the id is a string for both backends. *)
Record IndexedFileData : Type := mkIndexedFileData {
  id : string;
  path : string;
  filename : string;
  file_hash : string;
  vector : option bytes;
  last_modified : float;
  indexed_at : datetime
}.

Record ScanResultData : Type := mkScanResultData {
  result_id : string;
  scan_id : string;
  file_path : string;
  match_type : Models.MatchType;
  score : float;
  matched_file_id : string;
  matched_file_path : option string;
  matched_file_name : option string;
  timestamp : datetime
}.

End Data.

(** Table [index_operations]: one row per indexing run. *)
Module IndexOperations.

Record IndexOperation : Type := mkIndexOperation {
  id : Z;
  index_id : string;
  directory_path : string;
  status : string;
  total_files : Z;
  files_indexed : Z;
  files_skipped : Z;
  started_at : datetime;
  completed_at : option datetime;
  error_message : option string
}.

(** The update a run makes to its own row when it ends:
    [query(IndexOperation).filter(index_id == ...).first()], then the five
    assignments and the commit; nothing happens when there is no such
    row. *)
Fixpoint finish (ops : list IndexOperation) (index_id' final_status : string)
    (total_files' files_indexed' files_skipped' : Z) (now : datetime)
  : list IndexOperation :=
  match ops with
  | [] => []
  | op :: rest =>
      if String.eqb (index_id op) index_id'
      then mkIndexOperation (id op) (index_id op) (directory_path op)
             final_status total_files' files_indexed' files_skipped'
             (started_at op) (Some now) (error_message op) :: rest
      else op :: finish rest index_id' final_status total_files'
                   files_indexed' files_skipped' now
  end.

End IndexOperations.

(** ** storage_sqlite.py *)

Module SQLite.

Import Models.

(** The session's view of the database: the two tables in row order, and
    whether the engine enforces foreign keys (SQLite does not unless asked
    to; [database.py] never asks). *)
Record Session : Type := mkSession {
  indexed_files : list IndexedFile;
  scan_results : list ScanResult;
  foreign_keys : bool
}.

Definition empty : Session := mkSession [] [] false.

(** The key an [INTEGER PRIMARY KEY] column gets on insert: one more than
    the largest key in the table. *)
Definition next_id (ids : list Z) : Z := 1 + fold_right Z.max 0 ids.

Definition _model_to_data (model : IndexedFile) : Data.IndexedFileData :=
  Data.mkIndexedFileData (Py.str_of_int (id model)) (path model)
    (filename model) (file_hash model) (vector model)
    (last_modified model) (indexed_at model).

(** [query(IndexedFile).filter(IndexedFile.path == p).first()] *)
Definition first_by_path (db : Session) (p : string) : option IndexedFile :=
  List.find (fun m => String.eqb (path m) p) (indexed_files db).

Definition first_by_id (db : Session) (n : Z) : option IndexedFile :=
  List.find (fun m => id m =? n) (indexed_files db).

Definition first_by_hash (db : Session) (h : string) : option IndexedFile :=
  List.find (fun m => String.eqb (file_hash m) h) (indexed_files db).

(** The UPDATE the unit of work flushes for a modified row: by primary key. *)
Definition update_row (new : IndexedFile) (rows : list IndexedFile)
  : list IndexedFile :=
  List.map (fun m => if id m =? id new then new else m) rows.

Definition _scan_result_to_data (db : Session) (model : ScanResult)
  : Data.ScanResultData :=
  let matched_file := first_by_id db (matched_file_id model) in
  Data.mkScanResultData (Py.str_of_int (result_id model)) (scan_id model)
    (file_path model) (match_type model) (score model)
    (Py.str_of_int (matched_file_id model))
    (path <$> matched_file) (filename <$> matched_file) (timestamp model).

Definition add_or_update_indexed_file (db : Session)
    (path' filename' file_hash' : string) (vector' : option bytes)
    (last_modified' : float) (now : datetime)
  : Data.IndexedFileData * Session :=
  match first_by_path db path' with
  | Some existing =>
      let existing' :=
        mkIndexedFile (id existing) (path existing) (filename existing)
          file_hash' vector' last_modified' now in
      (_model_to_data existing',
       mkSession (update_row existing' (indexed_files db))
         (scan_results db) (foreign_keys db))
  | None =>
      let new_file :=
        mkIndexedFile (next_id (List.map id (indexed_files db)))
          path' filename' file_hash' vector' last_modified' now in
      (_model_to_data new_file,
       mkSession (indexed_files db ++ [new_file])
         (scan_results db) (foreign_keys db))
  end.

Definition get_indexed_file_by_path (db : Session) (p : string)
  : option Data.IndexedFileData :=
  _model_to_data <$> first_by_path db p.

Definition get_indexed_file_by_id (db : Session) (file_id : string)
  : result (option Data.IndexedFileData) :=
  match Py.int file_id with
  | None => Raise ValueError
  | Some n => Ok (_model_to_data <$> first_by_id db n)
  end.

Definition find_by_hash (db : Session) (h : string)
  : option Data.IndexedFileData :=
  _model_to_data <$> first_by_hash db h.

Definition get_all_indexed_files (db : Session) : list Data.IndexedFileData :=
  List.map _model_to_data (indexed_files db).

(** Rows with a non-NULL vector, of which the non-empty ones are kept. *)
Definition get_indexed_files_with_vectors (db : Session)
  : list (string * bytes) :=
  omap (fun m => match vector m with
                 | Some (b :: v) => Some (Py.str_of_int (id m), b :: v)
                 | _ => None
                 end) (indexed_files db).

Definition count_indexed_files (db : Session) : Z :=
  Z.of_nat (List.length (indexed_files db)).

(** Whether some scan result still points at the file with key [n]. *)
Definition referenced (db : Session) (n : Z) : bool :=
  List.existsb (fun r => matched_file_id r =? n) (scan_results db).

Definition delete_indexed_file (db : Session) (file_id : string)
  : result (bool * Session) :=
  match Py.int file_id with
  | None => Raise ValueError
  | Some n =>
      match first_by_id db n with
      | Some model =>
          if foreign_keys db && referenced db (id model)
          then Raise IntegrityError
          else Ok (true,
                   mkSession
                     (List.filter (fun m => negb (id m =? id model))
                        (indexed_files db))
                     (scan_results db) (foreign_keys db))
      | None => Ok (false, db)
      end
  end.

(** [count = query(IndexedFile).count(); query(IndexedFile).delete();
    commit(); return count]: one bulk DELETE on [indexed_files], nothing on
    [scan_results]. *)
Definition delete_all_indexed_files (db : Session) : result (Z * Session) :=
  let count := count_indexed_files db in
  if foreign_keys db
     && List.existsb (fun m => referenced db (id m)) (indexed_files db)
  then Raise IntegrityError
  else Ok (count, mkSession [] (scan_results db) (foreign_keys db)).

Definition add_scan_result (db : Session) (scan_id' file_path' : string)
    (match_type' : MatchType) (score' : float) (matched_file_id' : string)
    (now : datetime)
  : result (Data.ScanResultData * Session) :=
  match Py.int matched_file_id' with
  | None => Raise ValueError
  | Some n =>
      let r :=
        mkScanResult (next_id (List.map result_id (scan_results db)))
          scan_id' file_path' match_type' score' n now in
      if foreign_keys db && negb (List.existsb (fun m => id m =? n)
                                    (indexed_files db))
      then Raise IntegrityError
      else Ok (_scan_result_to_data db r,
               mkSession (indexed_files db) (scan_results db ++ [r])
                 (foreign_keys db))
  end.

Definition get_scan_results (db : Session) (sid : string)
  : list Data.ScanResultData :=
  List.map (_scan_result_to_data db)
    (List.filter (fun r => String.eqb (scan_id r) sid) (scan_results db)).

Definition get_all_scan_results (db : Session) : list Data.ScanResultData :=
  List.map (_scan_result_to_data db) (scan_results db).

Definition count_scan_results (db : Session) : Z :=
  Z.of_nat (List.length (scan_results db)).

End SQLite.

(** ** storage_redis.py *)

Module Redis.

(** The JSON documents the backend stores under [file:{uuid}] and
    [result:{uuid}]. *)
Inductive Doc : Type :=
| FileDoc (path filename file_hash : string) (last_modified : float)
    (indexed_at : datetime) (vector : option (list float))
| ResultDoc (scan_id file_path : string) (match_type : Models.MatchType)
    (score : float) (matched_file_id : string)
    (matched_file_path matched_file_name : option string)
    (timestamp : datetime).

Definition FILE_PREFIX : string := "file:".
Definition RESULT_PREFIX : string := "result:".

(** [scan_iter] with the pattern [prefix] followed by a star: the keys that
    start with [prefix]. *)
Definition scan_iter (prefix : string) (db : gmap string Doc) : list string :=
  List.filter (String.prefix prefix) (map_to_list db).*1.

(** [delete] applied to all the keys of a list. *)
Definition delete_keys (keys : list string) (db : gmap string Doc)
  : gmap string Doc :=
  fold_right delete db keys.

Definition delete_all_indexed_files (db : gmap string Doc)
  : Z * gmap string Doc :=
  let file_keys := scan_iter FILE_PREFIX db in
  let result_keys := scan_iter RESULT_PREFIX db in
  let file_count := Z.of_nat (List.length file_keys) in
  let db := match file_keys with [] => db | _ => delete_keys file_keys db end in
  let db := match result_keys with
            | [] => db
            | _ => delete_keys result_keys db
            end in
  (file_count, db).

Definition delete_indexed_file (db : gmap string Doc) (file_id : string)
  : bool * gmap string Doc :=
  let key := FILE_PREFIX +:+ file_id in
  (bool_decide (is_Some (db !! key)), delete key db).

(** [json().get(key)], then the fields read with their defaults; the
    vector is never handed back. *)
Definition get_indexed_file_by_id (db : gmap string Doc) (file_id : string)
    (now : datetime) : option Data.IndexedFileData :=
  match db !! (FILE_PREFIX +:+ file_id) with
  | None => None
  | Some (FileDoc p f h m t _) =>
      Some (Data.mkIndexedFileData file_id p f h None m t)
  | Some (ResultDoc _ _ _ _ _ _ _ _) =>
      Some (Data.mkIndexedFileData file_id "" "" "" None (0 # 1) now)
  end.

(** The fallback of [_get_file_id_by_path], taken when the index query
    fails: the first key of the scan whose document has the path. *)
Definition scan_for_path (db : gmap string Doc) (path : string)
  : option string :=
  List.find
    (fun key => match db !! key with
                | Some (FileDoc p _ _ _ _ _) => String.eqb p path
                | _ => false
                end) (scan_iter FILE_PREFIX db).

Section WithServer.

(** The search module of the server, the vector conversions and pickling
    are not part of the repository: [ft_search_path db p] is the key of the
    first document the file index returns for the path query (or that the
    fallback scan finds), [ft_search_hash db h] the same for the hash tag
    query, which may fail; [_vector_to_bytes] is the dense float32 form of a
    pickled sparse vector and [pickle_dense] the pickled sparse form of a
    dense one. *)
Variable ft_search_path : gmap string Doc -> string -> option string.
Variable ft_search_hash : gmap string Doc -> string -> result (option string).
Variable _vector_to_bytes : bytes -> option (list float).
Variable pickle_dense : list float -> bytes.

Definition _get_file_id_by_path (db : gmap string Doc) (path : string)
  : option string :=
  Py.remove_all FILE_PREFIX <$> ft_search_path db path.

Definition add_or_update_indexed_file (db : gmap string Doc)
    (path filename file_hash : string) (vector : option bytes)
    (last_modified : float) (now : datetime) (uuid4 : string)
  : Data.IndexedFileData * gmap string Doc :=
  let file_id :=
    match _get_file_id_by_path db path with
    | Some (String c r) => String c r
    | _ => uuid4
    end in
  let dense :=
    match vector with
    | Some (b :: v) =>
        match _vector_to_bytes (b :: v) with
        | Some (x :: xs) => Some (x :: xs)
        | _ => None
        end
    | _ => None
    end in
  let doc := FileDoc path filename file_hash last_modified now dense in
  (Data.mkIndexedFileData file_id path filename file_hash vector
     last_modified now,
   <[FILE_PREFIX +:+ file_id := doc]> db).

Definition get_indexed_file_by_path (db : gmap string Doc) (path : string)
    (now : datetime) : option Data.IndexedFileData :=
  match _get_file_id_by_path db path with
  | Some (String c r) => get_indexed_file_by_id db (String c r) now
  | _ => None
  end.

Definition find_by_hash (db : gmap string Doc) (file_hash : string)
    (now : datetime) : option Data.IndexedFileData :=
  match ft_search_hash db file_hash with
  | Ok (Some key) =>
      let file_id := Py.remove_all FILE_PREFIX key in
      Some match db !! key with
           | Some (FileDoc p f _ m t _) =>
               Data.mkIndexedFileData file_id p f file_hash None m t
           | _ =>
               Data.mkIndexedFileData file_id "" "" file_hash None (0 # 1) now
           end
  | _ => None
  end.

Definition get_indexed_files_with_vectors (db : gmap string Doc)
  : list (string * bytes) :=
  omap (fun key =>
          match db !! key with
          | Some (FileDoc _ _ _ _ _ (Some (x :: xs))) =>
              Some (Py.remove_all FILE_PREFIX key, pickle_dense (x :: xs))
          | _ => None
          end) (scan_iter FILE_PREFIX db).

Definition add_scan_result (db : gmap string Doc)
    (scan_id file_path : string) (match_type : Models.MatchType)
    (score : float) (matched_file_id : string) (now : datetime)
    (uuid4 : string) : Data.ScanResultData * gmap string Doc :=
  let matched_file := get_indexed_file_by_id db matched_file_id now in
  let doc :=
    ResultDoc scan_id file_path match_type score matched_file_id
      (Data.path <$> matched_file) (Data.filename <$> matched_file) now in
  (Data.mkScanResultData uuid4 scan_id file_path match_type score
     matched_file_id (Data.path <$> matched_file)
     (Data.filename <$> matched_file) now,
   <[RESULT_PREFIX +:+ uuid4 := doc]> db).

End WithServer.

End Redis.

(** ** storage_interface.py: the contract of the two backends

    The clock reading and the UUID a call may draw are arguments. *)

Class StorageBackendInterface (S : Type) : Type := {
  add_or_update_indexed_file :
    S -> string -> string -> string -> option bytes -> float ->
    datetime -> string -> Data.IndexedFileData * S;
  get_indexed_file_by_path :
    S -> string -> datetime -> option Data.IndexedFileData;
  find_by_hash : S -> string -> datetime -> option Data.IndexedFileData;
  get_indexed_files_with_vectors : S -> list (string * bytes);
  delete_all_indexed_files : S -> result (Z * S);
  add_scan_result :
    S -> string -> string -> Models.MatchType -> float -> string ->
    datetime -> string -> result (Data.ScanResultData * S)
}.

#[global] Instance SQLiteStorageBackend : StorageBackendInterface SQLite.Session := {
  add_or_update_indexed_file db p f h v m now _ :=
    SQLite.add_or_update_indexed_file db p f h v m now;
  get_indexed_file_by_path db p _ := SQLite.get_indexed_file_by_path db p;
  find_by_hash db h _ := SQLite.find_by_hash db h;
  get_indexed_files_with_vectors := SQLite.get_indexed_files_with_vectors;
  delete_all_indexed_files := SQLite.delete_all_indexed_files;
  add_scan_result db sid fp mt sc mid now _ :=
    SQLite.add_scan_result db sid fp mt sc mid now
}.

Definition RedisStorageBackend
    (ft_search_path : gmap string Redis.Doc -> string -> option string)
    (ft_search_hash :
       gmap string Redis.Doc -> string -> result (option string))
    (_vector_to_bytes : bytes -> option (list float))
    (pickle_dense : list float -> bytes)
  : StorageBackendInterface (gmap string Redis.Doc) := {|
  add_or_update_indexed_file :=
    Redis.add_or_update_indexed_file ft_search_path _vector_to_bytes;
  get_indexed_file_by_path := Redis.get_indexed_file_by_path ft_search_path;
  find_by_hash := Redis.find_by_hash ft_search_hash;
  get_indexed_files_with_vectors :=
    Redis.get_indexed_files_with_vectors pickle_dense;
  delete_all_indexed_files db := Ok (Redis.delete_all_indexed_files db);
  add_scan_result db sid fp mt sc mid now uuid4 :=
    Ok (Redis.add_scan_result db sid fp mt sc mid now uuid4)
|}.

(** ** progress_store.py *)

Module Progress.

Record TaskProgress : Type := mkTaskProgress {
  task_id : string;
  task_type : string;
  status : string;
  total_files : Z;
  files_processed : Z;
  matches_found : Z;
  files_indexed : Z;
  current_file : string;
  started_at : datetime;
  completed_at : option datetime;
  error_message : option string
}.

(** One keyword argument of [update_task].  [other key] is a keyword that
    names no attribute of [TaskProgress] ([hasattr] is false), such as the
    scanner's [files_scanned]. *)
Inductive kwarg : Type :=
| kw_task_id (v : string)
| kw_task_type (v : string)
| kw_status (v : string)
| kw_total_files (v : Z)
| kw_files_processed (v : Z)
| kw_matches_found (v : Z)
| kw_files_indexed (v : Z)
| kw_current_file (v : string)
| kw_started_at (v : datetime)
| kw_completed_at (v : option datetime)
| kw_error_message (v : option string)
| kw_other (key : string).

(** [if hasattr(progress, key): setattr(progress, key, value)] *)
Definition setattr (p : TaskProgress) (kw : kwarg) : TaskProgress :=
  let '(mkTaskProgress a b c d e f g h i j k) := p in
  match kw with
  | kw_task_id v => mkTaskProgress v b c d e f g h i j k
  | kw_task_type v => mkTaskProgress a v c d e f g h i j k
  | kw_status v => mkTaskProgress a b v d e f g h i j k
  | kw_total_files v => mkTaskProgress a b c v e f g h i j k
  | kw_files_processed v => mkTaskProgress a b c d v f g h i j k
  | kw_matches_found v => mkTaskProgress a b c d e v g h i j k
  | kw_files_indexed v => mkTaskProgress a b c d e f v h i j k
  | kw_current_file v => mkTaskProgress a b c d e f g v i j k
  | kw_started_at v => mkTaskProgress a b c d e f g h v j k
  | kw_completed_at v => mkTaskProgress a b c d e f g h i v k
  | kw_error_message v => mkTaskProgress a b c d e f g h i j v
  | kw_other _ => p
  end.

(** An [asyncio.Queue()] (unbounded, so [put_nowait] never finds it full):
    its identity and the snapshots put on it, oldest first.  A snapshot is
    the value of the task's fields at publication. *)
Record Queue : Type := mkQueue {
  qid : nat;
  items : list TaskProgress
}.

Record ProgressStore : Type := mkProgressStore {
  _tasks : gmap string TaskProgress;
  _subscribers : gmap string (list Queue);
  _cancelled : gset string;
  next_qid : nat
}.

Definition init : ProgressStore := mkProgressStore ∅ ∅ ∅ 0.

Definition put_nowait (snapshot : TaskProgress) (q : Queue) : Queue :=
  mkQueue (qid q) (items q ++ [snapshot]).

Definition _notify_subscribers (ps : ProgressStore) (tid : string)
  : ProgressStore :=
  match _tasks ps !! tid, _subscribers ps !! tid with
  | Some progress, Some queues =>
      mkProgressStore (_tasks ps)
        (<[tid := List.map (put_nowait progress) queues]> (_subscribers ps))
        (_cancelled ps) (next_qid ps)
  | _, _ => ps
  end.

Definition update_task (ps : ProgressStore) (tid : string)
    (kwargs : list kwarg) : option TaskProgress * ProgressStore :=
  match _tasks ps !! tid with
  | Some progress =>
      let progress := fold_left setattr kwargs progress in
      let ps := mkProgressStore (<[tid := progress]> (_tasks ps))
                  (_subscribers ps) (_cancelled ps) (next_qid ps) in
      (Some progress, _notify_subscribers ps tid)
  | None => (None, ps)
  end.

Definition update_scan := update_task.

Definition create_task (ps : ProgressStore) (tid ttype : string)
    (now : datetime) : TaskProgress * ProgressStore :=
  let progress :=
    mkTaskProgress tid ttype "pending" 0 0 0 0 "" now None None in
  (progress,
   mkProgressStore (<[tid := progress]> (_tasks ps))
     (<[tid := []]> (_subscribers ps)) (_cancelled ps) (next_qid ps)).

Definition create_scan (ps : ProgressStore) (sid : string) (now : datetime) :=
  create_task ps sid "scan" now.

Definition create_index (ps : ProgressStore) (iid : string) (now : datetime) :=
  create_task ps iid "index" now.

Definition get_task (ps : ProgressStore) (tid : string)
  : option TaskProgress := _tasks ps !! tid.

Definition get_scan := get_task.

Definition cancel_task (ps : ProgressStore) (tid : string)
  : bool * ProgressStore :=
  match _tasks ps !! tid with
  | Some _ =>
      let ps := mkProgressStore (_tasks ps) (_subscribers ps)
                  ({[tid]} ∪ _cancelled ps) (next_qid ps) in
      (true, (update_task ps tid [kw_status "cancelling"]).2)
  | None => (false, ps)
  end.

Definition is_cancelled (ps : ProgressStore) (tid : string) : bool :=
  bool_decide (tid ∈ _cancelled ps).

Definition clear_cancelled (ps : ProgressStore) (tid : string)
  : ProgressStore :=
  mkProgressStore (_tasks ps) (_subscribers ps) (_cancelled ps ∖ {[tid]})
    (next_qid ps).

Definition subscribe (ps : ProgressStore) (tid : string)
  : Queue * ProgressStore :=
  let queue := mkQueue (next_qid ps) [] in
  (queue,
   mkProgressStore (_tasks ps)
     (<[tid := (default [] (_subscribers ps !! tid) ++ [queue])%list]>
        (_subscribers ps))
     (_cancelled ps) (S (next_qid ps))).

(** [list.remove]: the first occurrence goes. *)
Fixpoint remove_first (n : nat) (qs : list Queue) : list Queue :=
  match qs with
  | [] => []
  | q :: r => if Nat.eqb (qid q) n then r else q :: remove_first n r
  end.

Definition unsubscribe (ps : ProgressStore) (tid : string) (queue : nat)
  : ProgressStore :=
  match _subscribers ps !! tid with
  | Some qs =>
      mkProgressStore (_tasks ps)
        (<[tid := remove_first queue qs]> (_subscribers ps))
        (_cancelled ps) (next_qid ps)
  | None => ps
  end.

Definition cleanup (ps : ProgressStore) (tid : string) : ProgressStore :=
  mkProgressStore (delete tid (_tasks ps)) (delete tid (_subscribers ps))
    (_cancelled ps ∖ {[tid]}) (next_qid ps).

End Progress.

(** ** ignored_files_config.py *)

Module Fnmatch.

(** A model of the standard library's [fnmatch.fnmatch] on a POSIX system
    (where [os.path.normcase] is the identity), after [fnmatch.translate]:
    a star matches any run of characters, a question mark any one
    character, a bracket expression one character of a set. *)
Inductive token : Type :=
| TStar
| TAny
| TLit (c : ascii)
| TSet (negated : bool) (ranges : list (ascii * ascii)).

Definition singles (cs : list ascii) : list (ascii * ascii) :=
  List.map (fun c => (c, c)) cs.

Definition code (c : ascii) : nat := nat_of_ascii c.

(** The text between the brackets is cut at the hyphens that can stand for
    a range: [skip] characters are passed over before a hyphen counts (one
    at the start, two after a leading exclamation mark or a hyphen). [cur]
    is the current chunk, reversed. *)
Fixpoint chunks_of (skip : nat) (cur : list ascii) (stuff : list ascii)
  : list (list ascii) :=
  match stuff with
  | [] => [List.rev cur]
  | c :: r =>
      match skip with
      | S n => chunks_of n (c :: cur) r
      | O => if Ascii.eqb c "-"
             then List.rev cur :: chunks_of 2 [] r
             else chunks_of 0 (c :: cur) r
      end
  end.

(** A hyphen in last position is a plain character of the chunk before. *)
Fixpoint close_chunks (cs : list (list ascii)) : list (list ascii) :=
  match cs with
  | [c; []] => [(c ++ ["-"%char])%list]
  | c :: r => c :: close_chunks r
  | [] => []
  end.

(** Ranges whose ends are in the wrong order are dropped, right to left. *)
Definition drop_empty_ranges (cs : list (list ascii)) : list (list ascii) :=
  fold_right
    (fun c acc =>
       match acc with
       | d :: ds =>
           match List.last c "-"%char, d with
           | lo, hi :: d' =>
               if Nat.ltb (code hi) (code lo)
               then (List.removelast c ++ d')%list :: ds
               else c :: acc
           | _, [] => c :: acc
           end
       | [] => [c]
       end) [] cs.

(** The set a list of chunks stands for: between two chunks, a range from
    the last character of the first to the first of the second. *)
Fixpoint items_from (cur : list ascii) (rest : list (list ascii))
  : list (ascii * ascii) :=
  match rest with
  | [] => singles cur
  | d :: rest' =>
      (singles (List.removelast cur)
         ++ [(List.last cur "-"%char, List.hd "-"%char d)]
         ++ items_from (List.tl d) rest')%list
  end.

Definition set_of (stuff : list ascii) : token :=
  let chunks :=
    if List.existsb (Ascii.eqb "-") stuff
    then drop_empty_ranges
           (close_chunks
              (chunks_of (match stuff with
                          | "!"%char :: _ => 2%nat
                          | _ => 1%nat
                          end) [] stuff))
    else [stuff] in
  match chunks with
  | ("!"%char :: c) :: rest => TSet true (items_from c rest)
  | c :: rest => TSet false (items_from c rest)
  | [] => TSet false []
  end.

(** Where the bracket expression that starts at [r] (just after the opening
    bracket) ends: its text and what follows the closing bracket. A closing
    bracket that comes first, or first after an exclamation mark, is a
    member of the set. *)
Fixpoint until_close (acc : list ascii) (r : list ascii)
  : option (list ascii * list ascii) :=
  match r with
  | [] => None
  | c :: r' =>
      if Ascii.eqb c "]" then Some (List.rev acc, r')
      else until_close (c :: acc) r'
  end.

Definition bracket (r : list ascii) : option (list ascii * list ascii) :=
  match r with
  | "!"%char :: "]"%char :: r' => until_close ["]"; "!"]%char r'
  | "!"%char :: r' => until_close ["!"%char] r'
  | "]"%char :: r' => until_close ["]"%char] r'
  | _ => until_close [] r
  end.

Fixpoint translate (fuel : nat) (pat : list ascii) : list token :=
  match fuel, pat with
  | S fuel, c :: r =>
      if Ascii.eqb c "*" then TStar :: translate fuel r
      else if Ascii.eqb c "?" then TAny :: translate fuel r
      else if Ascii.eqb c "[" then
             match bracket r with
             | Some (stuff, r') => set_of stuff :: translate fuel r'
             | None => TLit c :: translate fuel r
             end
      else TLit c :: translate fuel r
  | _, _ => []
  end.

Definition in_set (negated : bool) (ranges : list (ascii * ascii))
    (c : ascii) : bool :=
  xorb negated
    (List.existsb
       (fun '(lo, hi) => Nat.leb (code lo) (code c)
                         && Nat.leb (code c) (code hi)) ranges).

Fixpoint matches (ts : list token) : list ascii -> bool :=
  match ts with
  | [] => fun s => match s with [] => true | _ => false end
  | TStar :: ts' =>
      let k := matches ts' in
      fix star (s : list ascii) : bool :=
        k s || match s with [] => false | _ :: r => star r end
  | TAny :: ts' =>
      fun s => match s with [] => false | _ :: r => matches ts' r end
  | TLit c :: ts' =>
      fun s => match s with
               | [] => false
               | d :: r => Ascii.eqb c d && matches ts' r
               end
  | TSet neg rs :: ts' =>
      fun s => match s with
               | [] => false
               | d :: r => in_set neg rs d && matches ts' r
               end
  end.

Definition fnmatch (name pat : string) : bool :=
  let p := list_ascii_of_string pat in
  matches (translate (List.length p) p) (list_ascii_of_string name).

End Fnmatch.

Module Ignore.

Record IgnoredFilesConfig : Type := mkIgnoredFilesConfig {
  patterns : list string
}.

Section WithFnmatch.

(** [fnmatch.fnmatch (name, pattern)] of the standard library. *)
Variable fnmatch : string -> string -> bool.

(** The test the code makes for an exact pattern: neither a star nor a
    question mark in it. *)
Definition no_wildcard (pattern : string) : bool :=
  negb (Py.contains "*" pattern) && negb (Py.contains "?" pattern).

(** The [for pattern in self.patterns] loop. *)
Fixpoint matches_any (basename : string) (patterns : list string) : bool :=
  match patterns with
  | [] => false
  | pattern :: rest =>
      if fnmatch basename pattern then true
      else if no_wildcard pattern
              && String.eqb (Py.lower basename) (Py.lower pattern)
           then true
           else matches_any basename rest
  end.

Definition should_ignore (cfg : IgnoredFilesConfig) (filename : string)
  : bool :=
  match patterns cfg with
  | [] => false
  | _ => matches_any (Py.basename filename) (patterns cfg)
  end.

End WithFnmatch.

End Ignore.

(** ** similarity_config.py and the matcher of scanner.py *)

Module Similarity.

Import Models.

Inductive SensitivityLevel : Type :=
| LOW
| MEDIUM
| HIGH
| CUSTOM.

Record SimilarityConfig : Type := mkSimilarityConfig {
  sensitivity_level : SensitivityLevel;
  similarity_threshold : float;
  high_confidence_threshold : float;
  exact_match_threshold : float;
  n_features : Z;
  ngram_range_min : Z;
  ngram_range_max : Z;
  use_idf : bool;
  sublinear_tf : bool;
  max_df : float;
  min_df : Z;
  require_multiple_matches : bool;
  min_content_length : Z
}.

(** The dataclass defaults, with the fields the presets override as
    arguments. *)
Definition preset (level : SensitivityLevel) (sim high : float)
    (multiple : bool) (nmin nmax : Z) : SimilarityConfig :=
  mkSimilarityConfig level sim high (Py.double (98 # 100)) 8192 nmin nmax
    true true (Py.double (95 # 100)) 1 multiple 50.

Definition from_sensitivity_level (level : SensitivityLevel)
  : SimilarityConfig :=
  match level with
  | LOW => preset level (Py.double (80 # 100)) (Py.double (92 # 100)) true 2 4
  | HIGH => preset level (Py.double (50 # 100)) (Py.double (75 # 100)) false 1 2
  | _ => preset level (Py.double (65 # 100)) (Py.double (85 # 100)) true 1 3
  end.

(** [get_match_type] reads the thresholds of the configuration store. *)
Definition get_match_type (config : SimilarityConfig) (score : float)
  : MatchType :=
  if Qle_bool (exact_match_threshold config) score then exact
  else if Qle_bool (high_confidence_threshold config) score
       then high_confidence
       else similarity.

(** [enumerate] *)
Definition enumerate {A : Type} (l : list A) : list (nat * A) :=
  List.combine (List.seq 0 (List.length l)) l.

(** A stable sort by decreasing score, as [sort(key=..., reverse=True)]. *)
Fixpoint insert_desc {A : Type} (key : A -> float) (x : A) (l : list A)
  : list A :=
  match l with
  | [] => [x]
  | y :: r =>
      if Qle_bool (key y) (key x) then x :: l
      else y :: insert_desc key x r
  end.

Definition sort_desc {A : Type} (key : A -> float) (l : list A) : list A :=
  fold_right (insert_desc key) [] l.

(** A loop whose body may raise. *)
Fixpoint for_each {A B : Type} (body : A -> result (option B)) (l : list A)
  : result (list B) :=
  match l with
  | [] => Ok []
  | a :: r =>
      b ← body a;
      bs ← for_each body r;
      Ok (match b with Some b => b :: bs | None => bs end)
  end.

(** The widened n-gram window of the secondary check. *)
Definition secondary_ngram_min (config : SimilarityConfig) : Z :=
  Z.max 1 (ngram_range_min config - 1).

Definition secondary_ngram_max (config : SimilarityConfig) : Z :=
  Z.min 5 (ngram_range_max config + 1).

Definition window_differs (config : SimilarityConfig) : bool :=
  negb (secondary_ngram_min config =? ngram_range_min config)
  || negb (secondary_ngram_max config =? ngram_range_max config).

(** [len(content)] *)
Definition len (content : string) : Z := Z.of_nat (String.length content).

Section WithVectorizer.

(** The vectorizer and the cosine kernel are scikit-learn's:
    [cosine_scores n nmin nmax content matrix] stands for the flattened
    [cosine_similarity] of the [HashingVectorizer] transform of [content]
    (with [n] features and n-gram range [(nmin, nmax)]) against [matrix],
    and may raise. *)
Variable Matrix : Type.
Variable cosine_scores :
  Z -> Z -> Z -> string -> Matrix -> result (list float).

(** The validation loop over the primary candidates. *)
Definition validated_candidates (threshold : float)
    (secondary_scores : list float) (candidates : list (nat * float))
  : result (list (nat * float)) :=
  for_each
    (fun '(idx, primary_score) =>
       match List.nth_error secondary_scores idx with
       | None => Raise IndexError
       | Some secondary_score =>
           if Qle_bool (Py.float_mul threshold (Py.double (8 # 10)))
                secondary_score
           then Ok (Some (idx,
                          Py.float_truediv
                            (Py.float_add primary_score secondary_score)
                            (2 # 1)))
           else Ok None
       end) candidates.

(** The candidates that go on to be classified: the primary ones, or the
    validated ones when the secondary check runs. *)
Definition retained_candidates (content : string) (matrix : Matrix)
    (config : SimilarityConfig) (candidates : list (nat * float))
  : result (list (nat * float)) :=
  if require_multiple_matches config && (200 <=? len content)
  then
    if window_differs config
    then
      secondary_scores ←
        cosine_scores (n_features config) (secondary_ngram_min config)
          (secondary_ngram_max config) content matrix;
      validated_candidates (similarity_threshold config) secondary_scores
        candidates
    else Ok candidates
  else Ok candidates.

(** The body of the [try] block; [store_config] is the configuration of the
    store, which [get_match_type] reads. *)
Definition similarity_matches {Id : Type} (store_config : SimilarityConfig)
    (content : string) (matrix : Matrix) (indexed_ids : list Id)
    (config : SimilarityConfig) : result (list (Id * float * MatchType)) :=
  primary_scores ←
    cosine_scores (n_features config) (ngram_range_min config)
      (ngram_range_max config) content matrix;
  let threshold := similarity_threshold config in
  let candidates :=
    List.filter (fun '(i, score) => Qle_bool threshold score)
      (enumerate primary_scores) in
  match candidates with
  | [] => Ok []
  | _ =>
      candidates ← retained_candidates content matrix config candidates;
      matches ←
        for_each
          (fun '(idx, score) =>
             match List.nth_error indexed_ids idx with
             | None => Raise IndexError
             | Some i => Ok (Some (i, score, get_match_type store_config score))
             end) candidates;
      Ok (List.firstn 5 (sort_desc (fun m => snd (fst m)) matches))
  end.

Definition compute_similarity_with_validation {Id : Type}
    (store_config : SimilarityConfig) (content : string) (matrix : Matrix)
    (indexed_ids : list Id) (config : SimilarityConfig)
  : list (Id * float * MatchType) :=
  match similarity_matches store_config content matrix indexed_ids config with
  | Ok matches => matches
  | Raise _ => []
  end.

End WithVectorizer.

End Similarity.

(** ** What the pipelines read from the file system *)

Module Fs.

(** One file of a directory walk, with the outcome of each access the
    pipelines make to it: [os.stat(path).st_mtime], [get_file_hash(path)]
    (either may raise [PermissionError] or [OSError]), [is_text_file(path)]
    and [extract_text_from_file(path)] (which returns the empty string on
    failure). *)
Record File : Type := mkFile {
  name : string;
  path : string;
  st_mtime : result float;
  get_file_hash : result string;
  is_text_file : bool;
  extract_text_from_file : string
}.

End Fs.

(** ** scanner.py: the sequential pipeline *)

Module Scanner.

Import Models Similarity Progress.

(** What happens while a scan runs: the walk hands over the next file
    (together with the clock reading and the UUID the storage backend would
    use for it), or some other thread calls [cancel_task] for the scan. *)
Inductive event : Type :=
| walk_file (f : Fs.File) (now : datetime) (uuid4 : string)
| cancel_requested.

Definition files_of (script : list event) : list Fs.File :=
  omap (fun e => match e with
                 | walk_file f _ _ => Some f
                 | cancel_requested => None
                 end) script.

(** The loop state: the progress store, the storage, and the two
    counters. *)
Record state (S : Type) : Type := mkState {
  ps : ProgressStore;
  store : S;
  files_scanned : Z;
  matches_found : Z
}.

Arguments mkState {S}.
Arguments ps {S}.
Arguments store {S}.
Arguments files_scanned {S}.
Arguments matches_found {S}.

(** Another thread calls [cancel_task] for the scan. *)
Definition cancel {T : Type} (scan_id : string) (st : state T) : state T :=
  mkState (cancel_task (ps st) scan_id).2 (store st) (files_scanned st)
    (matches_found st).

(** The [for root, dirs, files in os.walk(directory)] loop over the files,
    with the body [file_step]; a cancel request only changes the progress
    store. *)
Definition loop {T : Type} (scan_id : string)
    (file_step : Fs.File -> datetime -> string -> state T -> state T)
    (script : list event) (st : state T) : state T :=
  fold_left
    (fun st e =>
       match e with
       | walk_file f now uuid4 => file_step f now uuid4 st
       | cancel_requested => cancel scan_id st
       end) script st.

Section WithEnvironment.

Variable fnmatch : string -> string -> bool.
Variable ignored_files_store : Ignore.IgnoredFilesConfig.

(** scikit-learn, scipy and pickle: the vectors, [pickle.loads] (which may
    fail), [vstack] (which raises on rows of different widths) and the
    cosine scores of [Similarity]. *)
Variable Vec Matrix : Type.
Variable pickle_loads : bytes -> option Vec.
Variable vstack : list Vec -> result Matrix.
Variable cosine_scores :
  Z -> Z -> Z -> string -> Matrix -> result (list float).

Definition count_files (files : list Fs.File) : Z :=
  Z.of_nat
    (List.length
       (List.filter
          (fun f => negb (Ignore.should_ignore fnmatch ignored_files_store
                            (Fs.name f))) files)).

(** The vectors that unpickle, stacked, and the parallel list of ids;
    no matrix when there is none. *)
Definition stack_vectors {Id : Type} (files_with_vectors : list (Id * bytes))
  : result (option Matrix * list Id) :=
  let loaded :=
    omap (fun '(file_id, vector_bytes) =>
            match pickle_loads vector_bytes with
            | Some v => Some (file_id, v)
            | None => None
            end) files_with_vectors in
  match loaded with
  | [] => Ok (None, [])
  | _ => matrix ← vstack (List.map snd loaded);
         Ok (Some matrix, List.map fst loaded)
  end.

(** The similarity check of one file: the top match, if the file is textual,
    long enough, and a match survives. *)
Definition top_similarity_match {Id : Type} (config : SimilarityConfig)
    (matrix : option Matrix) (indexed_ids : list Id) (f : Fs.File)
  : option (Id * float * MatchType) :=
  match matrix with
  | Some matrix =>
      if Fs.is_text_file f then
        let content := Fs.extract_text_from_file f in
        if String.eqb content ""
           || (len (Py.strip content) <? min_content_length config)
        then None
        else List.head
               (compute_similarity_with_validation Matrix cosine_scores
                  config content matrix indexed_ids config)
      else None
  | None => None
  end.

Definition progress_file {S : Type} (scan_id : string) (f : Fs.File)
    (st : state S) : state S :=
  mkState
    (update_scan (ps st) scan_id
       [kw_other "files_scanned"; kw_current_file (Fs.path f)]).2
    (store st) (files_scanned st + 1) (matches_found st).

Definition progress_match {S : Type} (scan_id : string) (store' : S)
    (st : state S) : state S :=
  mkState
    (update_scan (ps st) scan_id [kw_matches_found (matches_found st + 1)]).2
    store' (files_scanned st) (matches_found st + 1).

(** [db.add(ScanResult(...))]; the row gets its key and its timestamp when
    the session is flushed, at [commit_time]. *)
Definition db_add (db : SQLite.Session) (scan_id file_path : string)
    (match_type : MatchType) (score : float) (matched_file_id : Z)
    (commit_time : datetime) : SQLite.Session :=
  SQLite.mkSession (SQLite.indexed_files db)
    (SQLite.scan_results db
       ++ [mkScanResult
             (SQLite.next_id (List.map result_id (SQLite.scan_results db)))
             scan_id file_path match_type score matched_file_id commit_time])
    (SQLite.foreign_keys db).

(** One file in the relational branch. *)
Definition scan_file_db (config : SimilarityConfig) (matrix : option Matrix)
    (indexed_ids : list Z) (scan_id : string) (commit_time : datetime)
    (f : Fs.File) (st : state SQLite.Session) : state SQLite.Session :=
  let st := progress_file scan_id f st in
  let db := store st in
  match Fs.get_file_hash f with
  | Raise _ => st
  | Ok file_hash =>
      match SQLite.first_by_hash db file_hash with
      | Some exact_match =>
          progress_match scan_id
            (db_add db scan_id (Fs.path f) exact (1 # 1) (id exact_match)
               commit_time) st
      | None =>
          match top_similarity_match config matrix indexed_ids f with
          | Some (matched_id, score, match_type) =>
              progress_match scan_id
                (db_add db scan_id (Fs.path f) match_type score matched_id
                   commit_time) st
          | None => st
          end
      end
  end.

Section WithStorage.

Context {S : Type} `{StorageBackendInterface S}.

(** One file in [_scan_with_storage]. *)
Definition scan_file_storage (config : SimilarityConfig)
    (matrix : option Matrix) (indexed_ids : list string) (scan_id : string)
    (f : Fs.File) (now : datetime) (uuid4 : string) (st : state S)
  : state S :=
  let st := progress_file scan_id f st in
  let storage := store st in
  match Fs.get_file_hash f with
  | Raise _ => st
  | Ok file_hash =>
      match find_by_hash storage file_hash now with
      | Some exact_match =>
          match add_scan_result storage scan_id (Fs.path f) exact (1 # 1)
                  (Data.id exact_match) now uuid4 with
          | Ok (_, storage') => progress_match scan_id storage' st
          | Raise _ => st
          end
      | None =>
          match top_similarity_match config matrix indexed_ids f with
          | Some (matched_id, score, match_type) =>
              match add_scan_result storage scan_id (Fs.path f) match_type
                      score matched_id now uuid4 with
              | Ok (_, storage') => progress_match scan_id storage' st
              | Raise _ => st
              end
          | None => st
          end
      end
  end.

Definition _scan_with_storage (script : list event) (scan_id : string)
    (storage : S) (config : SimilarityConfig) (ps0 : ProgressStore)
  : result (state S) :=
  '(matrix, indexed_ids) ←
    stack_vectors (get_indexed_files_with_vectors storage);
  Ok (loop scan_id
        (fun f now uuid4 st =>
           scan_file_storage config matrix indexed_ids scan_id f now uuid4 st)
        script (mkState ps0 storage 0 0)).

(** The rows with a non-NULL vector, of which the non-empty ones are kept,
    with their integer keys. *)
Definition rows_with_vectors (db : SQLite.Session) : list (Z * bytes) :=
  omap (fun m => match vector m with
                 | Some (b :: v) => Some (id m, b :: v)
                 | _ => None
                 end) (SQLite.indexed_files db).

Definition scan_relational (script : list event) (scan_id : string)
    (db : SQLite.Session) (config : SimilarityConfig)
    (commit_time : datetime) (ps0 : ProgressStore)
  : result (state SQLite.Session) :=
  '(matrix, indexed_ids) ← stack_vectors (rows_with_vectors db);
  Ok (loop scan_id
        (fun f _ _ st =>
           scan_file_db config matrix indexed_ids scan_id commit_time f st)
        script (mkState ps0 db 0 0)).

(** [_scan_directory_sequential]: [is_redis] and [config] are what the
    storage and similarity configuration stores hold; [script] is the walk
    of the directory, interleaved with the cancel requests of other
    threads. The result is the progress store, the session and the
    storage handle. *)
Definition _scan_directory_sequential (is_redis : bool)
    (config : SimilarityConfig) (script : list event)
    (db : SQLite.Session) (storage : S) (scan_id : string)
    (commit_time end_time : datetime) (ps0 : ProgressStore)
  : result (ProgressStore * SQLite.Session * S) :=
  let ps1 := (update_scan ps0 scan_id [kw_status "counting"]).2 in
  let total_files := count_files (files_of script) in
  let ps2 := (update_scan ps1 scan_id
                [kw_status "scanning"; kw_total_files total_files]).2 in
  '(ps3, db, storage) ←
    (if is_redis
     then st ← _scan_with_storage script scan_id storage config ps2;
          Ok (ps st, db, store st)
     else st ← scan_relational script scan_id db config commit_time ps2;
          Ok (ps st, store st, storage));
  Ok ((update_scan ps3 scan_id
         [kw_status "completed"; kw_completed_at (Some end_time);
          kw_current_file ""]).2, db, storage).

End WithStorage.

End WithEnvironment.

End Scanner.

(** ** indexer.py: indexing one file *)

Module Indexer.

Import Models Similarity.

Section WithVectorizer.

(** [hashing_vector config content]: the pickled [HashingVectorizer]
    transform of [content], or [None] when it raises. *)
Variable hashing_vector : SimilarityConfig -> string -> option bytes.

(** [compute_vector(filepath)], with the configuration of the store. *)
Definition compute_vector (config : SimilarityConfig) (f : Fs.File)
  : option bytes :=
  let content := Fs.extract_text_from_file f in
  if String.eqb content "" then None
  else if len (Py.strip content) <? min_content_length config then None
  else hashing_vector config content.

(** [os.stat] with its two handlers. *)
Definition stat (f : Fs.File) : result float :=
  match Fs.st_mtime f with
  | Ok t => Ok t
  | Raise PermissionError => Raise PermissionError
  | Raise _ => Raise OSError
  end.

(** [_index_single_file(filepath, db)], [now] being the clock at the
    write. *)
Definition _index_single_file (config : SimilarityConfig) (f : Fs.File)
    (db : SQLite.Session) (now : datetime) : result (bool * SQLite.Session) :=
  last_modified' ← stat f;
  let existing := SQLite.first_by_path db (Fs.path f) in
  let unchanged :=
    match existing with
    | Some e =>
        Qeq_bool (last_modified e) last_modified'
        && negb (bool_decide (vector e = None) && Fs.is_text_file f)
    | None => false
    end in
  if unchanged then Ok (false, db)
  else
    file_hash' ← Fs.get_file_hash f;
    let vector_blob :=
      if Fs.is_text_file f then compute_vector config f else None in
    match existing with
    | Some e =>
        let e' := mkIndexedFile (id e) (path e) (filename e) file_hash'
                    vector_blob last_modified' now in
        Ok (true,
            SQLite.mkSession (SQLite.update_row e' (SQLite.indexed_files db))
              (SQLite.scan_results db) (SQLite.foreign_keys db))
    | None =>
        let new_file :=
          mkIndexedFile
            (SQLite.next_id (List.map id (SQLite.indexed_files db)))
            (Fs.path f) (Py.basename (Fs.path f)) file_hash' vector_blob
            last_modified' now in
        Ok (true,
            SQLite.mkSession (SQLite.indexed_files db ++ [new_file])
              (SQLite.scan_results db) (SQLite.foreign_keys db))
    end.

(** [_index_single_file_with_storage(filepath, storage)] *)
Definition _index_single_file_with_storage {S : Type}
    `{StorageBackendInterface S} (config : SimilarityConfig) (f : Fs.File)
    (storage : S) (now : datetime) (uuid4 : string) : result (bool * S) :=
  last_modified' ← stat f;
  let existing := get_indexed_file_by_path storage (Fs.path f) now in
  let unchanged :=
    match existing with
    | Some e =>
        Qeq_bool (Data.last_modified e) last_modified'
        && negb (Fs.is_text_file f && bool_decide (Data.vector e = None))
    | None => false
    end in
  if unchanged then Ok (false, storage)
  else
    file_hash' ← Fs.get_file_hash f;
    let vector_blob :=
      if Fs.is_text_file f then compute_vector config f else None in
    Ok (true,
        (add_or_update_indexed_file storage (Fs.path f)
           (Py.basename (Fs.path f)) file_hash' vector_blob last_modified'
           now uuid4).2).

End WithVectorizer.

(** ** indexer.py: indexing a directory *)

(** The state of [_index_directory_sequential]: the progress store, the
    session and the storage handle, the three counters, and whether the
    loop was left on a cancel request. *)
Record run (S : Type) : Type := mkRun {
  ps : Progress.ProgressStore;
  db : SQLite.Session;
  storage : S;
  files_processed : Z;
  files_indexed : Z;
  files_access_denied : Z;
  cancelled : bool
}.

Arguments mkRun {S}.
Arguments ps {S}.
Arguments db {S}.
Arguments storage {S}.
Arguments files_processed {S}.
Arguments files_indexed {S}.
Arguments files_access_denied {S}.
Arguments cancelled {S}.

Section WithEnvironment.

Variable hashing_vector : SimilarityConfig -> string -> option bytes.
Variable fnmatch : string -> string -> bool.
Variable ignored_files_store : Ignore.IgnoredFilesConfig.

Context {S : Type} `{StorageBackendInterface S}.

(** [count_files(directory)] of [indexer.py]. *)
Definition count_files (files : list Fs.File) : Z :=
  Z.of_nat
    (List.length
       (List.filter
          (fun f => negb (Ignore.should_ignore fnmatch ignored_files_store
                            (Fs.name f))) files)).

(** The [try] block around one file, with its three handlers: the file is
    indexed through the storage abstraction or through the session; a
    [PermissionError] or an [OSError] is counted, any other exception is
    only printed (and the session rolled back, which has nothing to undo:
    the writes come after the last call that can raise). *)
Definition index_file (use_redis : bool) (config : SimilarityConfig)
    (index_id : string) (f : Fs.File) (now : datetime) (uuid4 : string)
    (st : run S) : run S :=
  let indexed (db' : SQLite.Session) (storage' : S) (was_indexed : bool) :=
    if was_indexed
    then mkRun
           (Progress.update_task (ps st) index_id
              [Progress.kw_files_indexed (files_indexed st + 1)]).2
           db' storage' (files_processed st) (files_indexed st + 1)
           (files_access_denied st) (cancelled st)
    else mkRun (ps st) db' storage' (files_processed st) (files_indexed st)
           (files_access_denied st) (cancelled st) in
  let failed (e : exn) :=
    match e with
    | PermissionError | OSError =>
        mkRun (ps st) (db st) (storage st) (files_processed st)
          (files_indexed st) (files_access_denied st + 1) (cancelled st)
    | _ => st
    end in
  if use_redis
  then match _index_single_file_with_storage hashing_vector config f
               (storage st) now uuid4 with
       | Ok (was_indexed, storage') => indexed (db st) storage' was_indexed
       | Raise e => failed e
       end
  else match _index_single_file hashing_vector config f (db st) now with
       | Ok (was_indexed, db') => indexed db' (storage st) was_indexed
       | Raise e => failed e
       end.

(** The body of the walk for one file: an ignored file is passed over
    before anything else; a cancel request is then honoured, and ends the
    walk; otherwise the file is counted, announced and indexed. *)
Definition walk_step (use_redis : bool) (config : SimilarityConfig)
    (index_id : string) (f : Fs.File) (now : datetime) (uuid4 : string)
    (st : run S) : run S :=
  if cancelled st then st
  else if Ignore.should_ignore fnmatch ignored_files_store (Fs.name f) then st
  else if Progress.is_cancelled (ps st) index_id
       then mkRun (ps st) (db st) (storage st) (files_processed st)
              (files_indexed st) (files_access_denied st) true
       else
         let st :=
           mkRun
             (Progress.update_task (ps st) index_id
                [Progress.kw_files_processed (files_processed st + 1);
                 Progress.kw_current_file (Fs.path f)]).2
             (db st) (storage st) (files_processed st + 1) (files_indexed st)
             (files_access_denied st) (cancelled st) in
         index_file use_redis config index_id f now uuid4 st.

(** The walk, interleaved with the cancel requests of other threads. *)
Definition walk (use_redis : bool) (config : SimilarityConfig)
    (index_id : string) (script : list Scanner.event) (st : run S) : run S :=
  fold_left
    (fun st e =>
       match e with
       | Scanner.walk_file f now uuid4 =>
           walk_step use_redis config index_id f now uuid4 st
       | Scanner.cancel_requested =>
           mkRun (Progress.cancel_task (ps st) index_id).2 (db st)
             (storage st) (files_processed st) (files_indexed st)
             (files_access_denied st) (cancelled st)
       end) script st.

(** [_index_directory_sequential]: [use_redis] and [config] are what the
    storage and similarity configuration stores hold; [end_time] and
    [op_end_time] are the two clock readings at the end. The result is the
    final state of the run and the table of index operations. *)
Definition _index_directory_sequential (use_redis : bool)
    (config : SimilarityConfig) (script : list Scanner.event)
    (db0 : SQLite.Session) (storage0 : S)
    (ops : list IndexOperations.IndexOperation) (index_id : string)
    (end_time op_end_time : datetime) (ps0 : Progress.ProgressStore)
  : run S * list IndexOperations.IndexOperation :=
  let ps1 := (Progress.update_task ps0 index_id
                [Progress.kw_status "counting"]).2 in
  let total_files := count_files (Scanner.files_of script) in
  let ps2 := (Progress.update_task ps1 index_id
                [Progress.kw_status "processing";
                 Progress.kw_total_files total_files]).2 in
  let st := walk use_redis config index_id script
              (mkRun ps2 db0 storage0 0 0 0 false) in
  let final_status := if cancelled st then "cancelled" else "completed" in
  let ps3 := (Progress.update_task (ps st) index_id
                [Progress.kw_status final_status;
                 Progress.kw_completed_at (Some end_time);
                 Progress.kw_current_file ""]).2 in
  let ps4 := Progress.clear_cancelled ps3 index_id in
  (mkRun ps4 (db st) (storage st) (files_processed st) (files_indexed st)
     (files_access_denied st) (cancelled st),
   IndexOperations.finish ops index_id final_status total_files
     (files_indexed st) (files_processed st - files_indexed st) op_end_time).

(** [index_directory], the entry point without progress tracking: ignored
    files are passed over, and a file that raises is only printed. *)
Definition index_directory (use_redis : bool) (config : SimilarityConfig)
    (script : list Scanner.event) (db0 : SQLite.Session) (storage0 : S)
  : SQLite.Session * S :=
  fold_left
    (fun '(db, storage) e =>
       match e with
       | Scanner.walk_file f now uuid4 =>
           if Ignore.should_ignore fnmatch ignored_files_store (Fs.name f)
           then (db, storage)
           else if use_redis
                then match _index_single_file_with_storage hashing_vector
                             config f storage now uuid4 with
                     | Ok (_, storage') => (db, storage')
                     | Raise _ => (db, storage)
                     end
                else match _index_single_file hashing_vector config f db now
                     with
                     | Ok (_, db') => (db', storage)
                     | Raise _ => (db, storage)
                     end
       | Scanner.cancel_requested => (db, storage)
       end) script (db0, storage0).

End WithEnvironment.

End Indexer.

(** * Vocabulary of the properties *)

(** A glob pattern with no star, question mark or opening bracket. *)
Definition plain (pat : list ascii) : bool :=
  List.forallb
    (fun c => negb (Ascii.eqb c "*" || Ascii.eqb c "?" || Ascii.eqb c "["))
    pat.

(** [name] is what follows the last slash of [filename], or all of it when
    it has no slash. *)
Definition last_component (filename name : string) : Prop :=
  Py.contains "/" name = false
  /\ (filename = name \/ exists dir, filename = dir ++ "/" ++ name).

(** A capital letter of Latin-1: A to Z, or one of the accented capitals
    (192 to 222 but for the multiplication sign); its small letter is 32
    places further. *)
Definition capital (c : ascii) : Prop :=
  let n := nat_of_ascii c in
  (65 <= n <= 90)%nat \/ ((192 <= n <= 222)%nat /\ n <> 215%nat).

Definition same_letter (c d : ascii) : Prop :=
  c = d
  \/ (capital c /\ nat_of_ascii d = (nat_of_ascii c + 32)%nat)
  \/ (capital d /\ nat_of_ascii c = (nat_of_ascii d + 32)%nat).

(** Two strings that differ at most by the case of their letters. *)
Fixpoint same_up_to_case (a b : string) : Prop :=
  match a, b with
  | EmptyString, EmptyString => True
  | String c a', String d b' => same_letter c d /\ same_up_to_case a' b'
  | _, _ => False
  end.

(** The constraints of the schema: [id] is the primary key and [path] is
    unique. *)
Definition schema_ok (db : SQLite.Session) : Prop :=
  List.NoDup (List.map Models.id (SQLite.indexed_files db))
  /\ List.NoDup (List.map Models.path (SQLite.indexed_files db)).

(** The two quantities of the secondary validation, as the code computes
    them: the bar [threshold * 0.8] and the combined score
    [(primary + secondary) / 2]. *)
Definition secondary_bar (threshold : float) : float :=
  Py.float_mul threshold (Py.double (8 # 10)).

Definition combined_score (primary secondary : float) : float :=
  Py.float_truediv (Py.float_add primary secondary) (2 # 1).

(** What the matcher can report for a score: it passed the primary
    threshold, or it is the combined score of a primary score that did and
    of a secondary score that reached the bar. *)
Definition reportable (config : Similarity.SimilarityConfig) (score : float)
  : Prop :=
  let t := Similarity.similarity_threshold config in
  (t <= score)%Q
  \/ (Similarity.require_multiple_matches config = true
      /\ Similarity.window_differs config = true
      /\ exists p s, (t <= p)%Q /\ (secondary_bar t <= s)%Q
                     /\ score = combined_score p s).



(** Rounding on the grid of the multiples of [2 ^ g]. *)
Definition on_grid (g : Z) (q : Q) : Q :=
  (inject_Z (Py.round_half_even (q / 2 ^ g)) * 2 ^ g)%Q.

(** What the scan may write for a file: an exact match by digest, with
    score 1, or the top similarity match, classified by its own score. *)
Definition recorded_ok (config : Similarity.SimilarityConfig)
    (r : Models.ScanResult) : Prop :=
  (Models.match_type r = Models.exact /\ Models.score r = (1 # 1)%Q)
  \/ (Models.match_type r
      = Similarity.get_match_type config (Models.score r)
      /\ reportable config (Models.score r)).

(** The script without the cancel requests. *)
Definition without_cancel (script : list Scanner.event)
  : list Scanner.event :=
  List.filter (fun e => match e with
                        | Scanner.walk_file _ _ _ => true
                        | Scanner.cancel_requested => false
                        end) script.

(** The part of the loop state the progress store plays no part in. *)
Definition data {T : Type} (st : Scanner.state T) : T * Z * Z :=
  (Scanner.store st, Scanner.files_scanned st, Scanner.matches_found st).

(** The condition under which a file is skipped: a row at its path with the
    same mtime, and a vector stored unless the file is not textual. *)
Definition unchanged_in_index (f : Fs.File) (db : SQLite.Session)
    (mtime : float) : Prop :=
  exists e,
    SQLite.first_by_path db (Fs.path f) = Some e
    /\ (Models.last_modified e == mtime)%Q
    /\ (Fs.is_text_file f = false \/ Models.vector e <> None).

(** What the cancel requests leave of a loop: the same storage, the task
    still registered, and the flag set if there was a request. *)
Definition same_outcome {T : Type} (scan_id : string)
    (script : list Scanner.event)
    (with_cancel without : result (Scanner.state T)) : Prop :=
  match without with
  | Ok st0 =>
      exists st,
        with_cancel = Ok st
        /\ Scanner.store st = Scanner.store st0
        /\ Scanner.files_scanned st
           = Z.of_nat (List.length (Scanner.files_of script))
        /\ is_Some (Progress._tasks (Scanner.ps st) !! scan_id)
        /\ (List.In Scanner.cancel_requested script ->
            scan_id ∈ Progress._cancelled (Scanner.ps st))
  | Raise e => with_cancel = Raise e
  end.

(** The vector the indexer stores for a file. *)
Definition vector_blob
    (hashing_vector : Similarity.SimilarityConfig -> string -> option bytes)
    (config : Similarity.SimilarityConfig) (f : Fs.File) : option bytes :=
  if Fs.is_text_file f then Indexer.compute_vector hashing_vector config f
  else None.

(** The store after the upsert of a file with digest [h] at time [t]. *)
Definition written
    (hashing_vector : Similarity.SimilarityConfig -> string -> option bytes)
    (config : Similarity.SimilarityConfig) (f : Fs.File) (mtime : float)
    (h : string) (t : datetime) (db : SQLite.Session) : SQLite.Session :=
  (SQLite.add_or_update_indexed_file db (Fs.path f)
     (Py.basename (Fs.path f)) h (vector_blob hashing_vector config f) mtime t).2.

(** The keyword that writes the counter of processed files. *)
Definition sets_files_processed (kw : Progress.kwarg) : bool :=
  match kw with
  | Progress.kw_files_processed _ => true
  | _ => false
  end.

(** The counter of processed files of a task, if the task is registered. *)
Definition files_processed_of (ps : Progress.ProgressStore) (tid : string)
  : option Z :=
  Progress.files_processed <$> Progress.get_task ps tid.

(** The snapshots a list of updates publishes for the task [tid]: one per
    update addressed to it, each the state of the task after that update. *)
Fixpoint snapshots (tid : string) (p : Progress.TaskProgress)
    (updates : list (string * list Progress.kwarg))
  : list Progress.TaskProgress :=
  match updates with
  | [] => []
  | (t, kwargs) :: r =>
      if String.eqb t tid
      then let p' := fold_left Progress.setattr kwargs p in
           p' :: snapshots tid p' r
      else snapshots tid p r
  end.

(** A sequence of [update_task] calls. *)
Definition apply_updates (ps : Progress.ProgressStore)
    (updates : list (string * list Progress.kwarg)) : Progress.ProgressStore :=
  fold_left (fun ps '(t, kwargs) => (Progress.update_task ps t kwargs).2)
    updates ps.

(** A queue after more snapshots were put on it. *)
Definition delivered (more : list Progress.TaskProgress) (q : Progress.Queue)
  : Progress.Queue :=
  Progress.mkQueue (Progress.qid q) (Progress.items q ++ more).

(** What a relational scan decides for one file, given the index: nothing
    if its digest cannot be read; an exact match if a file of the index has
    its digest; otherwise its top similarity match, if any. *)
Definition verdict {Matrix : Type}
    (cosine_scores : Z -> Z -> Z -> string -> Matrix -> result (list float))
    (config : Similarity.SimilarityConfig) (matrix : option Matrix)
    (indexed_ids : list Z) (index : SQLite.Session) (f : Fs.File)
  : option (string * Models.MatchType * float * Z) :=
  match Fs.get_file_hash f with
  | Raise _ => None
  | Ok h =>
      match SQLite.first_by_hash index h with
      | Some m => Some (Fs.path f, Models.exact, (1 # 1)%Q, Models.id m)
      | None =>
          match Scanner.top_similarity_match Matrix cosine_scores config
                  matrix indexed_ids f with
          | Some (i, score, kind) => Some (Fs.path f, kind, score, i)
          | None => None
          end
      end
  end.

(** The session after the rows of a list of verdicts are added and flushed
    at [commit_time]. *)
Definition record_all (scan_id : string) (commit_time : datetime)
    (verdicts : list (string * Models.MatchType * float * Z))
    (db : SQLite.Session) : SQLite.Session :=
  fold_left
    (fun db '(file_path, kind, score, matched) =>
       Scanner.db_add db scan_id file_path kind score matched commit_time)
    verdicts db.

(** A list of matches in the order of decreasing score. *)
Definition by_decreasing_score {Id : Type}
    (ms : list (Id * float * Models.MatchType)) : Prop :=
  Sorted.StronglySorted (fun a b => (snd (fst b) <= snd (fst a))%Q) ms.

(** The fields a scan sets on its task when it ends: the status, the
    number of files counted, the number of matches (left alone when there
    is none), the current file and the end time. *)
Definition completed_scan (p0 : Progress.TaskProgress) (total matches : Z)
    (end_time : datetime) : Progress.TaskProgress :=
  Progress.mkTaskProgress (Progress.task_id p0) (Progress.task_type p0)
    "completed" total (Progress.files_processed p0)
    (if matches =? 0 then Progress.matches_found p0 else matches)
    (Progress.files_indexed p0) "" (Progress.started_at p0) (Some end_time)
    (Progress.error_message p0).

(** The task of a scan while it runs: of the fields the task had when the
    scan started, only the status, the current file and the two counters
    the scan sets have moved. *)
Definition scan_running (p0 : Progress.TaskProgress) (total matches : Z)
    (p : Progress.TaskProgress) : Prop :=
  exists status current,
    p = Progress.mkTaskProgress (Progress.task_id p0) (Progress.task_type p0)
          status total (Progress.files_processed p0)
          (if matches =? 0 then Progress.matches_found p0 else matches)
          (Progress.files_indexed p0) current (Progress.started_at p0)
          (Progress.completed_at p0) (Progress.error_message p0).

(** The invariant of the relational scan loop: the task is
    [scan_running], and the counter of matches is the number of rows added
    so far. *)
Definition scan_invariant (scan_id : string) (p0 : Progress.TaskProgress)
    (total : Z) (db0 : SQLite.Session) (st : Scanner.state SQLite.Session)
  : Prop :=
  (exists p, Progress._tasks (Scanner.ps st) !! scan_id = Some p
             /\ scan_running p0 total (Scanner.matches_found st) p)
  /\ Scanner.matches_found st
     = SQLite.count_scan_results (Scanner.store st)
       - SQLite.count_scan_results db0
  /\ 0 <= Scanner.matches_found st.

(** A walked file that no ignore pattern matches; a cancel request is kept
    too. *)
Definition not_ignored (fnmatch : string -> string -> bool)
    (ignored : Ignore.IgnoredFilesConfig) (e : Scanner.event) : bool :=
  match e with
  | Scanner.walk_file f _ _ =>
      negb (Ignore.should_ignore fnmatch ignored (Fs.name f))
  | Scanner.cancel_requested => true
  end.

(** Two states of an indexing run that differ at most in what the progress
    store shows of the tasks: the same data, counters and cancel flags, and
    the task of the run registered in both. *)
Definition same_run {S : Type} (index_id : string) (a b : Indexer.run S)
  : Prop :=
  Indexer.db a = Indexer.db b
  /\ Indexer.storage a = Indexer.storage b
  /\ Indexer.files_processed a = Indexer.files_processed b
  /\ Indexer.files_indexed a = Indexer.files_indexed b
  /\ Indexer.files_access_denied a = Indexer.files_access_denied b
  /\ Indexer.cancelled a = Indexer.cancelled b
  /\ Progress._cancelled (Indexer.ps a) = Progress._cancelled (Indexer.ps b)
  /\ is_Some (Progress._tasks (Indexer.ps a) !! index_id)
  /\ is_Some (Progress._tasks (Indexer.ps b) !! index_id).

(** The task of an indexing run when the run has ended. *)
Definition finished_index (p0 : Progress.TaskProgress)
    (total processed indexed : Z) (cancelled : bool) (end_time : datetime)
  : Progress.TaskProgress :=
  Progress.mkTaskProgress (Progress.task_id p0) (Progress.task_type p0)
    (if cancelled then "cancelled" else "completed") total
    (if processed =? 0 then Progress.files_processed p0 else processed)
    (Progress.matches_found p0)
    (if indexed =? 0 then Progress.files_indexed p0 else indexed) ""
    (Progress.started_at p0) (Some end_time) (Progress.error_message p0).

(** The invariant of the indexing walk: the task shows the counters of the
    run, which are ordered, and the run has not been left unless the cancel
    flag is up. *)
Definition index_invariant {S : Type} (index_id : string)
    (p0 : Progress.TaskProgress) (total : Z) (st : Indexer.run S) : Prop :=
  (exists status current,
     Progress._tasks (Indexer.ps st) !! index_id
     = Some (Progress.mkTaskProgress (Progress.task_id p0)
               (Progress.task_type p0) status total
               (if Indexer.files_processed st =? 0
                then Progress.files_processed p0
                else Indexer.files_processed st)
               (Progress.matches_found p0)
               (if Indexer.files_indexed st =? 0
                then Progress.files_indexed p0
                else Indexer.files_indexed st)
               current (Progress.started_at p0) (Progress.completed_at p0)
               (Progress.error_message p0)))
  /\ 0 <= Indexer.files_indexed st
  /\ 0 <= Indexer.files_access_denied st
  /\ Indexer.files_indexed st + Indexer.files_access_denied st
     <= Indexer.files_processed st.

(** * Sample stores, files and runs

    The index of the samples holds two files with vectors. The scikit-learn
    calls are replaced by a table: a long reworded text scores 0.70 against
    the first vector with the configured n-grams and 0.55 with the widened
    ones; a short near copy scores 0.99. *)

(** A registry with one task and a subscriber waiting on an id that was
    never created. *)
Definition registry_with_stray_subscriber : Progress.ProgressStore :=
  (Progress.subscribe
     (Progress.subscribe (Progress.create_scan Progress.init "scan-1" 7).2
        "scan-1").2 "ghost").2.

(** A store with one indexed file and one scan result that matched it. *)
Definition store_with_one_match : SQLite.Session :=
  let db := (SQLite.add_or_update_indexed_file SQLite.empty "/protected/a.txt"
               "a.txt" "9f86d081" None (1700000000 # 1) 10).2 in
  match SQLite.add_scan_result db "scan-1" "/tmp/b.txt" Models.exact (1 # 1)
          "1" 20 with
  | Ok (_, db') => db'
  | Raise _ => db
  end.

Definition demo_cosine (n nmin nmax : Z) (content : string) (matrix : unit)
  : result (list float) :=
  if 200 <=? Similarity.len content
  then if (nmin =? 1) && (nmax =? 3)
       then Ok [Py.double (70 # 100); Py.double (66 # 100)]
       else Ok [Py.double (55 # 100); Py.double (30 # 100)]
  else Ok [Py.double (99 # 100); Py.double (20 # 100)].



Definition demo_index : SQLite.Session :=
  let db := (SQLite.add_or_update_indexed_file SQLite.empty
               "/protected/report.txt" "report.txt" "digest-report"
               (Some [Byte.x01]) (1 # 1) 10).2 in
  (SQLite.add_or_update_indexed_file db "/protected/notes.txt" "notes.txt"
     "digest-notes" (Some [Byte.x02]) (1 # 1) 11).2.

Definition long_text : string :=
  String.concat "" (List.repeat "the quick brown fox " 10).

Definition short_text : string :=
  String.concat "" (List.repeat "the quick brown fox " 3).

Definition reworded : Fs.File :=
  Fs.mkFile "draft.txt" "/tmp/draft.txt" (Ok (5 # 1)%Q) (Ok "digest-draft")
    true long_text.

Definition near_copy : Fs.File :=
  Fs.mkFile "copy.txt" "/tmp/copy.txt" (Ok (5 # 1)%Q) (Ok "digest-copy")
    true short_text.

Definition same_bytes : Fs.File :=
  Fs.mkFile "report-2.txt" "/tmp/report-2.txt" (Ok (5 # 1)%Q)
    (Ok "digest-report") true long_text.

Definition medium : Similarity.SimilarityConfig :=
  Similarity.from_sensitivity_level Similarity.MEDIUM.

Definition demo_registry : Progress.ProgressStore :=
  (Progress.create_scan Progress.init "scan-1" 1).2.

(** The sequential scan of [script] over the demo index, on the relational
    backend. *)
Definition demo_scan (script : list Scanner.event)
  : result (Progress.ProgressStore * SQLite.Session * SQLite.Session) :=
  Scanner._scan_directory_sequential Fnmatch.fnmatch
    (Ignore.mkIgnoredFilesConfig []) unit unit (fun _ => Some tt)
    (fun _ => Ok tt) demo_cosine false medium script demo_index demo_index
    "scan-1" 50 60 demo_registry.

Definition registry_of {A B : Type}
    (r : result (Progress.ProgressStore * A * B)) : Progress.ProgressStore :=
  match r with
  | Ok (ps, _, _) => ps
  | Raise _ => Progress.init
  end.

Definition session_of {A : Type}
    (r : result (Progress.ProgressStore * SQLite.Session * A))
  : SQLite.Session :=
  match r with
  | Ok (_, db, _) => db
  | Raise _ => SQLite.empty
  end.

Definition storage_of {A B : Type} (default : B)
    (r : result (Progress.ProgressStore * A * B)) : B :=
  match r with
  | Ok (_, _, s) => s
  | Raise _ => default
  end.

(** The rows of a demo scan, as (path, kind, score, matched file). *)
Definition demo_rows (script : list Scanner.event)
  : list (string * Models.MatchType * float * Z) :=
  List.map (fun r => (Models.file_path r, Models.match_type r,
                      Models.score r, Models.matched_file_id r))
    (SQLite.scan_results (session_of (demo_scan script))).

Definition cancelled_midway : list Scanner.event :=
  [Scanner.walk_file reworded 20 "u1";
   Scanner.cancel_requested;
   Scanner.walk_file same_bytes 22 "u3"].

(** A textual file too short to be vectorized. *)
Definition short_note : Fs.File :=
  Fs.mkFile "todo.txt" "/protected/todo.txt" (Ok (1700000000 # 1)%Q)
    (Ok "digest-todo") true "call Bob".

Definition demo_vectorizer (config : Similarity.SimilarityConfig)
    (content : string) : option bytes := Some [Byte.x01].

(** A key/value store in which one textual file is indexed, with its
    vector, and the servers's pieces the backend needs. *)
Definition demo_to_dense (vector : bytes) : option (list float) :=
  Some [(1 # 1)%Q].

Definition demo_pickle (dense : list float) : bytes := [Byte.x01].

Definition demo_search_hash (db : gmap string Redis.Doc) (h : string)
  : result (option string) := Ok None.

Definition demo_keyspace : gmap string Redis.Doc :=
  (Redis.add_or_update_indexed_file Redis.scan_for_path demo_to_dense ∅
     "/tmp/draft.txt" "draft.txt" "digest-draft" (Some [Byte.x01]) (5 # 1)
     100 "0b5c1d1e-7a34-4f0e-9c59-2f2d1f0f6a11").2.

(** The indexed file of [store_with_one_match]. *)
Definition protected_a : Models.IndexedFile :=
  Models.mkIndexedFile 1 "/protected/a.txt" "a.txt" "9f86d081" None
    (1700000000 # 1) 10.

(** A protected file that is not in the demo index yet, the index once it
    has been added, and a copy of it found elsewhere. *)
Definition plan : Fs.File :=
  Fs.mkFile "plan.txt" "/protected/plan.txt" (Ok (7 # 1)%Q) (Ok "digest-plan")
    true long_text.

Definition index_with_plan : SQLite.Session :=
  match Indexer._index_single_file demo_vectorizer medium plan demo_index 12
  with
  | Ok (_, db) => db
  | Raise _ => demo_index
  end.

Definition plan_copy : Fs.File :=
  Fs.mkFile "plan (1).txt" "/tmp/plan (1).txt" (Ok (9 # 1)%Q)
    (Ok "digest-plan") true long_text.

(** The demo scan under another list of ignore patterns. *)
Definition demo_scan_ignoring (patterns : list string)
    (script : list Scanner.event)
  : result (Progress.ProgressStore * SQLite.Session * SQLite.Session) :=
  Scanner._scan_directory_sequential Fnmatch.fnmatch
    (Ignore.mkIgnoredFilesConfig patterns) unit unit (fun _ => Some tt)
    (fun _ => Ok tt) demo_cosine false medium script demo_index demo_index
    "scan-1" 50 60 demo_registry.

Definition three_drafts : list Scanner.event :=
  [Scanner.walk_file reworded 20 "u1";
   Scanner.walk_file near_copy 21 "u2";
   Scanner.walk_file same_bytes 22 "u3"].

(** An indexing run over a small protected directory: a plan, a build
    log that the ignore patterns leave out, a key that cannot be read, and
    a short note. *)
Definition index_registry : Progress.ProgressStore :=
  (Progress.create_index Progress.init "index-1" 1).2.

Definition build_log : Fs.File :=
  Fs.mkFile "build.log" "/protected/build.log" (Ok (3 # 1)%Q)
    (Ok "digest-log") true "compiling".

Definition locked : Fs.File :=
  Fs.mkFile "secret.key" "/protected/secret.key" (Raise PermissionError)
    (Raise PermissionError) false "".

Definition protected_walk : list Scanner.event :=
  [Scanner.walk_file plan 10 "u1";
   Scanner.walk_file build_log 11 "u2";
   Scanner.walk_file locked 12 "u3";
   Scanner.walk_file short_note 13 "u4"].

Definition running_operation : IndexOperations.IndexOperation :=
  IndexOperations.mkIndexOperation 1 "index-1" "/protected" "running" 0 0 0 1
    None None.

Definition demo_index_run (script : list Scanner.event)
  : Indexer.run SQLite.Session * list IndexOperations.IndexOperation :=
  Indexer._index_directory_sequential demo_vectorizer Fnmatch.fnmatch
    (Ignore.mkIgnoredFilesConfig ["*.log"]) false medium script SQLite.empty
    SQLite.empty [running_operation] "index-1" 90 91 index_registry.

(** * Properties *)

(** ** Python primitives *)

Lemma contains_cons (c d : ascii) (r : string) :
  Py.contains c (String d r) = Ascii.eqb c d || Py.contains c r.
Proof. reflexivity. Qed.

Lemma int_digits_no_hyphen (s : string) (acc : Z) (prev : bool) :
  Py.contains "-" s = true -> Py.int_digits acc prev s = None.
Proof.
  revert acc prev. induction s as [|c r IH]; intros acc prev Hc.
  - discriminate.
  - rewrite contains_cons in Hc. cbn [Py.int_digits].
    destruct (Ascii.eqb "-"%char c) eqn:E.
    + apply Ascii.eqb_eq in E as <-. reflexivity.
    + rewrite orb_false_l in Hc.
      destruct (Py.is_digit c); [now apply IH|].
      destruct (Ascii.eqb c "_"); [|reflexivity].
      destruct prev; [now apply IH|reflexivity].
Qed.

Lemma rstrip_keeps_hyphen (blank : ascii -> bool) (s : string) :
  blank "-"%char = false ->
  Py.contains "-" s = true ->
  Py.contains "-" (Py.rstrip_with blank s) = true.
Proof.
  intros Hb. induction s as [|c r IH]; intros Hc; [discriminate|].
  rewrite contains_cons in Hc. cbn [Py.rstrip_with].
  destruct (Ascii.eqb "-"%char c) eqn:E.
  - apply Ascii.eqb_eq in E as <-.
    destruct (Py.rstrip_with blank r); [rewrite Hb|]; reflexivity.
  - rewrite orb_false_l in Hc. specialize (IH Hc).
    destruct (Py.rstrip_with blank r) as [|d r']; [discriminate|].
    rewrite contains_cons, E. exact IH.
Qed.

Lemma rstrip_cons_nonblank (blank : ascii -> bool) (c : ascii) (r : string) :
  blank c = false ->
  Py.rstrip_with blank (String c r) = String c (Py.rstrip_with blank r).
Proof.
  intros Hb. cbn [Py.rstrip_with].
  destruct (Py.rstrip_with blank r); [now rewrite Hb|reflexivity].
Qed.

(** A string that starts with a character other than a blank or a sign and
    has a hyphen further on is no integer literal: this is the shape of
    every UUID. *)
Lemma int_rejects_inner_hyphen (c : ascii) (r : string) :
  Py.is_int_space c = false ->
  c <> "-"%char -> c <> "+"%char ->
  Py.contains "-" r = true ->
  Py.int (String c r) = None.
Proof.
  intros Hsp Hm Hp Hc. unfold Py.int, Py.strip_with.
  cbn [Py.lstrip_with]. rewrite Hsp.
  rewrite rstrip_cons_nonblank by exact Hsp.
  pose proof (rstrip_keeps_hyphen Py.is_int_space r eq_refl Hc) as Hr.
  assert (Hd : Py.int_digits 0 false
                 (String c (Py.rstrip_with Py.is_int_space r)) = None).
  { cbn [Py.int_digits].
    destruct (Py.is_digit c); [now apply int_digits_no_hyphen|].
    destruct (Ascii.eqb c "_"); reflexivity. }
  destruct c as [[] [] [] [] [] [] [] []]; try exact Hd; congruence.
Qed.

Lemma after_last_slash_none (p t : string) :
  Py.after_last_slash p = Some t -> Py.after_last_slash t = None.
Proof.
  revert t. induction p as [|c r IH]; intros t H; [discriminate|].
  cbn [Py.after_last_slash] in H.
  destruct (Py.after_last_slash r) as [t'|] eqn:Hr.
  - injection H as <-. now apply IH.
  - destruct (Ascii.eqb c "/"); [|discriminate].
    now injection H as <-.
Qed.

Lemma basename_idempotent (p : string) :
  Py.basename (Py.basename p) = Py.basename p.
Proof.
  unfold Py.basename at 2 3.
  destruct (Py.after_last_slash p) as [t|] eqn:Hp.
  - unfold Py.basename. now rewrite (after_last_slash_none p t Hp).
  - unfold Py.basename. now rewrite Hp.
Qed.

Lemma after_last_slash_None (p : string) :
  Py.after_last_slash p = None <-> Py.contains "/" p = false.
Proof.
  induction p as [|c r IH]; [split; reflexivity|].
  cbn [Py.after_last_slash]. rewrite contains_cons.
  destruct (Py.after_last_slash r) as [t|].
  - split; [discriminate|]. intros H.
    apply orb_false_elim in H as [_ H]. apply IH in H. discriminate.
  - rewrite (proj1 IH eq_refl), orb_false_r, (Ascii.eqb_sym "/"%char c).
    destruct (Ascii.eqb c "/"); split; congruence.
Qed.

Lemma after_last_slash_app (dir name : string) :
  Py.contains "/" name = false ->
  Py.after_last_slash (dir ++ "/" ++ name) = Some name.
Proof.
  intros Hn. induction dir as [|c r IH].
  - change ("" ++ "/" ++ name) with (String "/" name).
    cbn [Py.after_last_slash].
    now rewrite (proj2 (after_last_slash_None name) Hn).
  - change (String c r ++ "/" ++ name) with (String c (r ++ "/" ++ name)).
    cbn [Py.after_last_slash]. now rewrite IH.
Qed.

Lemma after_last_slash_Some (p t : string) :
  Py.after_last_slash p = Some t -> exists dir, p = dir ++ "/" ++ t.
Proof.
  revert t. induction p as [|c r IH]; intros t H; [discriminate|].
  cbn [Py.after_last_slash] in H.
  destruct (Py.after_last_slash r) as [t'|] eqn:Hr.
  - injection H as <-. destruct (IH t' eq_refl) as [dir ->].
    now exists (String c dir).
  - destruct (Ascii.eqb_spec c "/") as [->|_]; [|discriminate].
    injection H as <-. now exists "".
Qed.

(** [os.path.basename] returns the last component, and every name has
    one. *)
Lemma basename_last_component (filename name : string) :
  last_component filename name -> Py.basename filename = name.
Proof.
  intros [Hn [->|[dir ->]]]; unfold Py.basename.
  - now rewrite (proj2 (after_last_slash_None name) Hn).
  - now rewrite after_last_slash_app.
Qed.

Lemma last_component_basename (filename : string) :
  last_component filename (Py.basename filename).
Proof.
  unfold Py.basename, last_component.
  destruct (Py.after_last_slash filename) as [t|] eqn:Hp.
  - split.
    + apply after_last_slash_None. now apply (after_last_slash_none filename).
    + right. now apply after_last_slash_Some.
  - split; [now apply after_last_slash_None|now left].
Qed.

(** [str.lower] identifies exactly the strings that differ by the case of
    their letters. *)
Lemma lower_char_code (c : ascii) :
  nat_of_ascii (Py.lower_char c)
  = if ((65 <=? Z.of_nat (nat_of_ascii c))
        && (Z.of_nat (nat_of_ascii c) <=? 90))
       || ((192 <=? Z.of_nat (nat_of_ascii c))
           && (Z.of_nat (nat_of_ascii c) <=? 222)
           && negb (Z.of_nat (nat_of_ascii c) =? 215))
    then (nat_of_ascii c + 32)%nat else nat_of_ascii c.
Proof.
  unfold Py.lower_char. cbv zeta.
  destruct (_ || _) eqn:E; [|reflexivity].
  apply nat_ascii_embedding.
  pose proof (nat_ascii_bounded c) as Hb.
  apply orb_prop in E as [E|E].
  - apply andb_prop in E as [_ E]. apply Z.leb_le in E. lia.
  - apply andb_prop in E as [E _]. apply andb_prop in E as [_ E].
    apply Z.leb_le in E. lia.
Qed.

Lemma lower_char_eq_iff (c d : ascii) :
  Py.lower_char c = Py.lower_char d <-> same_letter c d.
Proof.
  assert (Hinj : forall x y : ascii, nat_of_ascii x = nat_of_ascii y -> x = y).
  { intros x y E. rewrite <- (ascii_nat_embedding x), <- (ascii_nat_embedding y).
    now rewrite E. }
  assert (Hcode : Py.lower_char c = Py.lower_char d <->
                  nat_of_ascii (Py.lower_char c)
                  = nat_of_ascii (Py.lower_char d))
    by (split; [now intros ->|apply Hinj]).
  rewrite Hcode, !lower_char_code. unfold same_letter, capital. cbv zeta.
  assert (Hcd : c = d <-> nat_of_ascii c = nat_of_ascii d)
    by (split; [now intros ->|apply Hinj]).
  rewrite Hcd. clear Hcode Hcd Hinj.
  set (m := nat_of_ascii c). set (n := nat_of_ascii d).
  assert (Hup : forall k : nat,
             ((65 <=? Z.of_nat k) && (Z.of_nat k <=? 90))
             || ((192 <=? Z.of_nat k) && (Z.of_nat k <=? 222)
                 && negb (Z.of_nat k =? 215)) = true
             <-> (65 <= k <= 90)%nat
                 \/ ((192 <= k <= 222)%nat /\ k <> 215%nat)).
  { intros k.
    rewrite orb_true_iff, !andb_true_iff, negb_true_iff, !Z.leb_le,
      Z.eqb_neq. lia. }
  pose proof (Hup m) as Hm. pose proof (Hup n) as Hn.
  destruct (_ || _); destruct (_ || _); lia.
Qed.

Lemma lower_eq_iff (a b : string) :
  Py.lower a = Py.lower b <-> same_up_to_case a b.
Proof.
  revert b. induction a as [|c a IH]; intros [|d b]; simpl;
    try (split; [discriminate|tauto]).
  - tauto.
  - rewrite <- IH, <- lower_char_eq_iff. split.
    + now intros [= -> ->].
    + now intros [-> ->].
Qed.

(** ** [str] and [int] on integers *)

Lemma rstrip_digits (u : Decimal.uint) :
  Py.rstrip_with Py.is_int_space (NilEmpty.string_of_uint u)
  = NilEmpty.string_of_uint u.
Proof.
  induction u; cbn [NilEmpty.string_of_uint]; [reflexivity|..];
    (rewrite rstrip_cons_nonblank by reflexivity; now rewrite IHu).
Qed.

Lemma int_digits_acc (u : Decimal.uint) :
  forall acc : positive,
    Py.int_digits (Z.pos acc) true (NilEmpty.string_of_uint u)
    = Some (Z.pos (Pos.of_uint_acc u acc)).
Proof.
  induction u; intros acc; cbn [NilEmpty.string_of_uint Pos.of_uint_acc];
    [reflexivity|..];
    (cbn [Py.int_digits];
     match goal with
     | |- context [Py.is_digit ?c] =>
         change (Py.is_digit c) with true; cbv iota;
         let v := eval vm_compute in (Py.digit_val c) in
         change (Py.digit_val c) with v
     end;
     rewrite <- IHu; f_equal; lia).
Qed.

Lemma int_digits_uint (u : Decimal.uint) :
  Py.int_digits 0 true (NilEmpty.string_of_uint u)
  = Some (Z.of_N (Pos.of_uint u)).
Proof.
  induction u; cbn [NilEmpty.string_of_uint Pos.of_uint]; [reflexivity|..];
    cbn [Py.int_digits];
    match goal with
    | |- context [Py.is_digit ?c] =>
        change (Py.is_digit c) with true; cbv iota;
        let v := eval vm_compute in (10 * 0 + Py.digit_val c) in
        change (10 * 0 + Py.digit_val c) with v
    end;
    [exact IHu|apply int_digits_acc..].
Qed.

(** [int(str(n)) == n] for every integer [n]. *)
Lemma int_str_of_int (n : Z) : Py.int (Py.str_of_int n) = Some n.
Proof.
  unfold Py.str_of_int, Py.int, Py.strip_with.
  assert (Hpos : forall p,
             Py.int_digits 0 false (NilEmpty.string_of_uint (Pos.to_uint p))
             = Some (Z.pos p)).
  { intros p. pose proof (int_digits_uint (Pos.to_uint p)) as Hd.
    rewrite DecimalPos.Unsigned.of_to in Hd. simpl in Hd.
    pose proof (DecimalPos.Unsigned.to_uint_nonnil p) as Hn.
    destruct (Pos.to_uint p); [contradiction|exact Hd..]. }
  destruct n as [|p|p]; [reflexivity|..];
    cbn [Z.to_int NilEmpty.string_of_int].
  - specialize (Hpos p). pose proof (rstrip_digits (Pos.to_uint p)) as Hr.
    pose proof (DecimalPos.Unsigned.to_uint_nonnil p) as Hn.
    destruct (Pos.to_uint p); [contradiction|..];
      cbn [NilEmpty.string_of_uint Py.lstrip_with] in *;
      match goal with
      | |- context [Py.is_int_space ?c] =>
          change (Py.is_int_space c) with false; cbv iota
      end; rewrite Hr; exact Hpos.
  - cbn [Py.lstrip_with]. change (Py.is_int_space "-") with false. cbv iota.
    rewrite rstrip_cons_nonblank by reflexivity.
    rewrite rstrip_digits. cbv iota. rewrite Hpos. reflexivity.
Qed.

(** ** The relational backend *)

Lemma next_id_above (ids : list Z) (n : Z) :
  List.In n ids -> n < SQLite.next_id ids.
Proof.
  unfold SQLite.next_id. induction ids as [|i r IH]; simpl; [tauto|].
  intros [->|Hin]; [lia|]. specialize (IH Hin). lia.
Qed.

Lemma next_id_fresh (ids : list Z) : ~ List.In (SQLite.next_id ids) ids.
Proof. intros Hin. apply next_id_above in Hin. lia. Qed.

Lemma find_path_none (rows : list Models.IndexedFile) (p : string) :
  List.find (fun m => String.eqb (Models.path m) p) rows = None ->
  ~ List.In p (List.map Models.path rows).
Proof.
  intros Hf Hin. apply List.in_map_iff in Hin as (m & Hm & Hin).
  pose proof (List.find_none _ _ Hf m Hin) as Hn. simpl in Hn.
  rewrite Hm, String.eqb_refl in Hn. discriminate.
Qed.

(** With unique keys, the UPDATE touches the one row it was read from. *)
Lemma update_row_spec (rows : list Models.IndexedFile)
    (e e' : Models.IndexedFile) (p : string) :
  List.NoDup (List.map Models.id rows) ->
  List.find (fun m => String.eqb (Models.path m) p) rows = Some e ->
  Models.id e' = Models.id e ->
  Models.path e' = Models.path e ->
  List.map Models.id (SQLite.update_row e' rows) = List.map Models.id rows
  /\ List.map Models.path (SQLite.update_row e' rows)
     = List.map Models.path rows
  /\ List.find (fun m => String.eqb (Models.path m) p)
       (SQLite.update_row e' rows) = Some e'.
Proof.
  intros Hnd Hf Hid Hpath. induction rows as [|x xs IH]; [discriminate|].
  simpl in Hnd. apply List.NoDup_cons_iff in Hnd as [Hx Hnd].
  simpl in Hf. simpl. rewrite Hid.
  destruct (String.eqb_spec (Models.path x) p) as [Hxp|Hxp].
  - injection Hf as <-. rewrite Z.eqb_refl. simpl.
    rewrite Hpath, Hxp, String.eqb_refl.
    assert (Hrest : SQLite.update_row e' xs = xs).
    { unfold SQLite.update_row. rewrite Hid.
      rewrite <- (List.map_id xs) at 2. apply List.map_ext_in.
      intros y Hy. destruct (Z.eqb_spec (Models.id y) (Models.id x)) as [E|];
        [|reflexivity].
      exfalso. apply Hx. rewrite <- E. now apply List.in_map. }
    rewrite Hrest, Hid. repeat split; reflexivity.
  - destruct (IH Hnd Hf) as (Hi & Hp & Hfind).
    apply List.find_some in Hf as [Hin _].
    destruct (Z.eqb_spec (Models.id x) (Models.id e)) as [E|_].
    + exfalso. apply Hx. rewrite E. now apply List.in_map.
    + simpl.
      destruct (String.eqb_spec (Models.path x) p); [contradiction|].
      rewrite Hi, Hp. repeat split; try reflexivity. exact Hfind.
Qed.

Lemma upsert_schema_ok (db : SQLite.Session) (p f h : string)
    (v : option bytes) (m : float) (now : datetime) :
  schema_ok db ->
  schema_ok (SQLite.add_or_update_indexed_file db p f h v m now).2.
Proof.
  intros [Hid Hpath]. unfold SQLite.add_or_update_indexed_file, SQLite.first_by_path.
  destruct (List.find _ (SQLite.indexed_files db)) as [e|] eqn:Hf; simpl.
  - destruct (update_row_spec _ e
                (Models.mkIndexedFile (Models.id e) (Models.path e)
                   (Models.filename e) h v m now) p Hid Hf eq_refl eq_refl)
      as (Hi & Hp & _).
    split; simpl; [rewrite Hi|rewrite Hp]; assumption.
  - split; simpl; rewrite List.map_app; simpl.
    + apply List.NoDup_app; repeat split; try assumption.
      * apply List.NoDup_cons; [intros []|constructor].
      * intros x Hx [<-|[]]. now apply next_id_fresh in Hx.
    + apply List.NoDup_app; repeat split; try assumption.
      * apply List.NoDup_cons; [intros []|constructor].
      * intros x Hx [<-|[]]. now apply find_path_none in Hf.
Qed.

Lemma find_app_none {A : Type} (P : A -> bool) (l k : list A) :
  List.find P l = None -> List.find P (l ++ k) = List.find P k.
Proof.
  induction l as [|x xs IH]; simpl; [reflexivity|].
  destruct (P x); [discriminate|exact IH].
Qed.

(** After an upsert the row at [p] carries what was passed in. *)
Lemma upsert_lookup (db : SQLite.Session) (p f h : string)
    (v : option bytes) (m : float) (now : datetime) :
  schema_ok db ->
  exists row,
    SQLite.first_by_path (SQLite.add_or_update_indexed_file db p f h v m now).2 p
    = Some row
    /\ Models.path row = p /\ Models.file_hash row = h
    /\ Models.vector row = v /\ Models.last_modified row = m
    /\ Models.indexed_at row = now.
Proof.
  intros [Hid _]. unfold SQLite.add_or_update_indexed_file, SQLite.first_by_path.
  destruct (List.find _ (SQLite.indexed_files db)) as [e|] eqn:Hf; simpl.
  - destruct (update_row_spec _ e
                (Models.mkIndexedFile (Models.id e) (Models.path e)
                   (Models.filename e) h v m now) p Hid Hf eq_refl eq_refl)
      as (_ & _ & Hfind).
    eexists. split; [exact Hfind|]. simpl.
    apply List.find_some in Hf as [_ Hp]. apply String.eqb_eq in Hp.
    repeat split; try reflexivity. exact Hp.
  - eexists. split.
    + rewrite (find_app_none _ _ _ Hf). simpl.
      rewrite String.eqb_refl. reflexivity.
    + simpl. repeat split; reflexivity.
Qed.

(** Under a unique path, a row found at [p] is the only one there. *)
Lemma unique_path_count (rows : list Models.IndexedFile) (p : string)
    (row : Models.IndexedFile) :
  List.NoDup (List.map Models.path rows) ->
  List.find (fun m => String.eqb (Models.path m) p) rows = Some row ->
  List.length (List.filter (fun m => String.eqb (Models.path m) p) rows)
  = 1%nat.
Proof.
  intros Hnd Hf. induction rows as [|x xs IH]; [discriminate|].
  simpl in Hnd. apply List.NoDup_cons_iff in Hnd as [Hx Hnd].
  simpl in Hf. simpl.
  destruct (String.eqb_spec (Models.path x) p) as [Hxp|Hxp].
  - simpl. f_equal. apply List.length_zero_iff_nil.
    destruct (List.filter _ xs) as [|y ys] eqn:Hfl; [reflexivity|].
    exfalso. assert (Hy : List.In y (List.filter
                (fun m => String.eqb (Models.path m) p) xs))
      by (rewrite Hfl; now left).
    apply List.filter_In in Hy as [Hy Hyp]. apply String.eqb_eq in Hyp.
    apply Hx. rewrite Hxp, <- Hyp. now apply List.in_map.
  - now apply IH.
Qed.

(** C7 (relational backend). Upserting the same path twice leaves exactly
    one row for that path: the second upsert adds no row (from an empty
    table the count is 1), and a later lookup by path returns the digest,
    vector and mtime of the second upsert, with its [indexed_at]. *)
Theorem upsert_twice_one_row (db : SQLite.Session) (p f1 h1 f2 h2 : string)
    (v1 v2 : option bytes) (m1 m2 : float) (t1 t2 : datetime) :
  schema_ok db ->
  let db1 := (SQLite.add_or_update_indexed_file db p f1 h1 v1 m1 t1).2 in
  let db2 := (SQLite.add_or_update_indexed_file db1 p f2 h2 v2 m2 t2).2 in
  List.length
    (List.filter (fun m => String.eqb (Models.path m) p)
       (SQLite.indexed_files db2)) = 1%nat
  /\ SQLite.count_indexed_files db2 = SQLite.count_indexed_files db1
  /\ (SQLite.indexed_files db = [] -> SQLite.count_indexed_files db2 = 1)
  /\ exists d,
       SQLite.get_indexed_file_by_path db2 p = Some d
       /\ Data.path d = p /\ Data.file_hash d = h2 /\ Data.vector d = v2
       /\ Data.last_modified d = m2 /\ Data.indexed_at d = t2.
Proof.
  intros Hok db1 db2.
  assert (Hok1 : schema_ok db1) by now apply upsert_schema_ok.
  assert (Hok2 : schema_ok db2) by now apply upsert_schema_ok.
  destruct (upsert_lookup db p f1 h1 v1 m1 t1 Hok)
    as (r1 & Hr1 & _).
  destruct (upsert_lookup db1 p f2 h2 v2 m2 t2 Hok1)
    as (r2 & Hr2 & Hp2 & Hh2 & Hv2 & Hm2 & Ht2).
  fold db1 in Hr1. fold db2 in Hr2.
  assert (Hcount : SQLite.count_indexed_files db2
                   = SQLite.count_indexed_files db1).
  { unfold db2, SQLite.add_or_update_indexed_file. rewrite Hr1. simpl.
    unfold SQLite.count_indexed_files, SQLite.update_row. simpl.
    now rewrite List.length_map. }
  repeat split.
  - exact (unique_path_count _ p r2 (proj2 Hok2) Hr2).
  - exact Hcount.
  - intros Hempty. rewrite Hcount. unfold db1.
    unfold SQLite.add_or_update_indexed_file, SQLite.first_by_path.
    rewrite Hempty. reflexivity.
  - exists (SQLite._model_to_data r2). split.
    + unfold SQLite.get_indexed_file_by_path. now rewrite Hr2.
    + simpl. repeat split; assumption.
Qed.

(** The scenario of the specification: [/x/y] upserted twice, with two
    digests, into an empty store. *)
Lemma upsert_twice_one_row_witness :
  let db1 := (SQLite.add_or_update_indexed_file SQLite.empty "/x/y" "y"
                "digest-1" None (10 # 1) 100).2 in
  let db2 := (SQLite.add_or_update_indexed_file db1 "/x/y" "y" "digest-2"
                (Some [Byte.x01]) (20 # 1) 200).2 in
  List.length
    (List.filter (fun m => String.eqb (Models.path m) "/x/y")
       (SQLite.indexed_files db2)) = 1%nat
  /\ SQLite.count_indexed_files db2 = SQLite.count_indexed_files db1
  /\ (SQLite.indexed_files SQLite.empty = [] ->
      SQLite.count_indexed_files db2 = 1)
  /\ exists d,
       SQLite.get_indexed_file_by_path db2 "/x/y" = Some d
       /\ Data.path d = "/x/y" /\ Data.file_hash d = "digest-2"
       /\ Data.vector d = Some [Byte.x01]
       /\ Data.last_modified d = (20 # 1)%Q /\ Data.indexed_at d = 200.
Proof.
  apply (upsert_twice_one_row SQLite.empty "/x/y" "y" "digest-1" "y"
           "digest-2" None (Some [Byte.x01]) (10 # 1) (20 # 1) 100 200).
  split; simpl; constructor.
Defined.

(** C9. [update_task] on a task id that is not registered returns [None]
    and leaves the registry as it was: no task entry appears, no field of
    another task is written, and no subscriber queue receives a snapshot. *)
Theorem update_task_unknown_is_noop (store : Progress.ProgressStore)
    (tid : string) (kwargs : list Progress.kwarg) :
  Progress._tasks store !! tid = None ->
  Progress.update_task store tid kwargs = (None, store)
  /\ Progress.get_task (Progress.update_task store tid kwargs).2 tid = None
  /\ Progress._subscribers (Progress.update_task store tid kwargs).2
     = Progress._subscribers store.
Proof.
  intros Hnone.
  assert (E : Progress.update_task store tid kwargs = (None, store)).
  { unfold Progress.update_task. now rewrite Hnone. }
  rewrite E. repeat split. exact Hnone.
Qed.

Lemma update_task_unknown_is_noop_witness :
  Progress.update_task registry_with_stray_subscriber "ghost"
    [Progress.kw_status "completed"; Progress.kw_files_processed 3]
  = (None, registry_with_stray_subscriber)
  /\ Progress.get_task
       (Progress.update_task registry_with_stray_subscriber "ghost"
          [Progress.kw_status "completed"; Progress.kw_files_processed 3]).2
       "ghost" = None
  /\ Progress._subscribers
       (Progress.update_task registry_with_stray_subscriber "ghost"
          [Progress.kw_status "completed"; Progress.kw_files_processed 3]).2
     = Progress._subscribers registry_with_stray_subscriber.
Proof.
  apply (update_task_unknown_is_noop registry_with_stray_subscriber "ghost").
  vm_compute. reflexivity.
Defined.

(** C10. In the relational backend, [get_indexed_file_by_id] and
    [delete_indexed_file] first parse the id with [int]; an id that is not
    an integer literal makes both raise [ValueError] rather than return
    [None] or [False]. *)
Theorem sqlite_id_must_be_integer (db : SQLite.Session) (file_id : string) :
  Py.int file_id = None ->
  SQLite.get_indexed_file_by_id db file_id = Raise ValueError
  /\ SQLite.delete_indexed_file db file_id = Raise ValueError.
Proof.
  intros Hint. unfold SQLite.get_indexed_file_by_id, SQLite.delete_indexed_file.
  rewrite Hint. split; reflexivity.
Qed.

(** A UUID, as the key/value backend generates them. *)
Lemma sqlite_id_must_be_integer_witness :
  SQLite.get_indexed_file_by_id SQLite.empty
    "123e4567-e89b-12d3-a456-426614174000" = Raise ValueError
  /\ SQLite.delete_indexed_file SQLite.empty
       "123e4567-e89b-12d3-a456-426614174000" = Raise ValueError.
Proof.
  apply (sqlite_id_must_be_integer SQLite.empty
           "123e4567-e89b-12d3-a456-426614174000").
  apply int_rejects_inner_hyphen; [reflexivity|discriminate|discriminate|reflexivity].
Defined.

(** ** Deleting all indexed files *)

(** The relational [delete_all_indexed_files] never touches
    [scan_results]: whatever it returns, the table is as before. *)
Lemma sqlite_delete_all_scan_results (db db' : SQLite.Session) (n : Z) :
  SQLite.delete_all_indexed_files db = Ok (n, db') ->
  SQLite.indexed_files db' = []
  /\ SQLite.scan_results db' = SQLite.scan_results db.
Proof.
  unfold SQLite.delete_all_indexed_files.
  destruct (_ && _); [discriminate|].
  intros [= _ <-]. split; reflexivity.
Qed.

(** C1, at the failing input: on the relational backend
    [delete_all_indexed_files] reports one file deleted and empties
    [indexed_files], but the scan result that referenced the file is still
    stored. *)
Theorem sqlite_delete_all_leaves_scan_results :
  SQLite.count_indexed_files store_with_one_match = 1
  /\ SQLite.count_scan_results store_with_one_match = 1
  /\ exists db',
       SQLite.delete_all_indexed_files store_with_one_match = Ok (1, db')
       /\ SQLite.count_indexed_files db' = 0
       /\ SQLite.count_scan_results db' = 1.
Proof.
  repeat split. eexists. repeat split.
Qed.

(** With foreign keys enforced the same call fails and purges nothing. *)
Example sqlite_delete_all_with_foreign_keys :
  SQLite.delete_all_indexed_files
    (SQLite.mkSession (SQLite.indexed_files store_with_one_match)
       (SQLite.scan_results store_with_one_match) true)
  = Raise IntegrityError.
Proof. reflexivity. Qed.

Lemma delete_keys_lookup (keys : list string) (db : gmap string Redis.Doc)
    (k : string) (d : Redis.Doc) :
  Redis.delete_keys keys db !! k = Some d <->
  db !! k = Some d /\ ~ List.In k keys.
Proof.
  unfold Redis.delete_keys. induction keys as [|x xs IH]; simpl.
  - tauto.
  - destruct (decide (x = k)) as [->|Hne].
    + rewrite lookup_delete_eq. split; [discriminate|]. intros [_ H]. tauto.
    + rewrite lookup_delete_ne by exact Hne. rewrite IH. intuition congruence.
Qed.

Lemma scan_iter_spec (prefix : string) (db : gmap string Redis.Doc)
    (k : string) :
  List.In k (Redis.scan_iter prefix db) <->
  String.prefix prefix k = true /\ is_Some (db !! k).
Proof.
  unfold Redis.scan_iter. rewrite List.filter_In.
  rewrite <- list_elem_of_In, list_elem_of_fmap. split.
  - intros [([k' d] & -> & Hin) Hp]. split; [exact Hp|].
    apply elem_of_map_to_list in Hin. simpl. eauto.
  - intros [Hp [d Hd]]. split; [|exact Hp].
    exists (k, d). split; [reflexivity|]. now apply elem_of_map_to_list.
Qed.

(** [scan_iter] finds each key that starts with the prefix once. *)
Lemma scan_iter_length (prefix : string) (db : gmap string Redis.Doc) :
  List.length (Redis.scan_iter prefix db)
  = size (filter (fun kv : string * Redis.Doc =>
                    String.prefix prefix kv.1 = true) db).
Proof.
  rewrite <- length_map_to_list, <- (length_fmap fst (map_to_list (filter _ db))).
  apply Permutation_length, NoDup_Permutation.
  - unfold Redis.scan_iter. apply NoDup_ListNoDup, List.NoDup_filter.
    apply NoDup_ListNoDup, NoDup_fst_map_to_list.
  - apply NoDup_fst_map_to_list.
  - intros k. rewrite list_elem_of_In, scan_iter_spec, list_elem_of_fmap.
    split.
    + intros [Hp [d Hd]]. exists (k, d). split; [reflexivity|].
      apply elem_of_map_to_list, map_lookup_filter_Some. auto.
    + intros ([k' d] & -> & Hin).
      apply elem_of_map_to_list, map_lookup_filter_Some in Hin as [Hd Hp].
      simpl in *. eauto.
Qed.

(** X1. On the key/value backend, [delete_all_indexed_files] returns the
    number of keys the store held under [file:]; after it no key is left
    under [file:] nor under [result:], and every other key is kept as it
    was. *)
Lemma redis_delete_all_purges (db : gmap string Redis.Doc) (k : string) :
  let r := Redis.delete_all_indexed_files db in
  r.1 = Z.of_nat (size (filter (fun kv : string * Redis.Doc =>
                                  String.prefix Redis.FILE_PREFIX kv.1 = true)
                          db))
  /\ (String.prefix Redis.FILE_PREFIX k = true
      \/ String.prefix Redis.RESULT_PREFIX k = true -> r.2 !! k = None)
  /\ (String.prefix Redis.FILE_PREFIX k = false ->
      String.prefix Redis.RESULT_PREFIX k = false -> r.2 !! k = db !! k).
Proof.
  assert (E : (Redis.delete_all_indexed_files db).2
              = Redis.delete_keys (Redis.scan_iter Redis.RESULT_PREFIX db)
                  (Redis.delete_keys (Redis.scan_iter Redis.FILE_PREFIX db)
                     db)).
  { unfold Redis.delete_all_indexed_files. simpl.
    destruct (Redis.scan_iter Redis.FILE_PREFIX db);
      destruct (Redis.scan_iter Redis.RESULT_PREFIX db); reflexivity. }
  intros r. subst r. rewrite E. split; [|split].
  - unfold Redis.delete_all_indexed_files. cbn [fst].
    now rewrite scan_iter_length.
  - intros Hp. apply eq_None_not_Some. intros [d Hd].
    apply delete_keys_lookup in Hd as [Hd Hr].
    apply delete_keys_lookup in Hd as [Hd Hf].
    destruct Hp as [Hp|Hp].
    + apply Hf, scan_iter_spec. eauto.
    + apply Hr, scan_iter_spec. eauto.
  - intros Hf Hr. apply option_eq. intros d.
    rewrite !delete_keys_lookup, !scan_iter_spec. split; [tauto|].
    intros Hd. repeat split; try exact Hd; intros [Hp _]; congruence.
Qed.

(** Two files and one scan result, and a key of another kind. *)
Example redis_delete_all_demo :
  let db : gmap string Redis.Doc :=
    <["file:a" := Redis.FileDoc "/p/a" "a" "h1" (1 # 1) 10 None]>
      (<["file:b" := Redis.FileDoc "/p/b" "b" "h2" (1 # 1) 11 None]>
         (<["result:r" := Redis.ResultDoc "scan-1" "/tmp/x" Models.exact
                            (1 # 1) "a" None None 12]>
            (<["config" := Redis.FileDoc "" "" "" (0 # 1) 0 None]> ∅))) in
  (Redis.delete_all_indexed_files db).1 = 2
  /\ (map_to_list (Redis.delete_all_indexed_files db).2).*1 = ["config"].
Proof. vm_compute. split; reflexivity. Qed.

(** ** The ignore matcher *)

Lemma translate_plain (pat : list ascii) (fuel : nat) :
  plain pat = true -> (List.length pat <= fuel)%nat ->
  Fnmatch.translate fuel pat = List.map Fnmatch.TLit pat.
Proof.
  revert fuel. induction pat as [|c r IH]; intros fuel Hp Hlen.
  - destruct fuel; reflexivity.
  - destruct fuel as [|fuel]; [simpl in Hlen; lia|].
    cbn [plain List.forallb] in Hp. apply andb_prop in Hp as [Hc Hr].
    apply negb_true_iff in Hc.
    apply orb_false_elim in Hc as [Hc H3].
    apply orb_false_elim in Hc as [H1 H2].
    cbn [Fnmatch.translate]. rewrite H1, H2, H3.
    cbn [List.map]. f_equal. apply IH; [exact Hr|simpl in Hlen; lia].
Qed.

Lemma matches_literals (pat s : list ascii) :
  Fnmatch.matches (List.map Fnmatch.TLit pat) s = true <-> s = pat.
Proof.
  revert s. induction pat as [|c r IH]; intros s; simpl.
  - destruct s; split; congruence.
  - destruct s as [|d s']; [split; congruence|].
    rewrite andb_true_iff, IH, Ascii.eqb_eq. split.
    + intros [-> ->]. reflexivity.
    + intros [= -> ->]. auto.
Qed.

(** The glob match of the model is case-sensitive: a pattern without
    special characters matches its own spelling and nothing else. *)
Lemma fnmatch_plain (name pat : string) :
  plain (list_ascii_of_string pat) = true ->
  Fnmatch.fnmatch name pat = true <-> name = pat.
Proof.
  intros Hp. unfold Fnmatch.fnmatch.
  rewrite translate_plain by (exact Hp || lia).
  rewrite matches_literals. split.
  - intros E. rewrite <- (string_of_list_ascii_of_string name),
      <- (string_of_list_ascii_of_string pat). now rewrite E.
  - now intros ->.
Qed.

Lemma matches_any_iff (fnmatch : string -> string -> bool)
    (basename : string) (patterns : list string) :
  Ignore.matches_any fnmatch basename patterns = true <->
  exists pattern,
    List.In pattern patterns
    /\ (fnmatch basename pattern = true
        \/ (Ignore.no_wildcard pattern = true
            /\ Py.lower basename = Py.lower pattern)).
Proof.
  induction patterns as [|q qs IH]; simpl.
  - split; [discriminate|]. intros (? & [] & _).
  - destruct (fnmatch basename q) eqn:Hglob.
    + split; [|reflexivity]. intros _. exists q. auto.
    + destruct (Ignore.no_wildcard q) eqn:Hexact; simpl.
      * destruct (String.eqb_spec (Py.lower basename) (Py.lower q)) as [E|E].
        -- split; [|reflexivity]. intros _. exists q. auto.
        -- rewrite IH. split.
           ++ intros (r & Hin & Hr). exists r. auto.
           ++ intros (r & [<-|Hin] & Hr).
              ** destruct Hr as [Hr|[_ Hr]]; congruence.
              ** exists r. auto.
      * rewrite IH. split.
        -- intros (r & Hin & Hr). exists r. auto.
        -- intros (r & [<-|Hin] & Hr).
           ++ destruct Hr as [Hr|[Hr _]]; congruence.
           ++ exists r. auto.
Qed.

Lemma matches_star_nil (ts : list Fnmatch.token) :
  Fnmatch.matches (Fnmatch.TStar :: ts) [] = Fnmatch.matches ts [].
Proof. simpl. apply orb_false_r. Qed.

Lemma matches_star_cons (ts : list Fnmatch.token) (c : ascii)
    (r : list ascii) :
  Fnmatch.matches (Fnmatch.TStar :: ts) (c :: r)
  = Fnmatch.matches ts (c :: r) || Fnmatch.matches (Fnmatch.TStar :: ts) r.
Proof. reflexivity. Qed.

(** A star stands for any run of characters. *)
Lemma matches_star (ts : list Fnmatch.token) (s : list ascii) :
  Fnmatch.matches (Fnmatch.TStar :: ts) s = true <->
  exists pre post, s = (pre ++ post)%list /\ Fnmatch.matches ts post = true.
Proof.
  induction s as [|c r IH].
  - rewrite matches_star_nil. split.
    + intros H. now exists [], [].
    + intros (pre & post & E & H). symmetry in E.
      apply List.app_eq_nil in E as [_ ->]. exact H.
  - rewrite matches_star_cons, orb_true_iff, IH. split.
    + intros [H|(pre & post & -> & H)].
      * now exists [], (c :: r).
      * now exists (c :: pre), post.
    + intros (pre & post & E & H). destruct pre as [|d pre].
      * left. simpl in E. now rewrite E.
      * right. injection E as _ ->. now exists pre, post.
Qed.

Lemma list_ascii_of_string_app (a b : string) :
  list_ascii_of_string (a ++ b)
  = (list_ascii_of_string a ++ list_ascii_of_string b)%list.
Proof. induction a as [|c a IH]; simpl; [reflexivity|now rewrite IH]. Qed.

(** The glob match of the model on a star followed by plain characters:
    the names that end with these characters, in their own case. *)
Lemma fnmatch_star_suffix (name suffix : string) :
  plain (list_ascii_of_string suffix) = true ->
  Fnmatch.fnmatch name ("*" ++ suffix) = true <->
  exists stem, name = stem ++ suffix.
Proof.
  intros Hp. unfold Fnmatch.fnmatch.
  change (list_ascii_of_string ("*" ++ suffix))
    with ("*"%char :: list_ascii_of_string suffix).
  cbn [List.length Fnmatch.translate]. change (Ascii.eqb "*" "*") with true.
  cbv iota. rewrite translate_plain by (exact Hp || lia).
  rewrite matches_star. split.
  - intros (pre & post & E & H). apply matches_literals in H as ->.
    exists (string_of_list_ascii pre).
    rewrite <- (string_of_list_ascii_of_string name), E.
    rewrite <- (string_of_list_ascii_of_string
                  (string_of_list_ascii pre ++ suffix)).
    now rewrite list_ascii_of_string_app, list_ascii_of_string_of_list_ascii.
  - intros [stem ->]. exists (list_ascii_of_string stem),
      (list_ascii_of_string suffix).
    split; [apply list_ascii_of_string_app|now apply matches_literals].
Qed.

(** C8, as the code has it. [should_ignore] looks at the last component of
    the name only, and is true exactly when some configured pattern matches
    that component: by the glob match of [fnmatch], which is case-sensitive,
    or, for a pattern with neither a star nor a question mark in it, by
    equality up to the case of the letters. A bracket expression does not
    keep a pattern from the second rule. The glob match of a pattern of
    plain characters is equality, and that of a star followed by plain
    characters is the test of a suffix. *)
Theorem should_ignore_iff (cfg : Ignore.IgnoredFilesConfig)
    (filename name : string) :
  last_component filename name ->
  (Ignore.should_ignore Fnmatch.fnmatch cfg filename = true <->
   exists pattern,
     List.In pattern (Ignore.patterns cfg)
     /\ (Fnmatch.fnmatch name pattern = true
         \/ (Py.contains "*" pattern = false
             /\ Py.contains "?" pattern = false
             /\ same_up_to_case name pattern)))
  /\ Ignore.should_ignore Fnmatch.fnmatch cfg filename
     = Ignore.should_ignore Fnmatch.fnmatch cfg name
  /\ (forall pattern,
         plain (list_ascii_of_string pattern) = true ->
         Fnmatch.fnmatch name pattern = true <-> name = pattern)
  /\ (forall suffix,
         plain (list_ascii_of_string suffix) = true ->
         Fnmatch.fnmatch name ("*" ++ suffix) = true <->
         exists stem, name = stem ++ suffix).
Proof.
  intros Hlast.
  assert (Hdef : forall f,
             Ignore.should_ignore Fnmatch.fnmatch cfg f
             = Ignore.matches_any Fnmatch.fnmatch (Py.basename f)
                 (Ignore.patterns cfg)).
  { intros f. unfold Ignore.should_ignore.
    destruct (Ignore.patterns cfg); reflexivity. }
  pose proof (basename_last_component filename name Hlast) as Hbase.
  assert (Hname : Py.basename name = name).
  { apply basename_last_component. destruct Hlast as [Hn _].
    split; [exact Hn|now left]. }
  split; [|split; [|split]].
  - rewrite Hdef, Hbase, matches_any_iff. unfold Ignore.no_wildcard.
    split; intros (q & Hin & Hq); exists q; (split; [exact Hin|]).
    + destruct Hq as [Hq|[Hw Hq]]; [now left|right].
      apply andb_prop in Hw as [H1 H2].
      apply negb_true_iff in H1, H2. apply lower_eq_iff in Hq. auto.
    + destruct Hq as [Hq|(H1 & H2 & Hq)]; [now left|right].
      rewrite H1, H2. split; [reflexivity|now apply lower_eq_iff].
  - now rewrite !Hdef, Hbase, Hname.
  - intros pattern Hp. now apply fnmatch_plain.
  - intros suffix Hp. now apply fnmatch_star_suffix.
Qed.

(** A log file in a directory: the directory plays no part, the star
    pattern matches the component, and the exact pattern would match it in
    any case. *)
Lemma should_ignore_iff_witness :
  let cfg := Ignore.mkIgnoredFilesConfig ["*.log"; ".DS_Store"] in
  (Ignore.should_ignore Fnmatch.fnmatch cfg "/var/log/app.log" = true <->
   exists pattern,
     List.In pattern (Ignore.patterns cfg)
     /\ (Fnmatch.fnmatch "app.log" pattern = true
         \/ (Py.contains "*" pattern = false
             /\ Py.contains "?" pattern = false
             /\ same_up_to_case "app.log" pattern)))
  /\ Ignore.should_ignore Fnmatch.fnmatch cfg "/var/log/app.log"
     = Ignore.should_ignore Fnmatch.fnmatch cfg "app.log"
  /\ (forall pattern,
         plain (list_ascii_of_string pattern) = true ->
         Fnmatch.fnmatch "app.log" pattern = true <-> "app.log" = pattern)
  /\ (forall suffix,
         plain (list_ascii_of_string suffix) = true ->
         Fnmatch.fnmatch "app.log" ("*" ++ suffix) = true <->
         exists stem, "app.log" = stem ++ suffix).
Proof.
  refine (should_ignore_iff (Ignore.mkIgnoredFilesConfig ["*.log"; ".DS_Store"])
            "/var/log/app.log" "app.log" _).
  split; [reflexivity|]. right. now exists "/var/log".
Defined.

(** The glob match of the model is case-sensitive, the exact-pattern rule is
    not, and directories in the name play no part. *)
Example should_ignore_examples :
  let cfg := Ignore.mkIgnoredFilesConfig ["*.log"; ".DS_Store"; "[Tt]humbs.db"] in
  List.map (Ignore.should_ignore Fnmatch.fnmatch cfg)
    ["app.log"; "APP.LOG"; "/var/log/app.log"; "/srv/x.log/notes.md";
     ".ds_store"; "notes.md"; "thumbs.db"; "THUMBS.DB"]
  = [true; false; true; false; true; false; true; false].
Proof. vm_compute. reflexivity. Qed.

(** C8 fails as stated: the pattern holds a bracket expression, a wildcard
    of the glob syntax (it matches [a.txt] and not its own spelling), and
    yet a name that no glob match accepts is ignored, by the
    case-insensitive rule. *)
Lemma should_ignore_bracket_pattern :
  Ignore.should_ignore Fnmatch.fnmatch
    (Ignore.mkIgnoredFilesConfig ["[ab].txt"]) "[AB].TXT" = true
  /\ Fnmatch.fnmatch "[AB].TXT" "[ab].txt" = false
  /\ Fnmatch.fnmatch "a.txt" "[ab].txt" = true
  /\ Fnmatch.fnmatch "[ab].txt" "[ab].txt" = false
  /\ Py.contains "[" "[ab].txt" = true.
Proof. vm_compute. repeat split. Qed.

(** ** Rounding to a double *)

Lemma round_half_even_comp (a b : Q) :
  (a == b)%Q -> Py.round_half_even a = Py.round_half_even b.
Proof.
  intros E. unfold Py.round_half_even.
  rewrite (Qfloor_comp _ _ E).
  assert (E' : (a - inject_Z (Qfloor b) == b - inject_Z (Qfloor b))%Q)
    by now rewrite E.
  now rewrite (Qcompare_comp _ _ E' _ _ (Qeq_refl _)).
Qed.

Lemma round_half_even_bounds (a : Q) :
  Qfloor a <= Py.round_half_even a <= Qfloor a + 1.
Proof.
  unfold Py.round_half_even.
  destruct (_ ?= _)%Q; [destruct (Z.even _)| |]; lia.
Qed.

Lemma round_half_even_Z (n : Z) : Py.round_half_even (inject_Z n) = n.
Proof.
  unfold Py.round_half_even. rewrite Qfloor_Z.
  assert (E : (inject_Z n - inject_Z n ?= 1 # 2)%Q = Lt).
  { apply Qlt_alt. setoid_replace (inject_Z n - inject_Z n)%Q with 0%Q using relation Qeq by ring.
    reflexivity. }
  now rewrite E.
Qed.

Lemma round_half_even_le (a b : Q) :
  (a <= b)%Q -> Py.round_half_even a <= Py.round_half_even b.
Proof.
  intros Hab. pose proof (Qfloor_resp_le _ _ Hab) as Hf.
  destruct (Z.eq_dec (Qfloor a) (Qfloor b)) as [E|Hne].
  - unfold Py.round_half_even. rewrite <- E.
    set (f := Qfloor a).
    assert (Hr : (a - inject_Z f <= b - inject_Z f)%Q).
    { unfold Qminus. apply Qplus_le_l. exact Hab. }
    destruct (Qcompare_spec (a - inject_Z f) (1 # 2)) as [Ha|Ha|Ha];
      destruct (Qcompare_spec (b - inject_Z f) (1 # 2)) as [Hb|Hb|Hb].
    + lia.
    + exfalso. rewrite Ha in Hr. apply (Qlt_irrefl (1 # 2)).
      eapply Qle_lt_trans; eassumption.
    + destruct (Z.even f); lia.
    + destruct (Z.even f); lia.
    + lia.
    + lia.
    + exfalso. rewrite Hb in Hr. apply (Qlt_irrefl (1 # 2)).
      eapply Qlt_le_trans; eassumption.
    + exfalso. apply (Qlt_irrefl (1 # 2)). eapply Qlt_trans; [exact Ha|].
      eapply Qle_lt_trans; eassumption.
    + lia.
  - pose proof (round_half_even_bounds a). pose proof (round_half_even_bounds b).
    lia.
Qed.

Lemma pow2_pos (e : Z) : (0 < 2 ^ e)%Q.
Proof. now apply Qpower_0_lt. Qed.

Lemma pow2_le (a b : Z) : a <= b -> (2 ^ a <= 2 ^ b)%Q.
Proof. intros H. apply Qpower_le_compat_l; [exact H|discriminate]. Qed.

Lemma pow2_Z (a : Z) : 0 <= a -> (2 ^ a == inject_Z (2 ^ a))%Q.
Proof. intros H. now rewrite (Zpower_Qpower 2 a H). Qed.

Lemma Qdiv_lt_cross (x u : Z) (y v : positive) :
  (inject_Z x / inject_Z (Z.pos y) < inject_Z u / inject_Z (Z.pos v))%Q
  <-> x * Z.pos v < u * Z.pos y.
Proof. rewrite <- !Qmake_Qdiv. unfold Qlt. simpl. reflexivity. Qed.

Lemma Qdiv_le_cross (x u : Z) (y v : positive) :
  (inject_Z x / inject_Z (Z.pos y) <= inject_Z u / inject_Z (Z.pos v))%Q
  <-> x * Z.pos v <= u * Z.pos y.
Proof. rewrite <- !Qmake_Qdiv. unfold Qle. simpl. reflexivity. Qed.

Lemma ilog2_spec (q : Q) :
  (0 < q)%Q -> (2 ^ Py.ilog2 q <= q)%Q /\ (q < 2 ^ (Py.ilog2 q + 1))%Q.
Proof.
  intros Hq. unfold Py.ilog2.
  destruct q as [n d]. cbn [Qnum Qden].
  assert (Hn : 0 < n) by (unfold Qlt in Hq; simpl in Hq; lia).
  pose proof (Z.log2_spec n Hn) as [Ha1 Ha2].
  pose proof (Z.log2_spec (Z.pos d) (Pos2Z.is_pos d)) as [Hb1 Hb2].
  pose proof (Z.log2_nonneg n) as Ha0.
  pose proof (Z.log2_nonneg (Z.pos d)) as Hb0.
  set (a := Z.log2 n) in *. set (b := Z.log2 (Z.pos d)) in *.
  rewrite Z.pow_succ_r in Ha2, Hb2 by assumption.
  assert (Hpa : 0 < 2 ^ a) by (apply Z.pow_pos_nonneg; lia).
  assert (Hpb : 0 < 2 ^ b) by (apply Z.pow_pos_nonneg; lia).
  assert (Hnz : forall z : Z, 0 < z -> ~ (inject_Z z == 0)%Q).
  { intros z Hz E. unfold Qeq in E. simpl in E. lia. }
  assert (Hup' : (2 ^ (a - b + 1) == inject_Z (2 * 2 ^ a) / inject_Z (2 ^ b))%Q).
  { rewrite Qpower_plus, Qpower_minus by discriminate.
    rewrite (pow2_Z a), (pow2_Z b) by assumption.
    rewrite inject_Z_mult. change (2 ^ 1)%Q with (inject_Z 2).
    field. now apply Hnz. }
  assert (Hlow' : (2 ^ (a - b + -1)
                   == inject_Z (2 ^ a) / inject_Z (2 * 2 ^ b))%Q).
  { rewrite Qpower_plus, Qpower_minus by discriminate.
    rewrite (pow2_Z a), (pow2_Z b) by assumption.
    rewrite inject_Z_mult. change (2 ^ (-1))%Q with (/ inject_Z 2)%Q.
    field. now apply Hnz. }
  assert (Hq' : (n # d == inject_Z n / inject_Z (Z.pos d))%Q)
    by apply Qmake_Qdiv.
  destruct (2 ^ a) as [|pa|pa] eqn:Epa; try lia.
  destruct (2 ^ b) as [|pb|pb] eqn:Epb; try lia.
  assert (Hup : (n # d < 2 ^ (a - b + 1))%Q).
  { rewrite Hup', Hq'. change (2 * Z.pos pa) with (Z.pos (2 * pa)).
    apply Qdiv_lt_cross. nia. }
  assert (Hlow : (2 ^ (a - b + -1) <= n # d)%Q).
  { rewrite Hlow', Hq'. change (2 * Z.pos pb) with (Z.pos (2 * pb)).
    apply Qdiv_le_cross. nia. }
  destruct (Qle_bool (2 ^ (a - b)) (n # d)) eqn:Hle.
  - apply Qle_bool_iff in Hle. split; [exact Hle|exact Hup].
  - split.
    + replace (a - b - 1) with (a - b + -1) by lia. exact Hlow.
    + replace (a - b - 1 + 1) with (a - b) by lia.
      apply Qnot_le_lt. intros H. apply Qle_bool_iff in H. congruence.
Qed.

Lemma ilog2_le (x y : Q) :
  (0 < x)%Q -> (x <= y)%Q -> Py.ilog2 x <= Py.ilog2 y.
Proof.
  intros Hx Hxy.
  assert (Hy : (0 < y)%Q) by (eapply Qlt_le_trans; eassumption).
  destruct (ilog2_spec x Hx) as [Hx1 _].
  destruct (ilog2_spec y Hy) as [_ Hy2].
  destruct (Z_le_gt_dec (Py.ilog2 x) (Py.ilog2 y)) as [H|H]; [exact H|].
  exfalso. apply (Qlt_irrefl y).
  eapply Qlt_le_trans; [exact Hy2|].
  eapply Qle_trans; [|exact Hxy].
  eapply Qle_trans; [|exact Hx1]. apply pow2_le. lia.
Qed.

Lemma on_grid_le (g : Z) (x y : Q) :
  (x <= y)%Q -> (on_grid g x <= on_grid g y)%Q.
Proof.
  intros H. unfold on_grid. apply Qmult_le_compat_r.
  - rewrite <- Zle_Qle. apply round_half_even_le.
    unfold Qdiv. apply Qmult_le_compat_r; [exact H|].
    apply Qinv_le_0_compat, Qlt_le_weak, pow2_pos.
  - apply Qlt_le_weak, pow2_pos.
Qed.

Lemma on_grid_fixes (g : Z) (n : Z) :
  (on_grid g (inject_Z n * 2 ^ g) == inject_Z n * 2 ^ g)%Q.
Proof.
  unfold on_grid.
  rewrite (round_half_even_comp _ (inject_Z n)).
  - now rewrite round_half_even_Z.
  - field. apply Qpower_not_0. discriminate.
Qed.

Lemma pow2_on_grid (g e : Z) :
  g <= e -> (on_grid g (2 ^ e) == 2 ^ e)%Q.
Proof.
  intros H.
  assert (E : (2 ^ e == inject_Z (2 ^ (e - g)) * 2 ^ g)%Q).
  { rewrite <- pow2_Z by lia. rewrite <- Qpower_plus by discriminate.
    now replace (e - g + g) with e by lia. }
  unfold on_grid at 1.
  rewrite (round_half_even_comp _ (inject_Z (2 ^ (e - g)))).
  - rewrite round_half_even_Z. now rewrite <- E.
  - rewrite E. field. apply Qpower_not_0. discriminate.
Qed.

Lemma round_magnitude_grid (q : Q) :
  Py.round_magnitude q = on_grid (Z.max (Py.ilog2 q) (-1022) - 52) q.
Proof. reflexivity. Qed.

Lemma round_magnitude_le (x y : Q) :
  (0 < x)%Q -> (x <= y)%Q ->
  (Py.round_magnitude x <= Py.round_magnitude y)%Q.
Proof.
  intros Hx Hxy. rewrite !round_magnitude_grid.
  assert (Hy : (0 < y)%Q) by (eapply Qlt_le_trans; eassumption).
  pose proof (ilog2_le x y Hx Hxy) as He.
  set (gx := Z.max (Py.ilog2 x) (-1022) - 52).
  set (gy := Z.max (Py.ilog2 y) (-1022) - 52).
  destruct (Z.eq_dec gx gy) as [E|Hne].
  - rewrite E. now apply on_grid_le.
  - assert (Hlt : Py.ilog2 x < Py.ilog2 y) by lia.
    assert (Hgy : gy = Py.ilog2 y - 52) by lia.
    destruct (ilog2_spec x Hx) as [_ Hx2].
    destruct (ilog2_spec y Hy) as [Hy1 _].
    set (B := (2 ^ Py.ilog2 y)%Q) in *.
    assert (HxB : (x <= B)%Q).
    { apply Qlt_le_weak. eapply Qlt_le_trans; [exact Hx2|].
      apply pow2_le. lia. }
    eapply Qle_trans; [apply (on_grid_le gx x B HxB)|].
    eapply Qle_trans; [|apply (on_grid_le gy B y Hy1)].
    unfold B. rewrite !pow2_on_grid by lia. apply Qle_refl.
Qed.

Lemma round_magnitude_0 (q : Q) : (q == 0)%Q -> (Py.round_magnitude q == 0)%Q.
Proof.
  intros E. rewrite round_magnitude_grid. unfold on_grid.
  rewrite (round_half_even_comp _ (inject_Z 0)).
  - rewrite round_half_even_Z. ring.
  - unfold Qdiv.
    eapply Qeq_trans; [apply Qmult_comp; [exact E|apply Qeq_refl]|].
    apply Qmult_0_l.
Qed.

Lemma round_magnitude_nonneg (q : Q) :
  (0 <= q)%Q -> (0 <= Py.round_magnitude q)%Q.
Proof.
  intros H. rewrite round_magnitude_grid. unfold on_grid.
  apply Qmult_le_0_compat; [|apply Qlt_le_weak, pow2_pos].
  change 0%Q with (inject_Z 0). rewrite <- Zle_Qle.
  rewrite <- (round_half_even_Z 0). apply round_half_even_le.
  apply Qle_shift_div_l; [apply pow2_pos|]. now rewrite Qmult_0_l.
Qed.

Lemma round_magnitude_le0 (x y : Q) :
  (0 <= x)%Q -> (x <= y)%Q ->
  (Py.round_magnitude x <= Py.round_magnitude y)%Q.
Proof.
  intros Hx Hxy. destruct (Qlt_le_dec 0 x) as [H|H].
  - now apply round_magnitude_le.
  - assert (E : (x == 0)%Q) by now apply Qle_antisym.
    rewrite (round_magnitude_0 x E). apply round_magnitude_nonneg.
    eapply Qle_trans; eassumption.
Qed.

(** Rounding to the nearest double never reverses an order. *)
Lemma round_double_le (x y : Q) :
  (x <= y)%Q -> (Py.round_double x <= Py.round_double y)%Q.
Proof.
  intros Hxy. unfold Py.round_double. rewrite !Qred_correct.
  destruct (Qle_bool 0 x) eqn:Hx; destruct (Qle_bool 0 y) eqn:Hy.
  - apply Qle_bool_iff in Hx. now apply round_magnitude_le0.
  - exfalso. apply Qle_bool_iff in Hx.
    assert (H : (0 <= y)%Q) by (eapply Qle_trans; eassumption).
    apply Qle_bool_iff in H. congruence.
  - apply Qle_bool_iff in Hy.
    apply Qle_trans with 0%Q; [|now apply round_magnitude_nonneg].
    assert (Hn : (0 <= - x)%Q).
    { apply Qlt_le_weak. apply Qnot_le_lt. intros H.
      assert (H' : (0 <= x)%Q).
      { rewrite <- (Qopp_involutive x). 
        setoid_replace 0%Q with (- 0)%Q using relation Qeq by reflexivity.
        now apply Qopp_le_compat. }
      apply Qle_bool_iff in H'. congruence. }
    setoid_replace 0%Q with (- 0)%Q using relation Qeq by reflexivity.
    apply Qopp_le_compat. now apply round_magnitude_nonneg.
  - apply Qopp_le_compat. apply round_magnitude_le0.
    + apply Qlt_le_weak. apply Qnot_le_lt. intros H.
      assert (H' : (0 <= y)%Q).
      { rewrite <- (Qopp_involutive y).
        setoid_replace 0%Q with (- 0)%Q using relation Qeq by reflexivity.
        now apply Qopp_le_compat. }
      apply Qle_bool_iff in H'. congruence.
    + now apply Qopp_le_compat.
Qed.

Lemma round_double_comp (x y : Q) :
  (x == y)%Q -> Py.round_double x = Py.round_double y.
Proof.
  intros E. unfold Py.round_double. apply Qred_complete.
  apply Qle_antisym; apply Qred_le.
  - apply (round_double_le x y). apply Qle_lteq. now right.
  - apply (round_double_le y x). apply Qle_lteq. right. now apply Qeq_sym.
Qed.

(** The combined score of the secondary validation grows with both of its
    arguments. *)
Lemma combined_score_le (p p' s s' : float) :
  (p <= p')%Q -> (s <= s')%Q ->
  (combined_score p s <= combined_score p' s')%Q.
Proof.
  intros Hp Hs. unfold combined_score, Py.float_truediv, Py.float_add.
  apply round_double_le. unfold Qdiv.
  apply Qmult_le_compat_r; [|discriminate].
  apply round_double_le. now apply Qplus_le_compat.
Qed.

(** ** The similarity matcher *)


Lemma Qle_bool_true (a b : Q) : Qle_bool a b = true <-> (a <= b)%Q.
Proof. apply Qle_bool_iff. Qed.






Lemma for_each_In {A B : Type} (body : A -> result (option B)) (l : list A)
    (bs : list B) (b : B) :
  Similarity.for_each body l = Ok bs -> List.In b bs ->
  exists a, List.In a l /\ body a = Ok (Some b).
Proof.
  revert bs. induction l as [|a r IH]; intros bs Hrun Hin.
  - injection Hrun as <-. destruct Hin.
  - cbn [Similarity.for_each] in Hrun.
    destruct (body a) as [o|e] eqn:Ha; [|discriminate]. simpl in Hrun.
    destruct (Similarity.for_each body r) as [bs'|e] eqn:Hr; [|discriminate].
    simpl in Hrun. injection Hrun as <-.
    destruct o as [b'|].
    + destruct Hin as [<-|Hin].
      * exists a. split; [now left|assumption].
      * destruct (IH bs' eq_refl Hin) as (a' & Ha' & Hb).
        exists a'. split; [now right|assumption].
    + destruct (IH bs' eq_refl Hin) as (a' & Ha' & Hb).
      exists a'. split; [now right|assumption].
Qed.

Lemma insert_desc_In {A : Type} (key : A -> float) (x y : A) (l : list A) :
  List.In y (Similarity.insert_desc key x l) -> y = x \/ List.In y l.
Proof.
  induction l as [|z r IH]; simpl.
  - intros [<-|[]]. now left.
  - destruct (Qle_bool (key z) (key x)); simpl.
    + intros [<-|[<-|H]]; auto.
    + intros [<-|H]; auto. destruct (IH H); auto.
Qed.

Lemma sort_desc_In {A : Type} (key : A -> float) (y : A) (l : list A) :
  List.In y (Similarity.sort_desc key l) -> List.In y l.
Proof.
  unfold Similarity.sort_desc. induction l as [|x r IH]; simpl; [tauto|].
  intros H. apply insert_desc_In in H as [->|H]; auto.
Qed.

Lemma firstn_In {A : Type} (n : nat) (y : A) (l : list A) :
  List.In y (List.firstn n l) -> List.In y l.
Proof.
  revert l. induction n as [|n IH]; intros [|x r]; simpl; try tauto.
  intros [<-|H]; auto.
Qed.

Section MatcherFacts.

Variable Matrix : Type.
Variable cosine_scores :
  Z -> Z -> Z -> string -> Matrix -> result (list float).

Lemma retained_reportable (content : string) (matrix : Matrix)
    (config : Similarity.SimilarityConfig)
    (candidates retained : list (nat * float)) :
  (forall idx p, List.In (idx, p) candidates ->
                 (Similarity.similarity_threshold config <= p)%Q) ->
  Similarity.retained_candidates Matrix cosine_scores content matrix config
    candidates = Ok retained ->
  forall idx score, List.In (idx, score) retained -> reportable config score.
Proof.
  intros Hprim Hrun idx score Hin. unfold Similarity.retained_candidates in Hrun.
  destruct (Similarity.require_multiple_matches config) eqn:Hreq;
    [|injection Hrun as <-; left; eauto].
  destruct (200 <=? Similarity.len content);
    [|injection Hrun as <-; left; eauto].
  simpl in Hrun.
  destruct (Similarity.window_differs config) eqn:Hw;
    [|injection Hrun as <-; left; eauto].
  destruct (cosine_scores _ _ _ _ _) as [secondary|e]; [|discriminate].
  simpl in Hrun. unfold Similarity.validated_candidates in Hrun.
  destruct (for_each_In _ _ _ _ Hrun Hin) as ([i p] & Hc & Hbody).
  destruct (List.nth_error secondary i) as [s|]; [|discriminate].
  destruct (Qle_bool _ s) eqn:Hle; [|discriminate].
  injection Hbody as <- <-. right.
  split; [exact Hreq|]. split; [exact Hw|].
  exists p, s. repeat split; [eauto|now apply Qle_bool_true].
Qed.

(** Every match the matcher returns is classified by [get_match_type] on
    its own score, and that score is reportable. *)
Lemma compute_similarity_sound {Id : Type}
    (store_config config : Similarity.SimilarityConfig) (content : string)
    (matrix : Matrix) (indexed_ids : list Id) (i : Id) (score : float)
    (kind : Models.MatchType) :
  List.In (i, score, kind)
    (Similarity.compute_similarity_with_validation Matrix cosine_scores
       store_config content matrix indexed_ids config) ->
  kind = Similarity.get_match_type store_config score
  /\ reportable config score.
Proof.
  unfold Similarity.compute_similarity_with_validation.
  destruct (Similarity.similarity_matches _ _ _ _ _ _ _) as [ms|e] eqn:Hrun;
    [|intros []].
  intros Hin. unfold Similarity.similarity_matches in Hrun.
  destruct (cosine_scores _ _ _ _ _) as [primary|e]; [|discriminate].
  simpl in Hrun.
  match type of Hrun with
  | match ?c with _ => _ end = _ => remember c as candidates eqn:Hcand
  end.
  assert (Hprim : forall idx p, List.In (idx, p) candidates ->
            (Similarity.similarity_threshold config <= p)%Q).
  { intros idx p Hc. rewrite Hcand in Hc.
    apply List.filter_In in Hc as [_ Hc]. now apply Qle_bool_true. }
  clear Hcand.
  destruct candidates as [|c cs] eqn:Hcs;
    [injection Hrun as <-; destruct Hin|].
  rewrite <- Hcs in Hrun, Hprim. clear Hcs.
  destruct (Similarity.retained_candidates _ _ _ _ _ candidates)
    as [retained|e] eqn:Hret; [|discriminate].
  simpl in Hrun.
  destruct (Similarity.for_each _ retained) as [matches|e] eqn:Hm;
    [|discriminate].
  simpl in Hrun. injection Hrun as <-.
  apply firstn_In, sort_desc_In in Hin.
  destruct (for_each_In _ _ _ _ Hm Hin) as ([idx sc] & Hr & Hbody).
  destruct (List.nth_error indexed_ids idx); [|discriminate].
  injection Hbody as <- <- <-. split; [reflexivity|].
  exact (retained_reportable _ _ _ _ _ Hprim Hret idx sc Hr).
Qed.

End MatcherFacts.

(** A reportable score reaches the threshold, or else, which only a
    configuration that enables the secondary validation allows, the
    combined score of the threshold and of the bar. *)
Lemma reportable_bound (config : Similarity.SimilarityConfig) (score : float) :
  reportable config score ->
  let t := Similarity.similarity_threshold config in
  ((t <= score)%Q
   \/ (Similarity.require_multiple_matches config = true
       /\ Similarity.window_differs config = true
       /\ (combined_score t (secondary_bar t) <= score)%Q))
  /\ (Similarity.require_multiple_matches config = false
      \/ Similarity.window_differs config = false -> (t <= score)%Q).
Proof.
  unfold reportable. set (t := Similarity.similarity_threshold config).
  intros [Hle|(Hreq & Hw & p & s & Hp & Hs & ->)]; cbv zeta.
  - split; [now left|intros _; exact Hle].
  - split; [|intros [H|H]; congruence].
    right. split; [exact Hreq|]. split; [exact Hw|].
    now apply combined_score_le.
Qed.

(** ** The sequential scan *)

(** The branches of a loop body that write nothing. *)
Ltac no_new_row :=
  simpl; split; [reflexivity|]; exists []; split;
  [now rewrite List.app_nil_r|constructor].

Section ScannerFacts.

Variable fnmatch : string -> string -> bool.
Variable ignored_files_store : Ignore.IgnoredFilesConfig.
Variable Vec Matrix : Type.
Variable pickle_loads : bytes -> option Vec.
Variable vstack : list Vec -> result Matrix.
Variable cosine_scores :
  Z -> Z -> Z -> string -> Matrix -> result (list float).

Lemma top_similarity_match_sound {Id : Type}
    (config : Similarity.SimilarityConfig) (matrix : option Matrix)
    (indexed_ids : list Id) (f : Fs.File) (i : Id) (score : float)
    (kind : Models.MatchType) :
  Scanner.top_similarity_match Matrix cosine_scores config matrix indexed_ids f
  = Some (i, score, kind) ->
  kind = Similarity.get_match_type config score /\ reportable config score.
Proof.
  unfold Scanner.top_similarity_match.
  destruct matrix as [m|]; [|discriminate].
  destruct (Fs.is_text_file f); [|discriminate].
  destruct (_ || _); [discriminate|].
  intros Hhead.
  apply (compute_similarity_sound Matrix cosine_scores config config
           (Fs.extract_text_from_file f) m indexed_ids i score kind).
  destruct (Similarity.compute_similarity_with_validation _ _ _ _ _ _ _)
    as [|x xs]; [discriminate|].
  injection Hhead as ->. now left.
Qed.

(** One file adds at most one row, and a row it adds is [recorded_ok]. *)
Lemma scan_file_db_rows (config : Similarity.SimilarityConfig)
    (matrix : option Matrix) (indexed_ids : list Z) (scan_id : string)
    (commit_time : datetime) (f : Fs.File)
    (st : Scanner.state SQLite.Session) :
  let st' := Scanner.scan_file_db Matrix cosine_scores config matrix
               indexed_ids scan_id commit_time f st in
  SQLite.indexed_files (Scanner.store st')
  = SQLite.indexed_files (Scanner.store st)
  /\ exists new,
       SQLite.scan_results (Scanner.store st')
       = (SQLite.scan_results (Scanner.store st) ++ new)%list
       /\ List.Forall (recorded_ok config) new.
Proof.
  unfold Scanner.scan_file_db. simpl.
  destruct (Fs.get_file_hash f) as [h|e]; [|no_new_row].
  destruct (SQLite.first_by_hash _ h) as [m|].
  - simpl. split; [reflexivity|]. eexists. split; [reflexivity|].
    constructor; [|constructor]. left. split; reflexivity.
  - destruct (Scanner.top_similarity_match _ _ _ _ _ f)
      as [[[i score] kind]|] eqn:Htop; [|no_new_row].
    apply top_similarity_match_sound in Htop as [-> Hrep].
    simpl. split; [reflexivity|]. eexists. split; [reflexivity|].
    constructor; [|constructor]. right. split; [reflexivity|exact Hrep].
Qed.

Lemma scan_loop_rows (config : Similarity.SimilarityConfig)
    (matrix : option Matrix) (indexed_ids : list Z) (scan_id : string)
    (commit_time : datetime) (script : list Scanner.event)
    (st : Scanner.state SQLite.Session) :
  exists new,
    SQLite.scan_results
      (Scanner.store
         (Scanner.loop scan_id
            (fun f _ _ st =>
               Scanner.scan_file_db Matrix cosine_scores config matrix
                 indexed_ids scan_id commit_time f st) script st))
    = (SQLite.scan_results (Scanner.store st) ++ new)%list
    /\ List.Forall (recorded_ok config) new.
Proof.
  unfold Scanner.loop.
  revert st. induction script as [|e es IH]; intros st; simpl.
  - exists []. now rewrite List.app_nil_r.
  - destruct e as [f now uuid4|].
    + destruct (scan_file_db_rows config matrix indexed_ids scan_id
                  commit_time f st) as (_ & new1 & E1 & F1).
      destruct (IH (Scanner.scan_file_db Matrix cosine_scores config matrix
                      indexed_ids scan_id commit_time f st))
        as (new2 & E2 & F2).
      exists (new1 ++ new2)%list. rewrite E2, E1, List.app_assoc.
      split; [reflexivity|]. apply List.Forall_app. now split.
    + apply (IH (Scanner.cancel scan_id st)).
Qed.

Context {S : Type} `{StorageBackendInterface S}.

(** The rows a sequential scan of the relational store adds are all
    [recorded_ok]. *)
Lemma sequential_scan_rows (config : Similarity.SimilarityConfig)
    (script : list Scanner.event) (db db' : SQLite.Session)
    (storage storage' : S) (scan_id : string)
    (commit_time end_time : datetime) (ps0 ps' : Progress.ProgressStore) :
  Scanner._scan_directory_sequential fnmatch ignored_files_store Vec Matrix
    pickle_loads vstack cosine_scores false config script db storage scan_id
    commit_time end_time ps0 = Ok (ps', db', storage') ->
  exists new,
    SQLite.scan_results db' = (SQLite.scan_results db ++ new)%list
    /\ List.Forall (recorded_ok config) new.
Proof.
  unfold Scanner._scan_directory_sequential, Scanner.scan_relational.
  destruct (Scanner.stack_vectors _ _ _ _) as [[matrix ids]|e];
    [|discriminate].
  simpl. intros [= _ <- _]. apply scan_loop_rows.
Qed.

End ScannerFacts.

Lemma get_match_type_exact (config : Similarity.SimilarityConfig)
    (score : float) :
  Similarity.get_match_type config score = Models.exact ->
  (Similarity.exact_match_threshold config <= score)%Q.
Proof.
  unfold Similarity.get_match_type.
  destruct (Qle_bool (Similarity.exact_match_threshold config) score) eqn:E.
  - intros _. now apply Qle_bool_true.
  - destruct (Qle_bool (Similarity.high_confidence_threshold config) score);
      intros Hkind; discriminate Hkind.
Qed.

Section ScanClaims.

Variable fnmatch : string -> string -> bool.
Variable ignored_files_store : Ignore.IgnoredFilesConfig.
Variable Vec Matrix : Type.
Variable pickle_loads : bytes -> option Vec.
Variable vstack : list Vec -> result Matrix.
Variable cosine_scores :
  Z -> Z -> Z -> string -> Matrix -> result (list float).

Context {S : Type} `{StorageBackendInterface S}.

(** C2, as the code has it. Every result a sequential scan stores with a
    kind other than exact has a score that reaches the similarity
    threshold, or else, which only a configuration that enables the
    secondary validation allows, the combined score
    [(threshold + threshold * 0.8) / 2] of the threshold and of the bar of
    the secondary check, sum, product and quotient being rounded to doubles
    as the code computes them. The score reaches the threshold itself
    whenever the configuration rules the secondary validation out
    ([require_multiple_matches] off, or the widened window equal to the
    configured one). *)
Theorem stored_similarity_score_bound
    (config : Similarity.SimilarityConfig) (script : list Scanner.event)
    (db db' : SQLite.Session) (storage storage' : S) (scan_id : string)
    (commit_time end_time : datetime) (ps0 ps' : Progress.ProgressStore) :
  Scanner._scan_directory_sequential fnmatch ignored_files_store Vec Matrix
    pickle_loads vstack cosine_scores false config script db storage scan_id
    commit_time end_time ps0 = Ok (ps', db', storage') ->
  let threshold := Similarity.similarity_threshold config in
  exists new,
    SQLite.scan_results db' = (SQLite.scan_results db ++ new)%list
    /\ List.Forall
         (fun r =>
            Models.match_type r <> Models.exact ->
            ((threshold <= Models.score r)%Q
             \/ (Similarity.require_multiple_matches config = true
                 /\ Similarity.window_differs config = true
                 /\ (Py.float_truediv
                       (Py.float_add threshold
                          (Py.float_mul threshold (Py.double (8 # 10))))
                       (2 # 1)
                     <= Models.score r)%Q))
            /\ (Similarity.require_multiple_matches config = false
                \/ Similarity.window_differs config = false ->
                (threshold <= Models.score r)%Q))
         new.
Proof.
  intros Hrun threshold.
  destruct (sequential_scan_rows fnmatch ignored_files_store Vec Matrix
              pickle_loads vstack cosine_scores config script db db' storage
              storage' scan_id commit_time end_time ps0 ps' Hrun)
    as (new & Hnew & Hall).
  exists new. split; [exact Hnew|].
  apply (List.Forall_impl _ (P := recorded_ok config)); [|exact Hall].
  intros r [[Hexact _]|[_ Hrep]] Hkind; [contradiction|].
  exact (reportable_bound config (Models.score r) Hrep).
Qed.

(** C3, as the code has it. A file whose digest is in the index is recorded
    as exact with score 1.0; and every result a sequential scan stores as
    exact carries either that 1.0 or a similarity score that reached
    [exact_match_threshold], which the matcher also labels exact. *)
Theorem stored_exact_score
    (config : Similarity.SimilarityConfig) (script : list Scanner.event)
    (db : SQLite.Session) (storage : S) (scan_id : string)
    (commit_time end_time : datetime) (ps0 : Progress.ProgressStore) :
  (forall matrix indexed_ids f st file_hash m,
      Fs.get_file_hash f = Ok file_hash ->
      SQLite.first_by_hash (Scanner.store st) file_hash = Some m ->
      exists r,
        SQLite.scan_results
          (Scanner.store
             (Scanner.scan_file_db Matrix cosine_scores config matrix
                indexed_ids scan_id commit_time f st))
        = (SQLite.scan_results (Scanner.store st) ++ [r])%list
        /\ Models.match_type r = Models.exact
        /\ Models.score r = (1 # 1)%Q
        /\ Models.matched_file_id r = Models.id m
        /\ Models.file_path r = Fs.path f)
  /\ (forall ps' db' storage',
        Scanner._scan_directory_sequential fnmatch ignored_files_store Vec
          Matrix pickle_loads vstack cosine_scores false config script db
          storage scan_id commit_time end_time ps0 = Ok (ps', db', storage') ->
        exists new,
          SQLite.scan_results db' = (SQLite.scan_results db ++ new)%list
          /\ List.Forall
               (fun r =>
                  Models.match_type r = Models.exact ->
                  Models.score r = (1 # 1)%Q
                  \/ (Similarity.exact_match_threshold config
                      <= Models.score r)%Q) new).
Proof.
  split.
  - intros matrix indexed_ids f st file_hash m Hhash Hfound.
    unfold Scanner.scan_file_db. rewrite Hhash. simpl. rewrite Hfound.
    eexists. simpl. split; [reflexivity|]. repeat split.
  - intros ps' db' storage' Hrun.
    destruct (sequential_scan_rows fnmatch ignored_files_store Vec Matrix
                pickle_loads vstack cosine_scores config script db db'
                storage storage' scan_id commit_time end_time ps0 ps' Hrun)
      as (new & Hnew & Hall).
    exists new. split; [exact Hnew|].
    apply (List.Forall_impl _ (P := recorded_ok config)); [|exact Hall].
    intros r [[_ Hone]|[Hkind _]] Hexact; [now left|right].
    apply get_match_type_exact. now rewrite <- Hkind.
Qed.

End ScanClaims.

Example demo_scan_rows :
  demo_rows [Scanner.walk_file reworded 20 "u1";
             Scanner.walk_file near_copy 21 "u2";
             Scanner.walk_file same_bytes 22 "u3"]
  = [("/tmp/draft.txt", Models.similarity, (5 # 8)%Q, 1);
     ("/tmp/copy.txt", Models.exact, Py.double (99 # 100), 1);
     ("/tmp/report-2.txt", Models.exact, (1 # 1)%Q, 1)].
Proof. vm_compute. reflexivity. Qed.

(** C2 fails as stated: with the medium preset (threshold 0.65, secondary
    validation on) the scan stores a similarity result of score 0.625, the
    mean of 0.70 and 0.55. *)
Lemma similarity_score_below_threshold :
  exists r,
    List.In r (SQLite.scan_results
                 (session_of (demo_scan [Scanner.walk_file reworded 20 "u1"])))
    /\ Models.match_type r = Models.similarity
    /\ Models.score r = (5 # 8)%Q
    /\ (Models.score r < Similarity.similarity_threshold medium)%Q
    /\ Similarity.similarity_threshold medium = Py.double (65 # 100)
    /\ Similarity.require_multiple_matches medium = true.
Proof.
  eexists. split; [vm_compute; left; reflexivity|].
  vm_compute. repeat split.
Qed.

Lemma stored_similarity_score_bound_witness :
  let threshold := Similarity.similarity_threshold medium in
  exists new,
    SQLite.scan_results
      (session_of (demo_scan [Scanner.walk_file reworded 20 "u1"]))
    = (SQLite.scan_results demo_index ++ new)%list
    /\ List.Forall
         (fun r =>
            Models.match_type r <> Models.exact ->
            ((threshold <= Models.score r)%Q
             \/ (Similarity.require_multiple_matches medium = true
                 /\ Similarity.window_differs medium = true
                 /\ (Py.float_truediv
                       (Py.float_add threshold
                          (Py.float_mul threshold (Py.double (8 # 10))))
                       (2 # 1)
                     <= Models.score r)%Q))
            /\ (Similarity.require_multiple_matches medium = false
                \/ Similarity.window_differs medium = false ->
                (threshold <= Models.score r)%Q))
         new.
Proof.
  refine (stored_similarity_score_bound Fnmatch.fnmatch
            (Ignore.mkIgnoredFilesConfig []) unit unit (fun _ => Some tt)
            (fun _ => Ok tt) demo_cosine medium
            [Scanner.walk_file reworded 20 "u1"] demo_index
            (session_of (demo_scan [Scanner.walk_file reworded 20 "u1"]))
            demo_index
            (storage_of demo_index
               (demo_scan [Scanner.walk_file reworded 20 "u1"]))
            "scan-1" 50 60 demo_registry
            (registry_of (demo_scan [Scanner.walk_file reworded 20 "u1"])) _).
  vm_compute. reflexivity.
Defined.

(** With the medium preset the bound of the theorem is 0.585, and a
    primary score of 0.65 with a secondary score of 0.52 meets it; the same
    0.585 is below the double [0.9 * 0.65]. *)
Example medium_score_bound :
  Py.float_truediv
    (Py.float_add (Py.double (65 # 100))
       (Py.float_mul (Py.double (65 # 100)) (Py.double (8 # 10)))) (2 # 1)
  = Py.double (585 # 1000)
  /\ Py.float_mul (Py.double (65 # 100)) (Py.double (8 # 10))
     = Py.double (52 # 100)
  /\ (Py.double (585 # 1000)
      < Py.float_mul (Py.double (9 # 10)) (Py.double (65 # 100)))%Q.
Proof. vm_compute. repeat split. Qed.

(** C3 fails as stated: a near copy whose digest is not in the index is
    stored as exact with its similarity score, 0.99. *)
Lemma exact_kind_without_score_one :
  exists r,
    List.In r (SQLite.scan_results
                 (session_of (demo_scan [Scanner.walk_file near_copy 21 "u2"])))
    /\ Models.match_type r = Models.exact
    /\ Models.score r = Py.double (99 # 100)
    /\ (Models.score r < 1 # 1)%Q.
Proof.
  eexists. split; [vm_compute; left; reflexivity|].
  vm_compute. repeat split.
Qed.

Lemma stored_exact_score_witness :
  exists new,
    SQLite.scan_results
      (session_of
         (demo_scan [Scanner.walk_file near_copy 21 "u2";
                     Scanner.walk_file same_bytes 22 "u3"]))
    = (SQLite.scan_results demo_index ++ new)%list
    /\ List.Forall
         (fun r =>
            Models.match_type r = Models.exact ->
            Models.score r = (1 # 1)%Q
            \/ (Similarity.exact_match_threshold medium <= Models.score r)%Q)
         new.
Proof.
  apply (proj2 (stored_exact_score Fnmatch.fnmatch
                  (Ignore.mkIgnoredFilesConfig []) unit unit
                  (fun _ => Some tt) (fun _ => Ok tt) demo_cosine medium
                  [Scanner.walk_file near_copy 21 "u2";
                   Scanner.walk_file same_bytes 22 "u3"]
                  demo_index demo_index "scan-1" 50 60 demo_registry)
           (registry_of
              (demo_scan [Scanner.walk_file near_copy 21 "u2";
                          Scanner.walk_file same_bytes 22 "u3"]))
           (session_of
              (demo_scan [Scanner.walk_file near_copy 21 "u2";
                          Scanner.walk_file same_bytes 22 "u3"]))
           (storage_of demo_index
              (demo_scan [Scanner.walk_file near_copy 21 "u2";
                          Scanner.walk_file same_bytes 22 "u3"]))).
  vm_compute. reflexivity.
Defined.


Example secondary_validation_demo :
  Similarity.retained_candidates unit demo_cosine long_text tt medium
    [(0%nat, Py.double (70 # 100)); (1%nat, Py.double (66 # 100))]
  = Ok [(0%nat, (5 # 8)%Q)]
  /\ Similarity.compute_similarity_with_validation unit demo_cosine medium
       long_text tt [1; 2] medium
     = [(1, (5 # 8)%Q, Models.similarity)].
Proof. vm_compute. split; reflexivity. Qed.


(** ** The progress store during a scan *)

Lemma notify_tasks (ps : Progress.ProgressStore) (tid : string) :
  Progress._tasks (Progress._notify_subscribers ps tid) = Progress._tasks ps
  /\ Progress._cancelled (Progress._notify_subscribers ps tid)
     = Progress._cancelled ps.
Proof.
  unfold Progress._notify_subscribers.
  destruct (Progress._tasks ps !! tid); [|split; reflexivity].
  destruct (Progress._subscribers ps !! tid); split; reflexivity.
Qed.

(** An update of a registered task stores the fields set, in order. *)
Lemma update_task_lookup (ps : Progress.ProgressStore) (tid : string)
    (kwargs : list Progress.kwarg) (p : Progress.TaskProgress) :
  Progress._tasks ps !! tid = Some p ->
  Progress._tasks (Progress.update_task ps tid kwargs).2 !! tid
  = Some (fold_left Progress.setattr kwargs p).
Proof.
  intros Hp. unfold Progress.update_task. rewrite Hp. simpl.
  rewrite (proj1 (notify_tasks _ tid)). simpl. apply lookup_insert_eq.
Qed.

Lemma update_task_registered (ps : Progress.ProgressStore) (tid : string)
    (kwargs : list Progress.kwarg) :
  is_Some (Progress._tasks ps !! tid) ->
  is_Some (Progress._tasks (Progress.update_task ps tid kwargs).2 !! tid).
Proof.
  intros [p Hp]. rewrite (update_task_lookup ps tid kwargs p Hp). eauto.
Qed.

Lemma update_task_cancelled (ps : Progress.ProgressStore) (tid : string)
    (kwargs : list Progress.kwarg) :
  Progress._cancelled (Progress.update_task ps tid kwargs).2
  = Progress._cancelled ps.
Proof.
  unfold Progress.update_task.
  destruct (Progress._tasks ps !! tid); [|reflexivity].
  simpl. now rewrite (proj2 (notify_tasks _ tid)).
Qed.

Lemma cancel_task_registered (ps : Progress.ProgressStore) (tid : string) :
  is_Some (Progress._tasks ps !! tid) ->
  is_Some (Progress._tasks (Progress.cancel_task ps tid).2 !! tid)
  /\ tid ∈ Progress._cancelled (Progress.cancel_task ps tid).2.
Proof.
  intros [p Hp]. unfold Progress.cancel_task. rewrite Hp. simpl. split.
  - apply update_task_registered. simpl. eauto.
  - rewrite update_task_cancelled. simpl. set_solver.
Qed.

Section LoopFacts.

Variable T : Type.
Variable scan_id : string.
Variable file_step :
  Fs.File -> datetime -> string -> Scanner.state T -> Scanner.state T.

Hypothesis file_step_data : forall f now uuid4 st st',
  data st = data st' ->
  data (file_step f now uuid4 st) = data (file_step f now uuid4 st').
Hypothesis file_step_registered : forall f now uuid4 st,
  is_Some (Progress._tasks (Scanner.ps st) !! scan_id) ->
  is_Some (Progress._tasks (Scanner.ps (file_step f now uuid4 st)) !! scan_id).
Hypothesis file_step_cancelled : forall f now uuid4 st,
  Progress._cancelled (Scanner.ps (file_step f now uuid4 st))
  = Progress._cancelled (Scanner.ps st).

(** The cancel requests change nothing in what the loop does to the
    storage and to its counters. *)
Lemma loop_data (script : list Scanner.event) (st st' : Scanner.state T) :
  data st = data st' ->
  data (Scanner.loop scan_id file_step script st) = data (Scanner.loop scan_id file_step (without_cancel script) st').
Proof.
  revert st st'. induction script as [|e es IH]; intros st st' Hd.
  - exact Hd.
  - destruct e as [f now uuid4|]; simpl.
    + apply IH. now apply file_step_data.
    + apply IH. exact Hd.
Qed.

Lemma loop_registered (script : list Scanner.event) (st : Scanner.state T) :
  is_Some (Progress._tasks (Scanner.ps st) !! scan_id) ->
  is_Some (Progress._tasks (Scanner.ps (Scanner.loop scan_id file_step script st)) !! scan_id).
Proof.
  revert st. induction script as [|e es IH]; intros st Hreg; [exact Hreg|].
  destruct e as [f now uuid4|]; simpl; apply IH.
  - now apply file_step_registered.
  - simpl. now apply cancel_task_registered.
Qed.

Lemma loop_keeps_flag (script : list Scanner.event) (st : Scanner.state T) :
  scan_id ∈ Progress._cancelled (Scanner.ps st) ->
  scan_id ∈ Progress._cancelled (Scanner.ps (Scanner.loop scan_id file_step script st)).
Proof.
  revert st. induction script as [|e es IH]; intros st Hc; [exact Hc|].
  destruct e as [f now uuid4|]; simpl; apply IH.
  - now rewrite file_step_cancelled.
  - simpl. unfold Progress.cancel_task.
    destruct (Progress._tasks (Scanner.ps st) !! scan_id); [|exact Hc].
    simpl. rewrite update_task_cancelled. simpl.
    apply elem_of_union. now right.
Qed.

(** A cancel request is recorded, and stays recorded to the end of the
    loop. *)
Lemma loop_flag_set (script : list Scanner.event) (st : Scanner.state T) :
  is_Some (Progress._tasks (Scanner.ps st) !! scan_id) ->
  List.In Scanner.cancel_requested script ->
  scan_id ∈ Progress._cancelled (Scanner.ps (Scanner.loop scan_id file_step script st)).
Proof.
  revert st. induction script as [|e es IH]; intros st Hreg Hin;
    [destruct Hin|].
  destruct e as [f now uuid4|]; simpl.
  - destruct Hin as [Hin|Hin]; [discriminate|].
    apply IH; [now apply file_step_registered|exact Hin].
  - apply loop_keeps_flag. simpl.
    now apply cancel_task_registered.
Qed.

(** The loop counts every file of the walk, cancel requests or not. *)
Lemma loop_counts_files (script : list Scanner.event) (st : Scanner.state T) :
  (forall f now uuid4 st,
      Scanner.files_scanned (file_step f now uuid4 st)
      = Scanner.files_scanned st + 1) ->
  Scanner.files_scanned (Scanner.loop scan_id file_step script st)
  = Scanner.files_scanned st
    + Z.of_nat (List.length (Scanner.files_of script)).
Proof.
  intros Hstep. revert st. induction script as [|e es IH]; intros st.
  - simpl. lia.
  - destruct e as [f now uuid4|]; simpl.
    + rewrite IH, Hstep. unfold Scanner.files_of. simpl. lia.
    + rewrite IH. reflexivity.
Qed.

End LoopFacts.

Lemma files_of_without_cancel (script : list Scanner.event) :
  Scanner.files_of (without_cancel script) = Scanner.files_of script.
Proof.
  unfold Scanner.files_of, without_cancel.
  induction script as [|e es IH]; [reflexivity|].
  destruct e; simpl; [f_equal|]; exact IH.
Qed.

Section CancelFacts.

Variable fnmatch : string -> string -> bool.
Variable ignored_files_store : Ignore.IgnoredFilesConfig.
Variable Vec Matrix : Type.
Variable pickle_loads : bytes -> option Vec.
Variable vstack : list Vec -> result Matrix.
Variable cosine_scores :
  Z -> Z -> Z -> string -> Matrix -> result (list float).

Context {S : Type} `{StorageBackendInterface S}.

Variable config : Similarity.SimilarityConfig.
Variable scan_id : string.

(** The three facts [LoopFacts] asks of a loop body, for both bodies. *)
Ltac body_cases f :=
  destruct (Fs.get_file_hash f); simpl; try reflexivity; try assumption;
  repeat match goal with
    | |- context [match ?x with _ => _ end] =>
        destruct x; simpl; try reflexivity; try assumption
    end.

Lemma scan_file_db_data (matrix : option Matrix) (indexed_ids : list Z)
    (commit_time : datetime) (f : Fs.File)
    (st st' : Scanner.state SQLite.Session) :
  data st = data st' ->
  data (Scanner.scan_file_db Matrix cosine_scores config matrix indexed_ids
          scan_id commit_time f st)
  = data (Scanner.scan_file_db Matrix cosine_scores config matrix
            indexed_ids scan_id commit_time f st').
Proof.
  destruct st as [ps db n k], st' as [ps' db' n' k'].
  unfold data. simpl. intros [= <- <- <-].
  unfold Scanner.scan_file_db. simpl. body_cases f.
Qed.

Lemma scan_file_db_progress (matrix : option Matrix) (indexed_ids : list Z)
    (commit_time : datetime) (f : Fs.File)
    (st : Scanner.state SQLite.Session) :
  (is_Some (Progress._tasks (Scanner.ps st) !! scan_id) ->
   is_Some
     (Progress._tasks
        (Scanner.ps
           (Scanner.scan_file_db Matrix cosine_scores config matrix
              indexed_ids scan_id commit_time f st)) !! scan_id))
  /\ Progress._cancelled
       (Scanner.ps
          (Scanner.scan_file_db Matrix cosine_scores config matrix
             indexed_ids scan_id commit_time f st))
     = Progress._cancelled (Scanner.ps st)
  /\ Scanner.files_scanned
       (Scanner.scan_file_db Matrix cosine_scores config matrix indexed_ids
          scan_id commit_time f st)
     = Scanner.files_scanned st + 1.
Proof.
  unfold Scanner.scan_file_db, Scanner.progress_match, Scanner.progress_file,
    Progress.update_scan.
  repeat split.
  - intros Hreg.
    pose proof (update_task_registered (Scanner.ps st) scan_id
                  [Progress.kw_other "files_scanned";
                   Progress.kw_current_file (Fs.path f)] Hreg) as Hreg1.
    body_cases f; now apply update_task_registered.
  - body_cases f; now rewrite ?update_task_cancelled.
  - body_cases f.
Qed.

Lemma scan_file_storage_data (matrix : option Matrix)
    (indexed_ids : list string) (f : Fs.File) (now : datetime)
    (uuid4 : string) (st st' : Scanner.state S) :
  data st = data st' ->
  data (Scanner.scan_file_storage Matrix cosine_scores config matrix
          indexed_ids scan_id f now uuid4 st)
  = data (Scanner.scan_file_storage Matrix cosine_scores config matrix
            indexed_ids scan_id f now uuid4 st').
Proof.
  destruct st as [ps db n k], st' as [ps' db' n' k'].
  unfold data. simpl. intros [= <- <- <-].
  unfold Scanner.scan_file_storage. simpl. body_cases f.
Qed.

Lemma scan_file_storage_progress (matrix : option Matrix)
    (indexed_ids : list string) (f : Fs.File) (now : datetime)
    (uuid4 : string) (st : Scanner.state S) :
  (is_Some (Progress._tasks (Scanner.ps st) !! scan_id) ->
   is_Some
     (Progress._tasks
        (Scanner.ps
           (Scanner.scan_file_storage Matrix cosine_scores config matrix
              indexed_ids scan_id f now uuid4 st)) !! scan_id))
  /\ Progress._cancelled
       (Scanner.ps
          (Scanner.scan_file_storage Matrix cosine_scores config matrix
             indexed_ids scan_id f now uuid4 st))
     = Progress._cancelled (Scanner.ps st)
  /\ Scanner.files_scanned
       (Scanner.scan_file_storage Matrix cosine_scores config matrix
          indexed_ids scan_id f now uuid4 st)
     = Scanner.files_scanned st + 1.
Proof.
  unfold Scanner.scan_file_storage, Scanner.progress_match,
    Scanner.progress_file, Progress.update_scan.
  repeat split.
  - intros Hreg.
    pose proof (update_task_registered (Scanner.ps st) scan_id
                  [Progress.kw_other "files_scanned";
                   Progress.kw_current_file (Fs.path f)] Hreg) as Hreg1.
    body_cases f; now apply update_task_registered.
  - body_cases f; now rewrite ?update_task_cancelled.
  - body_cases f.
Qed.

End CancelFacts.

Section ScanCancel.

Variable fnmatch : string -> string -> bool.
Variable ignored_files_store : Ignore.IgnoredFilesConfig.
Variable Vec Matrix : Type.
Variable pickle_loads : bytes -> option Vec.
Variable vstack : list Vec -> result Matrix.
Variable cosine_scores :
  Z -> Z -> Z -> string -> Matrix -> result (list float).

Context {S : Type} `{StorageBackendInterface S}.

Variable config : Similarity.SimilarityConfig.
Variable scan_id : string.

Lemma scan_with_storage_cancel (script : list Scanner.event) (storage : S)
    (ps2 : Progress.ProgressStore) :
  is_Some (Progress._tasks ps2 !! scan_id) ->
  same_outcome scan_id script
    (Scanner._scan_with_storage Vec Matrix pickle_loads vstack cosine_scores
       script scan_id storage config ps2)
    (Scanner._scan_with_storage Vec Matrix pickle_loads vstack cosine_scores
       (without_cancel script) scan_id storage config ps2).
Proof.
  intros Hreg. unfold Scanner._scan_with_storage, same_outcome.
  destruct (Scanner.stack_vectors _ _ _ _) as [[matrix ids]|e];
    [|reflexivity].
  simpl.
  set (step := fun f now uuid4 st =>
         Scanner.scan_file_storage Matrix cosine_scores config matrix ids
           scan_id f now uuid4 st).
  set (st0 := Scanner.mkState ps2 storage 0 0).
  change (exists st,
             Ok (Scanner.loop scan_id step script st0) = Ok st
             /\ Scanner.store st
                = Scanner.store (Scanner.loop scan_id step (without_cancel script) st0)
             /\ Scanner.files_scanned st
                = Z.of_nat (List.length (Scanner.files_of script))
             /\ is_Some (Progress._tasks (Scanner.ps st) !! scan_id)
             /\ (List.In Scanner.cancel_requested script ->
                 scan_id ∈ Progress._cancelled (Scanner.ps st))).
  assert (Hdata : forall f now uuid4 st st',
             data st = data st' ->
             data (step f now uuid4 st) = data (step f now uuid4 st'))
    by (intros; now apply scan_file_storage_data).
  assert (Hr : forall f now uuid4 st,
             is_Some (Progress._tasks (Scanner.ps st) !! scan_id) ->
             is_Some (Progress._tasks (Scanner.ps (step f now uuid4 st))
                      !! scan_id))
    by (intros; now apply scan_file_storage_progress).
  assert (Hc : forall f now uuid4 st,
             Progress._cancelled (Scanner.ps (step f now uuid4 st))
             = Progress._cancelled (Scanner.ps st))
    by (intros; apply scan_file_storage_progress).
  exists (Scanner.loop scan_id step script st0). split; [reflexivity|].
  pose proof (loop_data S scan_id step Hdata script st0 st0 eq_refl) as Hd.
  unfold data in Hd. injection Hd as Hs _ _.
  split; [exact Hs|]. split.
  - rewrite (loop_counts_files S scan_id step script st0); [reflexivity|].
    intros; apply scan_file_storage_progress.
  - split; [now apply loop_registered|].
    now apply loop_flag_set.
Qed.

Lemma scan_relational_cancel (script : list Scanner.event)
    (db : SQLite.Session) (commit_time : datetime)
    (ps2 : Progress.ProgressStore) :
  is_Some (Progress._tasks ps2 !! scan_id) ->
  same_outcome scan_id script
    (Scanner.scan_relational Vec Matrix pickle_loads vstack cosine_scores
       script scan_id db config commit_time ps2)
    (Scanner.scan_relational Vec Matrix pickle_loads vstack cosine_scores
       (without_cancel script) scan_id db config commit_time ps2).
Proof.
  intros Hreg. unfold Scanner.scan_relational, same_outcome.
  destruct (Scanner.stack_vectors _ _ _ _) as [[matrix ids]|e];
    [|reflexivity].
  simpl.
  set (step := fun f (now : datetime) (uuid4 : string) st =>
         Scanner.scan_file_db Matrix cosine_scores config matrix ids scan_id
           commit_time f st).
  set (st0 := Scanner.mkState ps2 db 0 0).
  change (exists st,
             Ok (Scanner.loop scan_id step script st0) = Ok st
             /\ Scanner.store st
                = Scanner.store
                    (Scanner.loop scan_id step (without_cancel script)
                       st0)
             /\ Scanner.files_scanned st
                = Z.of_nat (List.length (Scanner.files_of script))
             /\ is_Some (Progress._tasks (Scanner.ps st) !! scan_id)
             /\ (List.In Scanner.cancel_requested script ->
                 scan_id ∈ Progress._cancelled (Scanner.ps st))).
  assert (Hdata : forall f now uuid4 st st',
             data st = data st' ->
             data (step f now uuid4 st) = data (step f now uuid4 st'))
    by (intros; now apply scan_file_db_data).
  assert (Hr : forall f now uuid4 st,
             is_Some (Progress._tasks (Scanner.ps st) !! scan_id) ->
             is_Some (Progress._tasks (Scanner.ps (step f now uuid4 st))
                      !! scan_id))
    by (intros; now apply scan_file_db_progress).
  assert (Hc : forall f now uuid4 st,
             Progress._cancelled (Scanner.ps (step f now uuid4 st))
             = Progress._cancelled (Scanner.ps st))
    by (intros; apply scan_file_db_progress).
  exists (Scanner.loop scan_id step script st0).
  split; [reflexivity|].
  pose proof (loop_data SQLite.Session scan_id step Hdata script st0 st0
                eq_refl) as Hd.
  unfold data in Hd. injection Hd as Hs _ _.
  split; [exact Hs|]. split.
  - rewrite (loop_counts_files SQLite.Session scan_id step script st0);
      [reflexivity|].
    intros; apply scan_file_db_progress.
  - split; [now apply loop_registered|].
    now apply loop_flag_set.
Qed.

(** The last update of the pipeline. *)
Lemma mark_completed (ps : Progress.ProgressStore) (end_time : datetime) :
  is_Some (Progress._tasks ps !! scan_id) ->
  Progress.status
  <$> Progress.get_task
        (Progress.update_scan ps scan_id
           [Progress.kw_status "completed";
            Progress.kw_completed_at (Some end_time);
            Progress.kw_current_file ""]).2 scan_id
  = Some "completed".
Proof.
  intros [p Hp]. unfold Progress.get_task, Progress.update_scan.
  rewrite (update_task_lookup ps scan_id _ p Hp). destruct p. reflexivity.
Qed.

(** C4, as the code has it. A cancel request on a running scan is recorded
    by the progress store, but the sequential scanner never polls the
    flag: with the requests or without them it processes the same files
    with the same effect on the storage, the task ends in status
    [completed], and the flag is still set at the end. *)
Theorem scan_never_polls_cancel (is_redis : bool)
    (script : list Scanner.event) (db : SQLite.Session) (storage : S)
    (commit_time end_time : datetime) (ps0 : Progress.ProgressStore) :
  is_Some (Progress._tasks ps0 !! scan_id) ->
  match Scanner._scan_directory_sequential fnmatch ignored_files_store Vec
          Matrix pickle_loads vstack cosine_scores is_redis config
          (without_cancel script) db storage scan_id commit_time end_time
          ps0 with
  | Ok (_, db', storage') =>
      exists ps',
        Scanner._scan_directory_sequential fnmatch ignored_files_store Vec
          Matrix pickle_loads vstack cosine_scores is_redis config script
          db storage scan_id commit_time end_time ps0
        = Ok (ps', db', storage')
        /\ Progress.status <$> Progress.get_task ps' scan_id
           = Some "completed"
        /\ (List.In Scanner.cancel_requested script ->
            Progress.is_cancelled ps' scan_id = true)
  | Raise e =>
      Scanner._scan_directory_sequential fnmatch ignored_files_store Vec
        Matrix pickle_loads vstack cosine_scores is_redis config script db
        storage scan_id commit_time end_time ps0 = Raise e
  end.
Proof.
  intros Hreg. unfold Scanner._scan_directory_sequential.
  rewrite files_of_without_cancel.
  set (ps2 := (Progress.update_scan _ scan_id
                 [Progress.kw_status "scanning"; _]).2).
  assert (Hreg2 : is_Some (Progress._tasks ps2 !! scan_id))
    by (subst ps2; unfold Progress.update_scan;
        now do 2 apply update_task_registered).
  destruct is_redis.
  - pose proof (scan_with_storage_cancel script storage ps2 Hreg2) as Hout.
    unfold same_outcome in Hout.
    destruct (Scanner._scan_with_storage _ _ _ _ _ (without_cancel script)
                _ _ _ _) as [st0|e].
    + destruct Hout as (st & -> & Hs & _ & Hr & Hc). simpl.
      eexists. split; [rewrite Hs; reflexivity|].
      split; [now apply mark_completed|].
      intros Hin. unfold Progress.is_cancelled, Progress.update_scan.
      rewrite update_task_cancelled. apply bool_decide_eq_true_2. auto.
    + rewrite Hout. reflexivity.
  - pose proof (scan_relational_cancel script db commit_time ps2 Hreg2)
      as Hout.
    unfold same_outcome in Hout.
    destruct (Scanner.scan_relational _ _ _ _ _ (without_cancel script)
                _ _ _ _ _) as [st0|e].
    + destruct Hout as (st & -> & Hs & _ & Hr & Hc). simpl.
      eexists. split; [rewrite Hs; reflexivity|].
      split; [now apply mark_completed|].
      intros Hin. unfold Progress.is_cancelled, Progress.update_scan.
      rewrite update_task_cancelled. apply bool_decide_eq_true_2. auto.
    + rewrite Hout. reflexivity.
Qed.

End ScanCancel.

(** C4 fails as stated: a cancel request arrives after the first file; the
    scanner still processes the second file and records its match, and the
    task ends [completed] with the flag still set. *)
Lemma scan_completes_after_cancel :
  Progress.status
  <$> Progress.get_task (registry_of (demo_scan cancelled_midway)) "scan-1"
  = Some "completed"
  /\ Progress.is_cancelled (registry_of (demo_scan cancelled_midway)) "scan-1"
     = true
  /\ demo_rows cancelled_midway
     = [("/tmp/draft.txt", Models.similarity, (5 # 8)%Q, 1);
        ("/tmp/report-2.txt", Models.exact, (1 # 1)%Q, 1)].
Proof. vm_compute. repeat split. Qed.

Lemma scan_never_polls_cancel_witness :
  exists ps',
    demo_scan cancelled_midway
    = Ok (ps', session_of (demo_scan (without_cancel cancelled_midway)),
          demo_index)
    /\ Progress.status <$> Progress.get_task ps' "scan-1" = Some "completed"
    /\ (List.In Scanner.cancel_requested cancelled_midway ->
        Progress.is_cancelled ps' "scan-1" = true).
Proof.
  assert (Hreg : is_Some (Progress._tasks demo_registry !! "scan-1"))
    by (vm_compute; eauto).
  pose proof (scan_never_polls_cancel Fnmatch.fnmatch
                (Ignore.mkIgnoredFilesConfig []) unit unit
                (fun _ => Some tt) (fun _ => Ok tt) demo_cosine medium
                "scan-1" false cancelled_midway demo_index demo_index 50 60
                demo_registry Hreg) as Hthm.
  fold (demo_scan (without_cancel cancelled_midway)) in Hthm.
  fold (demo_scan cancelled_midway) in Hthm.
  destruct (demo_scan (without_cancel cancelled_midway))
    as [[[ps0 db0] s0]|e] eqn:E; [|vm_compute in E; discriminate E].
  assert (Es : s0 = demo_index) by (vm_compute in E; now injection E).
  subst s0. exact Hthm.
Defined.

(** ** Indexing one file *)

(** On the relational backend the storage-abstraction variant does what
    [_index_single_file] does. *)
Lemma index_with_storage_sqlite
    (hashing_vector : Similarity.SimilarityConfig -> string -> option bytes)
    (config : Similarity.SimilarityConfig) (f : Fs.File)
    (db : SQLite.Session) (now : datetime) (uuid4 : string) :
  Indexer._index_single_file_with_storage hashing_vector config f db now uuid4
  = Indexer._index_single_file hashing_vector config f db now.
Proof.
  unfold Indexer._index_single_file_with_storage, Indexer._index_single_file.
  destruct (Indexer.stat f) as [m|e]; [|reflexivity]. simpl.
  unfold SQLite.get_indexed_file_by_path, SQLite.add_or_update_indexed_file.
  destruct (SQLite.first_by_path db (Fs.path f)) as [e|]; simpl.
  - rewrite (andb_comm (Fs.is_text_file f)).
    destruct (_ && _); [reflexivity|].
    destruct (Fs.get_file_hash f); reflexivity.
  - destruct (Fs.get_file_hash f); reflexivity.
Qed.

Section IndexClaims.

Variable hashing_vector : Similarity.SimilarityConfig -> string -> option bytes.
Variable config : Similarity.SimilarityConfig.

Lemma skip_test (f : Fs.File) (db : SQLite.Session) (mtime : float) :
  match SQLite.first_by_path db (Fs.path f) with
  | Some e =>
      Qeq_bool (Models.last_modified e) mtime
      && negb (bool_decide (Models.vector e = None) && Fs.is_text_file f)
  | None => false
  end = true <-> unchanged_in_index f db mtime.
Proof.
  unfold unchanged_in_index.
  destruct (SQLite.first_by_path db (Fs.path f)) as [e|].
  - rewrite andb_true_iff, Qeq_bool_iff, negb_true_iff, andb_false_iff.
    rewrite bool_decide_eq_false. split.
    + intros [Hm Hv]. exists e. repeat split; [exact Hm|tauto].
    + intros (e' & [= <-] & Hm & Hv). split; [exact Hm|tauto].
  - split; [discriminate|]. intros (e & He & _). discriminate.
Qed.

(** When the file is not skipped, the write is the backend's upsert. *)
Lemma index_writes_upsert (f : Fs.File) (db : SQLite.Session)
    (now : datetime) (mtime : float) :
  Fs.st_mtime f = Ok mtime ->
  ~ unchanged_in_index f db mtime ->
  Indexer._index_single_file hashing_vector config f db now
  = (h ← Fs.get_file_hash f; Ok (true, written hashing_vector config f mtime h now db)).
Proof.
  intros Hstat Hchanged. unfold Indexer._index_single_file, Indexer.stat.
  rewrite Hstat. simpl.
  pose proof (skip_test f db mtime) as Htest.
  destruct (match SQLite.first_by_path db (Fs.path f) with
            | Some _ => _ | None => _ end) eqn:Hskip.
  - exfalso. apply Hchanged, Htest. reflexivity.
  - destruct (Fs.get_file_hash f) as [h|e]; [|reflexivity]. simpl.
    unfold written, SQLite.add_or_update_indexed_file, vector_blob.
    destruct (SQLite.first_by_path db (Fs.path f)); reflexivity.
Qed.

(** C5, as the code has it (relational path). A file whose [stat] succeeds
    is skipped, with no write, exactly when a row exists at its path whose
    stored mtime equals the current one and either the file is not textual
    or the row has a vector; otherwise its digest (and, for a textual file,
    its vector) is recomputed and upserted. Re-indexing right after such a
    write, with the same bytes and mtime, is a no-op that leaves the row and
    its [indexed_at] as they were when the file is not textual or yielded a
    vector; a textual file that yields no vector is written again, with a
    new [indexed_at]. [_index_single_file_with_storage] over the relational
    backend does the same as [_index_single_file]. *)
Theorem index_single_file_spec (f : Fs.File) (db : SQLite.Session)
    (now : datetime) (mtime : float) :
  Fs.st_mtime f = Ok mtime ->
  (Indexer._index_single_file hashing_vector config f db now
   = Ok (false, db) <-> unchanged_in_index f db mtime)
  /\ (~ unchanged_in_index f db mtime ->
      Indexer._index_single_file hashing_vector config f db now
      = (h ← Fs.get_file_hash f; Ok (true, written hashing_vector config f mtime h now db)))
  /\ (schema_ok db ->
      forall h now',
        Fs.get_file_hash f = Ok h ->
        let db1 := written hashing_vector config f mtime h now db in
        Indexer._index_single_file hashing_vector config f db1 now'
        = if Fs.is_text_file f
             && bool_decide
                  (Indexer.compute_vector hashing_vector config f = None)
          then Ok (true, written hashing_vector config f mtime h now' db1)
          else Ok (false, db1))
  /\ (schema_ok db ->
      forall h t,
        Models.indexed_at
        <$> SQLite.first_by_path
              (written hashing_vector config f mtime h t db) (Fs.path f)
        = Some t)
  /\ (forall uuid4,
        Indexer._index_single_file_with_storage hashing_vector config f db
          now uuid4
        = Indexer._index_single_file hashing_vector config f db now).
Proof.
  intros Hstat. split; [|split; [|split; [|split]]].
  4: { intros Hok h t.
       destruct (upsert_lookup db (Fs.path f) (Py.basename (Fs.path f)) h
                   (vector_blob hashing_vector config f) mtime t Hok)
         as (row & Hrow & _ & _ & _ & _ & Ht).
       unfold written. rewrite Hrow. simpl. now rewrite Ht. }
  4: { intros uuid4. apply index_with_storage_sqlite. }
  - split.
    + intros Hrun. apply skip_test.
      unfold Indexer._index_single_file, Indexer.stat in Hrun.
      rewrite Hstat in Hrun. simpl in Hrun.
      destruct (match SQLite.first_by_path db (Fs.path f) with
                | Some _ => _ | None => _ end); [reflexivity|].
      destruct (Fs.get_file_hash f); [|discriminate]. simpl in Hrun.
      destruct (SQLite.first_by_path db (Fs.path f)); discriminate.
    + intros Hun. apply skip_test in Hun.
      unfold Indexer._index_single_file, Indexer.stat.
      rewrite Hstat. simpl. now rewrite Hun.
  - now apply index_writes_upsert.
  - intros Hok h now' Hhash db1.
    destruct (upsert_lookup db (Fs.path f) (Py.basename (Fs.path f)) h
                (vector_blob hashing_vector config f) mtime now Hok)
      as (row & Hrow & _ & _ & Hv & Hm & _).
    fold (written hashing_vector config f mtime h now db) in Hrow.
    fold db1 in Hrow.
    assert (Hiff : unchanged_in_index f db1 mtime <->
                   Fs.is_text_file f
                   && bool_decide
                        (Indexer.compute_vector hashing_vector config f = None)
                   = false).
    { unfold unchanged_in_index. rewrite Hrow, andb_false_iff.
      rewrite bool_decide_eq_false. unfold vector_blob in Hv. split.
      - intros (e & [= <-] & _ & [Ht|Hvec]); [now left|].
        destruct (Fs.is_text_file f); [right; congruence|now left].
      - intros Hcase. exists row. split; [reflexivity|].
        split; [rewrite Hm; reflexivity|].
        destruct (Fs.is_text_file f); [right|now left].
        destruct Hcase as [Hcase|Hcase]; [discriminate|congruence]. }
    destruct (Fs.is_text_file f
              && bool_decide
                   (Indexer.compute_vector hashing_vector config f = None))
      eqn:Hcase.
    + rewrite index_writes_upsert with (mtime := mtime); [|exact Hstat|].
      * now rewrite Hhash.
      * intros Hun. apply Hiff in Hun. discriminate.
    + unfold Indexer._index_single_file, Indexer.stat.
      rewrite Hstat. simpl.
      rewrite (proj2 (skip_test f db1 mtime) (proj2 Hiff eq_refl)).
      reflexivity.
Qed.

End IndexClaims.

(** C5 fails as stated: the file is indexed at time 100; indexed again at
    time 200, bytes and mtime unchanged, it is written again and its
    [indexed_at] moves to 200. *)
Lemma reindex_rewrites_vectorless_text :
  exists db1 db2,
    Indexer._index_single_file demo_vectorizer medium short_note
      SQLite.empty 100 = Ok (true, db1)
    /\ Indexer._index_single_file demo_vectorizer medium short_note db1 200
       = Ok (true, db2)
    /\ Models.indexed_at <$> SQLite.first_by_path db1 "/protected/todo.txt"
       = Some 100
    /\ Models.indexed_at <$> SQLite.first_by_path db2 "/protected/todo.txt"
       = Some 200
    /\ Models.vector <$> SQLite.first_by_path db1 "/protected/todo.txt"
       = Some None.
Proof. do 2 eexists. repeat split. Qed.

(** A long textual file, indexed into an empty store and indexed again. *)
Lemma index_single_file_spec_witness :
  (Indexer._index_single_file demo_vectorizer medium reworded SQLite.empty 100
   = Ok (false, SQLite.empty)
   <-> unchanged_in_index reworded SQLite.empty (5 # 1))
  /\ (~ unchanged_in_index reworded SQLite.empty (5 # 1) ->
      Indexer._index_single_file demo_vectorizer medium reworded SQLite.empty
        100
      = (h ← Fs.get_file_hash reworded;
         Ok (true, written demo_vectorizer medium reworded (5 # 1) h 100
                     SQLite.empty)))
  /\ (schema_ok SQLite.empty ->
      forall h now',
        Fs.get_file_hash reworded = Ok h ->
        let db1 := written demo_vectorizer medium reworded (5 # 1) h 100
                     SQLite.empty in
        Indexer._index_single_file demo_vectorizer medium reworded db1 now'
        = if Fs.is_text_file reworded
             && bool_decide
                  (Indexer.compute_vector demo_vectorizer medium reworded
                   = None)
          then Ok (true, written demo_vectorizer medium reworded (5 # 1) h
                           now' db1)
          else Ok (false, db1))
  /\ (schema_ok SQLite.empty ->
      forall h t,
        Models.indexed_at
        <$> SQLite.first_by_path
              (written demo_vectorizer medium reworded (5 # 1) h t
                 SQLite.empty) (Fs.path reworded)
        = Some t)
  /\ (forall uuid4,
        Indexer._index_single_file_with_storage demo_vectorizer medium
          reworded SQLite.empty 100 uuid4
        = Indexer._index_single_file demo_vectorizer medium reworded
            SQLite.empty 100).
Proof.
  apply (index_single_file_spec demo_vectorizer medium reworded SQLite.empty
           100 (5 # 1)).
  reflexivity.
Defined.

(** The no-op of the witness, evaluated: the second run skips the file and
    the row keeps its [indexed_at]. *)
Example reindex_unchanged_is_noop :
  exists db1,
    Indexer._index_single_file demo_vectorizer medium reworded SQLite.empty
      100 = Ok (true, db1)
    /\ Indexer._index_single_file demo_vectorizer medium reworded db1 200
       = Ok (false, db1)
    /\ Models.indexed_at <$> SQLite.first_by_path db1 "/tmp/draft.txt"
       = Some 100.
Proof. eexists. repeat split. Qed.

(** The key/value backend never hands a stored vector back. *)
Lemma redis_lookup_has_no_vector
    (ft_search_path : gmap string Redis.Doc -> string -> option string)
    (db : gmap string Redis.Doc) (path : string) (now : datetime)
    (d : Data.IndexedFileData) :
  Redis.get_indexed_file_by_path ft_search_path db path now = Some d ->
  Data.vector d = None.
Proof.
  unfold Redis.get_indexed_file_by_path, Redis.get_indexed_file_by_id.
  destruct (Redis._get_file_id_by_path _ db path) as [[|c r]|];
    try discriminate.
  destruct (db !! _) as [[]|]; intros [= <-]; reflexivity.
Qed.

(** X2. On the key/value backend a textual file is never skipped, since
    the lookup never hands a vector back: each run returns [True] and
    writes the document of the file again, with the digest just computed
    and the time of the run, and leaves the other keys alone. A file the
    backend finds at this path is written under the key it had, a file
    its index does not know under a fresh one. *)
Lemma redis_reindexes_textual_files
    (hashing_vector : Similarity.SimilarityConfig -> string -> option bytes)
    (ft_search_path : gmap string Redis.Doc -> string -> option string)
    (ft_search_hash :
       gmap string Redis.Doc -> string -> result (option string))
    (_vector_to_bytes : bytes -> option (list float))
    (pickle_dense : list float -> bytes)
    (config : Similarity.SimilarityConfig) (f : Fs.File)
    (db : gmap string Redis.Doc) (now : datetime) (uuid4 : string)
    (mtime : float) (h : string) :
  Fs.is_text_file f = true ->
  Fs.st_mtime f = Ok mtime ->
  Fs.get_file_hash f = Ok h ->
  exists db' key dense,
    @Indexer._index_single_file_with_storage hashing_vector _
      (RedisStorageBackend ft_search_path ft_search_hash _vector_to_bytes
         pickle_dense) config f db now uuid4 = Ok (true, db')
    /\ db' !! key
       = Some (Redis.FileDoc (Fs.path f) (Py.basename (Fs.path f)) h mtime
                 now dense)
    /\ (forall k, k <> key -> db' !! k = db !! k)
    /\ (forall e,
           Redis.get_indexed_file_by_path ft_search_path db (Fs.path f) now
           = Some e ->
           key = Redis.FILE_PREFIX +:+ Data.id e)
    /\ (Redis._get_file_id_by_path ft_search_path db (Fs.path f) = None ->
        key = Redis.FILE_PREFIX +:+ uuid4)
    /\ (Indexer.compute_vector hashing_vector config f = None ->
        dense = None).
Proof.
  intros Htext Hstat Hhash.
  assert (Hrun : exists file_id dense,
             @Indexer._index_single_file_with_storage hashing_vector _
               (RedisStorageBackend ft_search_path ft_search_hash
                  _vector_to_bytes pickle_dense) config f db now uuid4
             = Ok (true,
                   <[Redis.FILE_PREFIX +:+ file_id :=
                       Redis.FileDoc (Fs.path f) (Py.basename (Fs.path f)) h
                         mtime now dense]> db)
             /\ file_id
                = match Redis._get_file_id_by_path ft_search_path db
                          (Fs.path f) with
                  | Some (String c r) => String c r
                  | _ => uuid4
                  end
             /\ (Indexer.compute_vector hashing_vector config f = None ->
                 dense = None)).
  { unfold Indexer._index_single_file_with_storage, Indexer.stat.
    rewrite Hstat, Hhash, Htext. cbn [mbind result_bind].
    assert (Hskip :
              match
                get_indexed_file_by_path
                  (StorageBackendInterface :=
                     RedisStorageBackend ft_search_path ft_search_hash
                       _vector_to_bytes pickle_dense) db (Fs.path f) now
              with
              | Some e =>
                  Qeq_bool (Data.last_modified e) mtime
                  && negb (true && bool_decide (Data.vector e = None))
              | None => false
              end = false).
    { cbn [get_indexed_file_by_path RedisStorageBackend].
      destruct (Redis.get_indexed_file_by_path ft_search_path db (Fs.path f)
                  now) as [d|] eqn:Hget; [|reflexivity].
      rewrite (redis_lookup_has_no_vector _ _ _ _ _ Hget). simpl.
      apply andb_false_r. }
    rewrite Hskip.
    cbn [add_or_update_indexed_file RedisStorageBackend].
    unfold Redis.add_or_update_indexed_file. cbn [snd].
    do 2 eexists. split; [reflexivity|]. split; [reflexivity|].
    intros ->. reflexivity. }
  destruct Hrun as (file_id & dense & Hrun & Hid & Hdense).
  exists (<[Redis.FILE_PREFIX +:+ file_id :=
             Redis.FileDoc (Fs.path f) (Py.basename (Fs.path f)) h mtime now
               dense]> db), (Redis.FILE_PREFIX +:+ file_id), dense.
  split; [exact Hrun|]. split; [apply lookup_insert_eq|].
  split; [intros k Hk; now apply lookup_insert_ne|].
  split; [|split; [|exact Hdense]].
  - intros e Hget. unfold Redis.get_indexed_file_by_path in Hget.
    destruct (Redis._get_file_id_by_path ft_search_path db (Fs.path f))
      as [[|c r]|]; try discriminate.
    unfold Redis.get_indexed_file_by_id in Hget.
    destruct (db !! _) as [[]|]; try discriminate;
      injection Hget as <-; now rewrite Hid.
  - intros Hnone. now rewrite Hid, Hnone.
Qed.

(** The backend finds the file it indexed: one run later the same textual
    file, bytes and mtime unchanged and its vector stored, is written
    again, under the key it had. *)
Lemma redis_reindexes_textual_files_witness :
  exists db' key dense,
    @Indexer._index_single_file_with_storage demo_vectorizer _
      (RedisStorageBackend Redis.scan_for_path demo_search_hash demo_to_dense
         demo_pickle) medium reworded demo_keyspace 200
      "6d0f0a55-40d1-4d0b-8f8e-3f1f0f7d9b22" = Ok (true, db')
    /\ db' !! key
       = Some (Redis.FileDoc (Fs.path reworded)
                 (Py.basename (Fs.path reworded)) "digest-draft" (5 # 1) 200
                 dense)
    /\ (forall k, k <> key -> db' !! k = demo_keyspace !! k)
    /\ (forall e,
           Redis.get_indexed_file_by_path Redis.scan_for_path demo_keyspace
             (Fs.path reworded) 200 = Some e ->
           key = Redis.FILE_PREFIX +:+ Data.id e)
    /\ (Redis._get_file_id_by_path Redis.scan_for_path demo_keyspace
          (Fs.path reworded) = None ->
        key = Redis.FILE_PREFIX +:+ "6d0f0a55-40d1-4d0b-8f8e-3f1f0f7d9b22")
    /\ (Indexer.compute_vector demo_vectorizer medium reworded = None ->
        dense = None).
Proof.
  refine (redis_reindexes_textual_files demo_vectorizer Redis.scan_for_path
            demo_search_hash demo_to_dense demo_pickle medium reworded
            demo_keyspace 200 "6d0f0a55-40d1-4d0b-8f8e-3f1f0f7d9b22" (5 # 1)
            "digest-draft" _ _ _); reflexivity.
Defined.

(** The same run, evaluated: the document keeps its key and its
    [indexed_at] moves from 100 to 200. *)
Example redis_reindex_demo :
  demo_keyspace !! "file:0b5c1d1e-7a34-4f0e-9c59-2f2d1f0f6a11"
  = Some (Redis.FileDoc "/tmp/draft.txt" "draft.txt" "digest-draft" (5 # 1)
            100 (Some [(1 # 1)%Q]))
  /\ match
       @Indexer._index_single_file_with_storage demo_vectorizer _
         (RedisStorageBackend Redis.scan_for_path demo_search_hash
            demo_to_dense demo_pickle) medium reworded demo_keyspace 200
         "6d0f0a55-40d1-4d0b-8f8e-3f1f0f7d9b22"
     with
     | Ok (written, db') =>
         (written, db' !! "file:0b5c1d1e-7a34-4f0e-9c59-2f2d1f0f6a11",
          size db')
     | Raise _ => (false, None, 0%nat)
     end
     = (true,
        Some (Redis.FileDoc "/tmp/draft.txt" "draft.txt" "digest-draft"
                (5 # 1) 200 (Some [(1 # 1)%Q])),
        1%nat).
Proof. vm_compute. split; reflexivity. Qed.

Example redis_finds_indexed_file :
  Data.path
  <$> Redis.get_indexed_file_by_path Redis.scan_for_path demo_keyspace
        "/tmp/draft.txt" 150
  = Some "/tmp/draft.txt".
Proof. vm_compute. reflexivity. Qed.

(** ** The progress counters of a scan *)

Lemma setattr_files_processed (kwargs : list Progress.kwarg)
    (p : Progress.TaskProgress) :
  List.forallb (fun kw => negb (sets_files_processed kw)) kwargs = true ->
  Progress.files_processed (fold_left Progress.setattr kwargs p)
  = Progress.files_processed p.
Proof.
  revert p. induction kwargs as [|kw r IH]; intros p Hk; [reflexivity|].
  simpl in Hk. apply andb_prop in Hk as [Hkw Hr]. simpl.
  rewrite (IH _ Hr). destruct p, kw; try reflexivity. discriminate.
Qed.

(** An update that does not name [files_processed] leaves that counter of
    every task as it was. *)
Lemma update_task_files_processed (ps : Progress.ProgressStore)
    (tid t : string) (kwargs : list Progress.kwarg) :
  List.forallb (fun kw => negb (sets_files_processed kw)) kwargs = true ->
  files_processed_of (Progress.update_task ps tid kwargs).2 t
  = files_processed_of ps t.
Proof.
  intros Hk. unfold files_processed_of, Progress.get_task, Progress.update_task.
  destruct (Progress._tasks ps !! tid) as [p|] eqn:Hp; [|reflexivity].
  simpl. rewrite (proj1 (notify_tasks _ tid)). simpl.
  destruct (decide (tid = t)) as [<-|Hne].
  - rewrite lookup_insert_eq, Hp. simpl.
    now rewrite setattr_files_processed.
  - now rewrite lookup_insert_ne.
Qed.

Lemma cancel_files_processed {T : Type} (scan_id t : string)
    (st : Scanner.state T) :
  files_processed_of (Scanner.ps (Scanner.cancel scan_id st)) t
  = files_processed_of (Scanner.ps st) t.
Proof.
  unfold Scanner.cancel, Progress.cancel_task. simpl.
  destruct (Progress._tasks (Scanner.ps st) !! scan_id); [|reflexivity].
  simpl. now rewrite update_task_files_processed.
Qed.

Lemma loop_files_processed {T : Type} (scan_id t : string)
    (file_step :
       Fs.File -> datetime -> string -> Scanner.state T -> Scanner.state T)
    (script : list Scanner.event) (st : Scanner.state T) :
  (forall f now uuid4 st,
      files_processed_of (Scanner.ps (file_step f now uuid4 st)) t
      = files_processed_of (Scanner.ps st) t) ->
  files_processed_of (Scanner.ps (Scanner.loop scan_id file_step script st)) t
  = files_processed_of (Scanner.ps st) t.
Proof.
  intros Hstep. unfold Scanner.loop. revert st.
  induction script as [|e es IH]; intros st; [reflexivity|].
  destruct e as [f now uuid4|]; simpl; rewrite IH.
  - apply Hstep.
  - apply cancel_files_processed.
Qed.

Section ScanProgress.

Variable fnmatch : string -> string -> bool.
Variable ignored_files_store : Ignore.IgnoredFilesConfig.
Variable Vec Matrix : Type.
Variable pickle_loads : bytes -> option Vec.
Variable vstack : list Vec -> result Matrix.
Variable cosine_scores :
  Z -> Z -> Z -> string -> Matrix -> result (list float).

Context {S : Type} `{StorageBackendInterface S}.

Variable config : Similarity.SimilarityConfig.
Variable scan_id : string.

Ltac progress_cases f :=
  unfold Scanner.progress_match, Scanner.progress_file, Progress.update_scan;
  destruct (Fs.get_file_hash f); simpl;
  repeat match goal with
    | |- context [match ?x with _ => _ end] => destruct x; simpl
    end;
  now rewrite ?update_task_files_processed.

(** X3. The scanner reports its count under the keyword [files_scanned],
    which is no attribute of [TaskProgress]: a sequential scan never changes
    [files_processed], of its own task or of any other. *)
Theorem scan_leaves_files_processed (is_redis : bool)
    (script : list Scanner.event) (db db' : SQLite.Session)
    (storage storage' : S) (commit_time end_time : datetime)
    (ps0 ps' : Progress.ProgressStore) (t : string) :
  Scanner._scan_directory_sequential fnmatch ignored_files_store Vec Matrix
    pickle_loads vstack cosine_scores is_redis config script db storage
    scan_id commit_time end_time ps0 = Ok (ps', db', storage') ->
  files_processed_of ps' t = files_processed_of ps0 t.
Proof.
  unfold Scanner._scan_directory_sequential, Scanner._scan_with_storage,
    Scanner.scan_relational, Progress.update_scan.
  destruct is_redis;
    (destruct (Scanner.stack_vectors _ _ _ _) as [[matrix ids]|e];
     [|discriminate]);
    simpl; intros [= <- _ _];
    rewrite update_task_files_processed by reflexivity;
    rewrite loop_files_processed.
  - simpl. now rewrite !update_task_files_processed.
  - intros f now uuid4 st. unfold Scanner.scan_file_storage.
    progress_cases f.
  - simpl. now rewrite !update_task_files_processed.
  - intros f now uuid4 st. unfold Scanner.scan_file_db. progress_cases f.
Qed.

End ScanProgress.

(** Three files scanned, and the task still shows none processed. *)
Lemma scan_leaves_files_processed_witness :
  files_processed_of
    (registry_of
       (demo_scan [Scanner.walk_file reworded 20 "u1";
                   Scanner.walk_file near_copy 21 "u2";
                   Scanner.walk_file same_bytes 22 "u3"])) "scan-1"
  = files_processed_of demo_registry "scan-1".
Proof.
  apply (scan_leaves_files_processed Fnmatch.fnmatch
           (Ignore.mkIgnoredFilesConfig []) unit unit (fun _ => Some tt)
           (fun _ => Ok tt) demo_cosine medium "scan-1" false
           [Scanner.walk_file reworded 20 "u1";
            Scanner.walk_file near_copy 21 "u2";
            Scanner.walk_file same_bytes 22 "u3"]
           demo_index
           (session_of
              (demo_scan [Scanner.walk_file reworded 20 "u1";
                          Scanner.walk_file near_copy 21 "u2";
                          Scanner.walk_file same_bytes 22 "u3"]))
           demo_index
           (storage_of demo_index
              (demo_scan [Scanner.walk_file reworded 20 "u1";
                          Scanner.walk_file near_copy 21 "u2";
                          Scanner.walk_file same_bytes 22 "u3"]))
           50 60 demo_registry).
  vm_compute. reflexivity.
Defined.

Example scan_progress_counters :
  let ps := registry_of
              (demo_scan [Scanner.walk_file reworded 20 "u1";
                          Scanner.walk_file near_copy 21 "u2";
                          Scanner.walk_file same_bytes 22 "u3"]) in
  (fun p => (Progress.status p, Progress.total_files p,
             Progress.files_processed p, Progress.matches_found p))
  <$> Progress.get_task ps "scan-1"
  = Some ("completed", 3, 0, 3).
Proof. vm_compute. reflexivity. Qed.

(** ** The progress store: cancelling and subscribing *)

Lemma update_task_other (ps : Progress.ProgressStore) (tid t : string)
    (kwargs : list Progress.kwarg) :
  t <> tid ->
  Progress._tasks (Progress.update_task ps t kwargs).2 !! tid
  = Progress._tasks ps !! tid
  /\ Progress._subscribers (Progress.update_task ps t kwargs).2 !! tid
     = Progress._subscribers ps !! tid.
Proof.
  intros Hne. unfold Progress.update_task, Progress._notify_subscribers.
  destruct (Progress._tasks ps !! t) as [p|]; [|split; reflexivity].
  simpl. rewrite lookup_insert_eq.
  destruct (Progress._subscribers ps !! t); simpl;
    rewrite ?lookup_insert_ne by exact Hne; split; reflexivity.
Qed.

Lemma update_task_subscribers (ps : Progress.ProgressStore) (tid : string)
    (kwargs : list Progress.kwarg) (p : Progress.TaskProgress)
    (queues : list Progress.Queue) :
  Progress._tasks ps !! tid = Some p ->
  Progress._subscribers ps !! tid = Some queues ->
  Progress._subscribers (Progress.update_task ps tid kwargs).2 !! tid
  = Some (List.map (Progress.put_nowait (fold_left Progress.setattr kwargs p))
            queues).
Proof.
  intros Hp Hq. unfold Progress.update_task, Progress._notify_subscribers.
  rewrite Hp. simpl. rewrite lookup_insert_eq, Hq. simpl.
  apply lookup_insert_eq.
Qed.

Lemma apply_updates_subscribers
    (updates : list (string * list Progress.kwarg)) :
  forall (ps : Progress.ProgressStore) (tid : string)
         (p : Progress.TaskProgress) (queues : list Progress.Queue),
    Progress._tasks ps !! tid = Some p ->
    Progress._subscribers ps !! tid = Some queues ->
    Progress._subscribers (apply_updates ps updates) !! tid
    = Some (List.map (delivered (snapshots tid p updates)) queues).
Proof.
  induction updates as [|[t kwargs] r IH]; intros ps tid p queues Hp Hq.
  - simpl. rewrite Hq. f_equal. clear Hq.
    induction queues as [|q qs IHq]; [reflexivity|].
    simpl. f_equal; [|exact IHq]. unfold delivered. destruct q. simpl.
    now rewrite app_nil_r.
  - simpl. destruct (String.eqb_spec t tid) as [->|Hne].
    + rewrite (IH _ tid (fold_left Progress.setattr kwargs p)
                 (List.map
                    (Progress.put_nowait (fold_left Progress.setattr kwargs p))
                    queues)).
      * f_equal. rewrite List.map_map. apply List.map_ext. intros q.
        unfold delivered, Progress.put_nowait. simpl.
        now rewrite <- app_assoc.
      * now apply update_task_lookup.
      * now apply update_task_subscribers.
    + destruct (update_task_other ps tid t kwargs Hne) as [Ht Hs].
      apply IH; congruence.
Qed.

(** [cancel_task]: for a registered task the call returns [True], raises
    the flag [is_cancelled] reads and moves the status to ["cancelling"],
    leaving the other fields and every other task and flag as they were;
    for an unknown id it returns [False] and raises no flag. *)
Theorem cancel_task_spec (ps : Progress.ProgressStore) (tid : string) :
  let r := Progress.cancel_task ps tid in
  match Progress.get_task ps tid with
  | Some p =>
      r.1 = true
      /\ Progress.is_cancelled r.2 tid = true
      /\ Progress.get_task r.2 tid
         = Some (Progress.setattr p (Progress.kw_status "cancelling"))
      /\ (forall t, t <> tid ->
            Progress.get_task r.2 t = Progress.get_task ps t
            /\ Progress.is_cancelled r.2 t = Progress.is_cancelled ps t)
  | None => r = (false, ps)
  end.
Proof.
  intros r. subst r. unfold Progress.get_task, Progress.cancel_task.
  destruct (Progress._tasks ps !! tid) as [p|] eqn:Hp; [|reflexivity].
  simpl. split; [reflexivity|]. split; [|split].
  - unfold Progress.is_cancelled. rewrite update_task_cancelled. simpl.
    apply bool_decide_eq_true. apply elem_of_union. left.
    now apply elem_of_singleton.
  - now rewrite (update_task_lookup _ tid _ p).
  - intros t Hne. split.
    + now destruct (update_task_other
                      (Progress.mkProgressStore (Progress._tasks ps)
                         (Progress._subscribers ps)
                         ({[tid]} ∪ Progress._cancelled ps)
                         (Progress.next_qid ps)) t tid
                      [Progress.kw_status "cancelling"]) as [-> _];
        [congruence|].
    + unfold Progress.is_cancelled. rewrite update_task_cancelled. simpl.
      apply bool_decide_ext. rewrite elem_of_union, elem_of_singleton.
      split; [intros [?|?]; [congruence|assumption]|now right].
Qed.

(** A subscriber misses nothing: after [subscribe], every [update_task]
    addressed to the task puts one snapshot of the updated task on the
    new queue and on the queues subscribed before, in the order of the
    updates; updates addressed to other tasks put nothing there. *)
Theorem subscribers_receive_every_update (ps : Progress.ProgressStore)
    (tid : string) (p : Progress.TaskProgress)
    (updates : list (string * list Progress.kwarg)) :
  Progress.get_task ps tid = Some p ->
  Progress._subscribers
    (apply_updates (Progress.subscribe ps tid).2 updates) !! tid
  = Some (List.map (delivered (snapshots tid p updates))
            (default [] (Progress._subscribers ps !! tid))
          ++ [Progress.mkQueue (Progress.next_qid ps)
                (snapshots tid p updates)])%list.
Proof.
  intros Hp.
  rewrite (apply_updates_subscribers updates _ tid p
             (default [] (Progress._subscribers ps !! tid)
              ++ [Progress.mkQueue (Progress.next_qid ps) []])%list).
  - now rewrite List.map_app.
  - exact Hp.
  - simpl. apply lookup_insert_eq.
Qed.

(** Two updates of a scan and one of another task, after subscribing. *)
Lemma subscribers_receive_every_update_witness :
  Progress._subscribers
    (apply_updates (Progress.subscribe demo_registry "scan-1").2
       [("scan-1", [Progress.kw_status "counting"]);
        ("scan-2", [Progress.kw_status "scanning"]);
        ("scan-1", [Progress.kw_total_files 3])]) !! "scan-1"
  = Some [Progress.mkQueue 0
            [Progress.mkTaskProgress "scan-1" "scan" "counting" 0 0 0 0 "" 1
               None None;
             Progress.mkTaskProgress "scan-1" "scan" "counting" 3 0 0 0 "" 1
               None None]].
Proof.
  exact (subscribers_receive_every_update demo_registry "scan-1"
           (Progress.mkTaskProgress "scan-1" "scan" "pending" 0 0 0 0 "" 1
              None None)
           [("scan-1", [Progress.kw_status "counting"]);
            ("scan-2", [Progress.kw_status "scanning"]);
            ("scan-1", [Progress.kw_total_files 3])] eq_refl).
Defined.

(** ** The relational backend: lookups, deletions and scan results *)

Lemma find_none_forall {A : Type} (P : A -> bool) (l : list A) :
  (forall x, List.In x l -> P x = false) -> List.find P l = None.
Proof.
  induction l as [|x xs IH]; intros H; [reflexivity|].
  simpl. rewrite (H x) by now left. apply IH.
  intros y Hy. apply H. now right.
Qed.

Lemma find_filter_kept {A : Type} (P keep : A -> bool) (l : list A) :
  (forall m, List.In m l -> P m = true -> keep m = true) ->
  List.find P (List.filter keep l) = List.find P l.
Proof.
  intros HP. induction l as [|x xs IH]; [reflexivity|].
  assert (IH' : List.find P (List.filter keep xs) = List.find P xs).
  { apply IH. intros m Hm. apply HP. now right. }
  simpl. destruct (keep x) eqn:Ek; simpl.
  - destruct (P x); [reflexivity|exact IH'].
  - destruct (P x) eqn:Ex; [|exact IH'].
    rewrite (HP x (or_introl eq_refl) Ex) in Ek. discriminate.
Qed.

Lemma first_by_id_of_path (rows : list Models.IndexedFile) (p : string)
    (row : Models.IndexedFile) :
  List.NoDup (List.map Models.id rows) ->
  List.find (fun m => String.eqb (Models.path m) p) rows = Some row ->
  List.find (fun m => Models.id m =? Models.id row) rows = Some row.
Proof.
  intros Hnd Hf. induction rows as [|x xs IH]; [discriminate|].
  simpl in Hnd. apply List.NoDup_cons_iff in Hnd as [Hx Hnd].
  simpl in Hf. simpl.
  destruct (String.eqb (Models.path x) p).
  - injection Hf as <-. now rewrite Z.eqb_refl.
  - destruct (Z.eqb_spec (Models.id x) (Models.id row)) as [E|_].
    + exfalso. apply Hx. rewrite E. apply List.in_map.
      now apply List.find_some in Hf as [Hin _].
    + now apply IH.
Qed.

Lemma first_by_id_In (rows : list Models.IndexedFile)
    (row : Models.IndexedFile) :
  List.NoDup (List.map Models.id rows) ->
  List.In row rows ->
  List.find (fun m => Models.id m =? Models.id row) rows = Some row.
Proof.
  intros Hnd Hin. induction rows as [|x xs IH]; [contradiction|].
  simpl in Hnd. apply List.NoDup_cons_iff in Hnd as [Hx Hnd]. simpl.
  destruct Hin as [->|Hin]; [now rewrite Z.eqb_refl|].
  destruct (Z.eqb_spec (Models.id x) (Models.id row)) as [E|_].
  - exfalso. apply Hx. rewrite E. now apply List.in_map.
  - now apply IH.
Qed.

(** The record an upsert returns is the one both lookups hand back
    afterwards: by the path, and by the id the record carries, which [int]
    reads back from its decimal form. *)
Theorem sqlite_upsert_then_lookup (db : SQLite.Session) (p f h : string)
    (v : option bytes) (m : float) (now : datetime) :
  schema_ok db ->
  let r := SQLite.add_or_update_indexed_file db p f h v m now in
  SQLite.get_indexed_file_by_path r.2 p = Some r.1
  /\ SQLite.get_indexed_file_by_id r.2 (Data.id r.1) = Ok (Some r.1).
Proof.
  intros Hok r.
  assert (Hok' : schema_ok r.2) by now apply upsert_schema_ok.
  assert (Hrow : exists row,
             SQLite.first_by_path r.2 p = Some row
             /\ r.1 = SQLite._model_to_data row).
  { destruct Hok as [Hid _]. subst r.
    unfold SQLite.add_or_update_indexed_file, SQLite.first_by_path.
    destruct (List.find _ (SQLite.indexed_files db)) as [e|] eqn:Hf; simpl.
    - destruct (update_row_spec _ e
                  (Models.mkIndexedFile (Models.id e) (Models.path e)
                     (Models.filename e) h v m now) p Hid Hf eq_refl eq_refl)
        as (_ & _ & Hfind).
      eexists. split; [exact Hfind|reflexivity].
    - eexists. split; [|reflexivity].
      rewrite (find_app_none _ _ _ Hf). simpl. now rewrite String.eqb_refl. }
  destruct Hrow as (row & Hrow & Hdata). split.
  - unfold SQLite.get_indexed_file_by_path. now rewrite Hrow, Hdata.
  - unfold SQLite.get_indexed_file_by_id. rewrite Hdata. simpl.
    rewrite int_str_of_int. unfold SQLite.first_by_id.
    now rewrite (first_by_id_of_path _ p row (proj1 Hok') Hrow).
Qed.

Lemma sqlite_upsert_then_lookup_witness :
  let r := SQLite.add_or_update_indexed_file demo_index
             "/protected/notes.txt" "renamed.txt" "digest-notes-2" None
             (2 # 1) 12 in
  SQLite.get_indexed_file_by_path r.2 "/protected/notes.txt" = Some r.1
  /\ SQLite.get_indexed_file_by_id r.2 (Data.id r.1) = Ok (Some r.1).
Proof.
  apply (sqlite_upsert_then_lookup demo_index "/protected/notes.txt"
           "renamed.txt" "digest-notes-2" None (2 # 1) 12).
  unfold demo_index. do 2 apply upsert_schema_ok. split; constructor.
Defined.

(** [delete_indexed_file] on the id of a stored file (foreign keys not
    enforced, as [database.py] leaves them): the call returns [True], the
    file is gone from both lookups and from the count, every other file is
    still found at its path, and the scan results are all kept; those that
    matched the deleted file now report no matched path and no matched
    name, the others read as before. *)
Theorem sqlite_delete_indexed_file_spec (db : SQLite.Session)
    (row : Models.IndexedFile) :
  schema_ok db ->
  List.In row (SQLite.indexed_files db) ->
  SQLite.foreign_keys db = false ->
  exists db',
    SQLite.delete_indexed_file db (Py.str_of_int (Models.id row))
    = Ok (true, db')
    /\ SQLite.get_indexed_file_by_id db' (Py.str_of_int (Models.id row))
       = Ok None
    /\ SQLite.get_indexed_file_by_path db' (Models.path row) = None
    /\ (forall p, p <> Models.path row ->
          SQLite.get_indexed_file_by_path db' p
          = SQLite.get_indexed_file_by_path db p)
    /\ SQLite.count_indexed_files db' = SQLite.count_indexed_files db - 1
    /\ SQLite.scan_results db' = SQLite.scan_results db
    /\ (forall r,
          let d := SQLite._scan_result_to_data db r in
          let d' := SQLite._scan_result_to_data db' r in
          if Models.matched_file_id r =? Models.id row
          then Data.matched_file_path d' = None
               /\ Data.matched_file_name d' = None
          else d' = d).
Proof.
  intros [Hid Hpath] Hin Hfk.
  unfold SQLite.delete_indexed_file. rewrite int_str_of_int.
  unfold SQLite.first_by_id. rewrite (first_by_id_In _ row Hid Hin), Hfk.
  simpl. eexists. split; [reflexivity|].
  set (keep := fun m : Models.IndexedFile =>
                 negb (Models.id m =? Models.id row)).
  assert (Hgone : forall P,
             (forall m, P m = true -> List.In m (SQLite.indexed_files db) ->
                        m = row) ->
             List.find P (List.filter keep (SQLite.indexed_files db)) = None).
  { intros P HP. apply find_none_forall. intros m Hm.
    apply List.filter_In in Hm as [Hm Hk].
    destruct (P m) eqn:E; [|reflexivity].
    rewrite (HP m E Hm) in Hk. unfold keep in Hk.
    now rewrite Z.eqb_refl in Hk. }
  pose proof (fun P => find_filter_kept P keep (SQLite.indexed_files db))
    as Hkept.
  assert (Huniq : forall m, List.In m (SQLite.indexed_files db) ->
                            Models.id m = Models.id row -> m = row).
  { intros m Hm E.
    pose proof (first_by_id_In _ m Hid Hm) as Hfm. rewrite E in Hfm.
    rewrite (first_by_id_In _ row Hid Hin) in Hfm. congruence. }
  split; [|split; [|split; [|split; [|split]]]].
  - unfold SQLite.get_indexed_file_by_id. rewrite int_str_of_int.
    unfold SQLite.first_by_id. simpl. rewrite Hgone; [reflexivity|].
    intros m Hm Hi. apply Huniq; [exact Hi|now apply Z.eqb_eq].
  - unfold SQLite.get_indexed_file_by_path, SQLite.first_by_path. simpl.
    rewrite Hgone; [reflexivity|].
    intros m Hm Hi. apply String.eqb_eq in Hm.
    clear Hgone Hkept Huniq.
    induction (SQLite.indexed_files db) as [|x xs IH]; [contradiction|].
    simpl in Hpath, Hin, Hi.
    apply List.NoDup_cons_iff in Hpath as [Hx Hpath].
    simpl in Hid. apply List.NoDup_cons_iff in Hid as [_ Hid].
    destruct Hin as [->|Hin], Hi as [->|Hi]; try reflexivity.
    + exfalso. apply Hx. rewrite <- Hm. now apply List.in_map.
    + exfalso. apply Hx. rewrite Hm. now apply List.in_map.
    + now apply IH.
  - intros p Hp.
    unfold SQLite.get_indexed_file_by_path, SQLite.first_by_path. simpl.
    rewrite Hkept; [reflexivity|].
    intros m Hi Hm. apply String.eqb_eq in Hm. unfold keep.
    destruct (Z.eqb_spec (Models.id m) (Models.id row)) as [E|];
      [|reflexivity].
    exfalso. apply Hp. now rewrite <- (Huniq m Hi E).
  - unfold SQLite.count_indexed_files. simpl.
    clear Hgone Hkept Huniq Hpath.
    induction (SQLite.indexed_files db) as [|x xs IH]; [contradiction|].
    simpl in Hid. apply List.NoDup_cons_iff in Hid as [Hx Hid].
    destruct Hin as [->|Hin]; simpl.
    + unfold keep at 1. rewrite Z.eqb_refl. simpl.
      assert (E : List.filter keep xs = xs).
      { apply List.forallb_filter_id. apply List.forallb_forall.
        intros m Hm. unfold keep.
        destruct (Z.eqb_spec (Models.id m) (Models.id row)) as [E|];
          [|reflexivity].
        exfalso. apply Hx. rewrite <- E. now apply List.in_map. }
      rewrite E. lia.
    + unfold keep at 1.
      destruct (Z.eqb_spec (Models.id x) (Models.id row)) as [E|_].
      * exfalso. apply Hx. rewrite E. now apply List.in_map.
      * simpl. specialize (IH Hid Hin). simpl in IH. lia.
  - reflexivity.
  - intros r. unfold SQLite._scan_result_to_data, SQLite.first_by_id. simpl.
    destruct (Z.eqb_spec (Models.matched_file_id r) (Models.id row))
      as [E|Hne].
    + rewrite Hgone; [split; reflexivity|].
      intros m Hm Hi. apply Huniq; [exact Hi|].
      apply Z.eqb_eq in Hm. congruence.
    + rewrite Hkept; [reflexivity|].
      intros m _ Hm. apply Z.eqb_eq in Hm. unfold keep.
      destruct (Z.eqb_spec (Models.id m) (Models.id row)); [|reflexivity].
      congruence.
Qed.

(** The one indexed file of the sample store is deleted; the scan result
    that matched it stays. *)
Lemma sqlite_delete_indexed_file_spec_witness :
  exists db',
    SQLite.delete_indexed_file store_with_one_match
      (Py.str_of_int (Models.id protected_a)) = Ok (true, db')
    /\ SQLite.get_indexed_file_by_id db'
         (Py.str_of_int (Models.id protected_a)) = Ok None
    /\ SQLite.get_indexed_file_by_path db' (Models.path protected_a) = None
    /\ (forall p, p <> Models.path protected_a ->
          SQLite.get_indexed_file_by_path db' p
          = SQLite.get_indexed_file_by_path store_with_one_match p)
    /\ SQLite.count_indexed_files db'
       = SQLite.count_indexed_files store_with_one_match - 1
    /\ SQLite.scan_results db' = SQLite.scan_results store_with_one_match
    /\ (forall r,
          let d := SQLite._scan_result_to_data store_with_one_match r in
          let d' := SQLite._scan_result_to_data db' r in
          if Models.matched_file_id r =? Models.id protected_a
          then Data.matched_file_path d' = None
               /\ Data.matched_file_name d' = None
          else d' = d).
Proof.
  apply (sqlite_delete_indexed_file_spec store_with_one_match protected_a).
  - split; vm_compute; (constructor; [intros []|constructor]).
  - vm_compute. now left.
  - reflexivity.
Defined.

Example sqlite_delete_leaves_dangling_result :
  match SQLite.delete_indexed_file store_with_one_match "1" with
  | Ok (deleted, db') =>
      (deleted, SQLite.count_indexed_files db',
       List.map (fun d => (Data.file_path d, Data.matched_file_id d,
                           Data.matched_file_path d))
         (SQLite.get_scan_results db' "scan-1"))
  | Raise _ => (false, 0, [])
  end
  = (true, 0, [("/tmp/b.txt", "1", None)]).
Proof. vm_compute. reflexivity. Qed.

(** A scan result that [add_scan_result] stores is the last one
    [get_scan_results] returns for its scan, as the record the call
    returned; the results of the other scans and the indexed files are
    untouched. *)
Theorem sqlite_add_then_get_scan_results (db db' : SQLite.Session)
    (sid fp mid : string) (mt : Models.MatchType) (sc : float)
    (now : datetime) (d : Data.ScanResultData) :
  SQLite.add_scan_result db sid fp mt sc mid now = Ok (d, db') ->
  SQLite.get_scan_results db' sid = (SQLite.get_scan_results db sid ++ [d])%list
  /\ (forall sid', sid' <> sid ->
        SQLite.get_scan_results db' sid' = SQLite.get_scan_results db sid')
  /\ SQLite.count_scan_results db' = SQLite.count_scan_results db + 1
  /\ SQLite.indexed_files db' = SQLite.indexed_files db.
Proof.
  unfold SQLite.add_scan_result.
  destruct (Py.int mid) as [n|]; [|discriminate].
  destruct (_ && _); [discriminate|]. intros [= <- <-].
  unfold SQLite.get_scan_results, SQLite.count_scan_results,
    SQLite._scan_result_to_data, SQLite.first_by_id. simpl.
  split; [|split; [|split]].
  - rewrite List.filter_app, List.map_app. simpl.
    now rewrite String.eqb_refl.
  - intros sid' Hne. rewrite List.filter_app. simpl.
    destruct (String.eqb_spec sid sid') as [E|_]; [congruence|].
    now rewrite List.app_nil_r.
  - rewrite List.length_app. simpl. lia.
  - reflexivity.
Qed.

Lemma sqlite_add_then_get_scan_results_witness :
  exists d db',
    SQLite.add_scan_result store_with_one_match "scan-2" "/tmp/c.txt"
      Models.similarity (7 # 10) "1" 30 = Ok (d, db')
    /\ SQLite.get_scan_results db' "scan-2" = [d]
    /\ Data.matched_file_path d = Some "/protected/a.txt".
Proof.
  eexists. eexists. split; [reflexivity|].
  split; [|reflexivity].
  exact (proj1 (sqlite_add_then_get_scan_results store_with_one_match _
                  "scan-2" "/tmp/c.txt" "1" Models.similarity (7 # 10) 30 _
                  eq_refl)).
Defined.

(** ** The matcher: how many matches, and in which order *)

Lemma insert_desc_sorted {A : Type} (key : A -> float) (x : A) (l : list A) :
  Sorted.StronglySorted (fun a b => (key b <= key a)%Q) l ->
  Sorted.StronglySorted (fun a b => (key b <= key a)%Q)
    (Similarity.insert_desc key x l).
Proof.
  induction l as [|y r IH]; intros Hs; simpl.
  - constructor; constructor.
  - apply Sorted.StronglySorted_inv in Hs as [Hr Hy].
    destruct (Qle_bool (key y) (key x)) eqn:E.
    + apply Qle_bool_iff in E. constructor.
      * now constructor.
      * constructor; [exact E|].
        apply List.Forall_impl with (2 := Hy). intros z Hz.
        now apply Qle_trans with (key y).
    + assert (Hlt : (key x < key y)%Q).
      { apply Qnot_le_lt. intros Hle. apply Qle_bool_iff in Hle. congruence. }
      constructor; [now apply IH|].
      apply List.Forall_forall. intros z Hz.
      apply insert_desc_In in Hz as [->|Hz]; [now apply Qlt_le_weak|].
      now apply (proj1 (List.Forall_forall _ _) Hy).
Qed.

Lemma sort_desc_sorted {A : Type} (key : A -> float) (l : list A) :
  Sorted.StronglySorted (fun a b => (key b <= key a)%Q)
    (Similarity.sort_desc key l).
Proof.
  unfold Similarity.sort_desc. induction l as [|x r IH]; simpl.
  - constructor.
  - now apply insert_desc_sorted.
Qed.

Lemma firstn_sorted {A : Type} (R : A -> A -> Prop) (n : nat) (l : list A) :
  Sorted.StronglySorted R l -> Sorted.StronglySorted R (List.firstn n l).
Proof.
  revert l. induction n as [|n IH]; intros [|x r] Hs; simpl;
    try constructor.
  - apply IH. now apply Sorted.StronglySorted_inv in Hs as [Hr _].
  - apply Sorted.StronglySorted_inv in Hs as [_ Hx].
    apply List.Forall_forall. intros y Hy. apply firstn_In in Hy.
    now apply (proj1 (List.Forall_forall _ _) Hx).
Qed.

Section MatcherOrder.

Variable Matrix : Type.
Variable cosine_scores :
  Z -> Z -> Z -> string -> Matrix -> result (list float).

(** [compute_similarity_with_validation] returns at most five matches, in
    the order of decreasing score; each names a file of the index and
    carries the kind [get_match_type] gives its score. *)
Theorem compute_similarity_top_five {Id : Type}
    (store_config config : Similarity.SimilarityConfig) (content : string)
    (matrix : Matrix) (indexed_ids : list Id) :
  let ms := Similarity.compute_similarity_with_validation Matrix
              cosine_scores store_config content matrix indexed_ids config in
  (List.length ms <= 5)%nat
  /\ by_decreasing_score ms
  /\ forall i score kind,
       List.In (i, score, kind) ms ->
       List.In i indexed_ids
       /\ kind = Similarity.get_match_type store_config score.
Proof.
  assert (Hnone : (List.length (@nil (Id * float * Models.MatchType)) <= 5)%nat
                  /\ by_decreasing_score (@nil (Id * float * Models.MatchType))
                  /\ forall i score kind,
                       List.In (i, score, kind) [] ->
                       List.In i indexed_ids
                       /\ kind = Similarity.get_match_type store_config score).
  { split; [simpl; lia|]. split; [apply Sorted.SSorted_nil|intros ? ? ? []]. }
  intros ms. subst ms. unfold Similarity.compute_similarity_with_validation.
  destruct (Similarity.similarity_matches _ _ _ _ _ _ _) as [ms|e] eqn:Hrun;
    [|exact Hnone].
  unfold Similarity.similarity_matches in Hrun.
  destruct (cosine_scores _ _ _ _ _) as [primary|e]; [|discriminate].
  simpl in Hrun.
  match type of Hrun with
  | match ?c with _ => _ end = _ => remember c as candidates eqn:Hcand
  end.
  clear Hcand.
  destruct candidates as [|c cs] eqn:Hcs;
    [injection Hrun as <-; exact Hnone|].
  rewrite <- Hcs in Hrun. clear Hcs.
  destruct (Similarity.retained_candidates _ _ _ _ _ candidates)
    as [kept|e]; [|discriminate].
  simpl in Hrun.
  destruct (Similarity.for_each _ kept) as [all|e] eqn:Hall; [|discriminate].
  simpl in Hrun. injection Hrun as <-. split; [|split].
  - apply List.firstn_le_length.
  - apply firstn_sorted, sort_desc_sorted.
  - intros i score kind Hin. apply firstn_In, sort_desc_In in Hin.
    destruct (for_each_In _ _ _ _ Hall Hin) as ([idx s] & _ & Hbody).
    destruct (List.nth_error indexed_ids idx) as [j|] eqn:Hnth;
      [|discriminate].
    injection Hbody as <- <- <-. split; [|reflexivity].
    now apply List.nth_error_In in Hnth.
Qed.

End MatcherOrder.

Example compute_similarity_keeps_five :
  List.map (fun m => (fst (fst m), snd (fst m)))
    (Similarity.compute_similarity_with_validation unit
       (fun _ _ _ _ _ =>
          Ok [(70 # 100); (90 # 100); (10 # 100); (80 # 100); (90 # 100);
              (75 # 100); (95 # 100)]%Q)
       medium short_text tt ["a"; "b"; "c"; "d"; "e"; "f"; "g"] medium)
  = [("g", 95 # 100); ("b", 90 # 100); ("e", 90 # 100); ("d", 80 # 100);
     ("f", 75 # 100)]%Q.
Proof. vm_compute. reflexivity. Qed.

(** ** The relational scan, file by file *)

Lemma record_all_indexed_files (scan_id : string) (commit_time : datetime)
    (verdicts : list (string * Models.MatchType * float * Z))
    (db : SQLite.Session) :
  SQLite.indexed_files (record_all scan_id commit_time verdicts db)
  = SQLite.indexed_files db
  /\ SQLite.foreign_keys (record_all scan_id commit_time verdicts db)
     = SQLite.foreign_keys db.
Proof.
  unfold record_all. revert db.
  induction verdicts as [|[[[p k] s] i] r IH]; intros db; [now split|].
  simpl. destruct (IH (Scanner.db_add db scan_id p k s i commit_time))
    as [-> ->].
  now split.
Qed.

Lemma record_all_app (scan_id : string) (commit_time : datetime)
    (v w : list (string * Models.MatchType * float * Z))
    (db : SQLite.Session) :
  record_all scan_id commit_time (v ++ w) db
  = record_all scan_id commit_time w (record_all scan_id commit_time v db).
Proof. unfold record_all. apply List.fold_left_app. Qed.

(** The rows [record_all] adds: one per verdict, in order, each with the
    scan id and the commit time. *)
Lemma record_all_rows (scan_id : string) (commit_time : datetime)
    (verdicts : list (string * Models.MatchType * float * Z))
    (db : SQLite.Session) :
  exists new,
    SQLite.scan_results (record_all scan_id commit_time verdicts db)
    = (SQLite.scan_results db ++ new)%list
    /\ List.map (fun r => (Models.file_path r, Models.match_type r,
                           Models.score r, Models.matched_file_id r)) new
       = verdicts
    /\ List.Forall (fun r => Models.scan_id r = scan_id
                             /\ Models.timestamp r = commit_time) new.
Proof.
  unfold record_all. revert db.
  induction verdicts as [|[[[p k] s] i] r IH]; intros db.
  - exists []. simpl. rewrite List.app_nil_r. repeat split. constructor.
  - simpl.
    destruct (IH (Scanner.db_add db scan_id p k s i commit_time))
      as (new & E & Hmap & Hall).
    eexists (_ :: new). rewrite E. simpl. rewrite <- List.app_assoc. simpl.
    split; [reflexivity|]. split; [now rewrite Hmap|].
    constructor; [now split|exact Hall].
Qed.

Section ScanVerdicts.

Variable fnmatch : string -> string -> bool.
Variable Vec Matrix : Type.
Variable pickle_loads : bytes -> option Vec.
Variable vstack : list Vec -> result Matrix.
Variable cosine_scores :
  Z -> Z -> Z -> string -> Matrix -> result (list float).

Lemma verdict_index (config : Similarity.SimilarityConfig)
    (matrix : option Matrix) (ids : list Z) (a b : SQLite.Session)
    (f : Fs.File) :
  SQLite.indexed_files a = SQLite.indexed_files b ->
  verdict cosine_scores config matrix ids a f
  = verdict cosine_scores config matrix ids b f.
Proof.
  intros E. unfold verdict, SQLite.first_by_hash. now rewrite E.
Qed.

Lemma scan_file_db_store (config : Similarity.SimilarityConfig)
    (matrix : option Matrix) (ids : list Z) (scan_id : string)
    (commit_time : datetime) (f : Fs.File)
    (st : Scanner.state SQLite.Session) :
  Scanner.store
    (Scanner.scan_file_db Matrix cosine_scores config matrix ids scan_id
       commit_time f st)
  = record_all scan_id commit_time
      (option_list (verdict cosine_scores config matrix ids
                      (Scanner.store st) f)) (Scanner.store st).
Proof.
  unfold Scanner.scan_file_db, verdict. simpl.
  destruct (Fs.get_file_hash f) as [h|e]; [|reflexivity].
  destruct (SQLite.first_by_hash _ h) as [m|]; [reflexivity|].
  destruct (Scanner.top_similarity_match _ _ _ _ _ f) as [[[i s] k]|];
    reflexivity.
Qed.

Lemma scan_loop_store (config : Similarity.SimilarityConfig)
    (matrix : option Matrix) (ids : list Z) (scan_id : string)
    (commit_time : datetime) (index : SQLite.Session)
    (script : list Scanner.event) :
  forall st : Scanner.state SQLite.Session,
    SQLite.indexed_files (Scanner.store st) = SQLite.indexed_files index ->
    Scanner.store
      (Scanner.loop scan_id
         (fun f _ _ st =>
            Scanner.scan_file_db Matrix cosine_scores config matrix ids
              scan_id commit_time f st) script st)
    = record_all scan_id commit_time
        (omap (verdict cosine_scores config matrix ids index)
           (Scanner.files_of script)) (Scanner.store st).
Proof.
  unfold Scanner.loop.
  induction script as [|e es IH]; intros st Hst; [reflexivity|].
  destruct e as [f now uuid4|]; simpl.
  - rewrite IH.
    + rewrite scan_file_db_store.
      rewrite (verdict_index config matrix ids _ index f Hst).
      destruct (verdict _ _ _ _ index f); reflexivity.
    + rewrite scan_file_db_store.
      now rewrite (proj1 (record_all_indexed_files _ _ _ _)).
  - exact (IH (Scanner.cancel scan_id st) Hst).
Qed.

(** What a sequential scan leaves in the relational store, in full. *)
Lemma sequential_scan_store (ignored : Ignore.IgnoredFilesConfig)
    {S : Type} `{StorageBackendInterface S}
    (config : Similarity.SimilarityConfig) (script : list Scanner.event)
    (db : SQLite.Session) (storage : S) (scan_id : string)
    (commit_time end_time : datetime) (ps0 : Progress.ProgressStore) :
  match Scanner.stack_vectors Vec Matrix pickle_loads vstack
          (Scanner.rows_with_vectors db) with
  | Ok (matrix, ids) =>
      exists ps',
        Scanner._scan_directory_sequential fnmatch ignored Vec Matrix
          pickle_loads vstack cosine_scores false config script db storage
          scan_id commit_time end_time ps0
        = Ok (ps',
              record_all scan_id commit_time
                (omap (verdict cosine_scores config matrix ids db)
                   (Scanner.files_of script)) db,
              storage)
  | Raise e =>
      Scanner._scan_directory_sequential fnmatch ignored Vec Matrix
        pickle_loads vstack cosine_scores false config script db storage
        scan_id commit_time end_time ps0 = Raise e
  end.
Proof.
  unfold Scanner._scan_directory_sequential, Scanner.scan_relational.
  destruct (Scanner.stack_vectors _ _ _ _ _) as [[matrix ids]|e];
    [|reflexivity].
  cbn [mbind result_bind].
  match goal with
  | |- context [Scanner.loop _ _ _ ?st] =>
      pose proof (scan_loop_store config matrix ids scan_id commit_time db
                    script st eq_refl) as E
  end.
  cbn [Scanner.store] in E. rewrite <- E. eexists. reflexivity.
Qed.

Context {S : Type} `{StorageBackendInterface S}.

(** A sequential scan of the relational store always returns, unless the
    stored vectors cannot be stacked. It judges each walked file on its own,
    against the index as it stood when the scan started: the rows it adds
    are the verdicts of the files that have one, in the order of the walk,
    all with the scan's id and the commit time. The indexed files are left
    as they were. Cancel requests and the ignore patterns play no part. *)
Theorem sequential_scan_judges_each_file
    (ignored : Ignore.IgnoredFilesConfig)
    (config : Similarity.SimilarityConfig) (script : list Scanner.event)
    (db : SQLite.Session) (storage : S) (scan_id : string)
    (commit_time end_time : datetime) (ps0 : Progress.ProgressStore) :
  match Scanner.stack_vectors Vec Matrix pickle_loads vstack
          (Scanner.rows_with_vectors db) with
  | Ok (matrix, ids) =>
      exists ps' db' new,
        Scanner._scan_directory_sequential fnmatch ignored Vec Matrix
          pickle_loads vstack cosine_scores false config script db storage
          scan_id commit_time end_time ps0 = Ok (ps', db', storage)
        /\ SQLite.indexed_files db' = SQLite.indexed_files db
        /\ SQLite.scan_results db' = (SQLite.scan_results db ++ new)%list
        /\ List.map (fun r => (Models.file_path r, Models.match_type r,
                               Models.score r, Models.matched_file_id r)) new
           = omap (verdict cosine_scores config matrix ids db)
               (Scanner.files_of script)
        /\ List.Forall (fun r => Models.scan_id r = scan_id
                                 /\ Models.timestamp r = commit_time) new
  | Raise e =>
      Scanner._scan_directory_sequential fnmatch ignored Vec Matrix
        pickle_loads vstack cosine_scores false config script db storage
        scan_id commit_time end_time ps0 = Raise e
  end.
Proof.
  pose proof (sequential_scan_store ignored config script db storage scan_id
                commit_time end_time ps0) as Hrun.
  destruct (Scanner.stack_vectors _ _ _ _ _) as [[matrix ids]|e];
    [|exact Hrun].
  destruct Hrun as [ps' Hrun].
  destruct (record_all_rows scan_id commit_time
              (omap (verdict cosine_scores config matrix ids db)
                 (Scanner.files_of script)) db) as (new & E & Hmap & Hall).
  exists ps'. eexists. exists new. split; [exact Hrun|].
  split; [apply record_all_indexed_files|]. now repeat split.
Qed.

(** The sequential scan never asks [should_ignore] about the files it
    scans: only [total_files] depends on the ignore patterns. Whatever the
    patterns, the scan stores the same rows; a file that matches a pattern
    is scanned and reported like any other. *)
Theorem sequential_scan_scans_ignored_files
    (ignored ignored' : Ignore.IgnoredFilesConfig)
    (config : Similarity.SimilarityConfig) (script : list Scanner.event)
    (db db' : SQLite.Session) (storage storage' : S) (scan_id : string)
    (commit_time end_time : datetime) (ps0 ps' : Progress.ProgressStore) :
  Scanner._scan_directory_sequential fnmatch ignored Vec Matrix pickle_loads
    vstack cosine_scores false config script db storage scan_id commit_time
    end_time ps0 = Ok (ps', db', storage') ->
  exists ps'',
    Scanner._scan_directory_sequential fnmatch ignored' Vec Matrix
      pickle_loads vstack cosine_scores false config script db storage
      scan_id commit_time end_time ps0 = Ok (ps'', db', storage').
Proof.
  intros Hrun.
  pose proof (sequential_scan_store ignored config script db storage scan_id
                commit_time end_time ps0) as H1.
  pose proof (sequential_scan_store ignored' config script db storage scan_id
                commit_time end_time ps0) as H2.
  destruct (Scanner.stack_vectors _ _ _ _ _) as [[matrix ids]|e].
  - destruct H1 as [ps1 H1], H2 as [ps2 H2]. exists ps2.
    rewrite H2. rewrite H1 in Hrun. now injection Hrun as _ <- <-.
  - rewrite H1 in Hrun. discriminate.
Qed.

End ScanVerdicts.

(** ** From the index to the scan *)

Lemma record_all_In (scan_id : string) (commit_time : datetime)
    (verdicts : list (string * Models.MatchType * float * Z))
    (db : SQLite.Session) (p : string) (k : Models.MatchType) (s : float)
    (i : Z) :
  List.In (p, k, s, i) verdicts ->
  exists r,
    List.In r (SQLite.scan_results (record_all scan_id commit_time verdicts db))
    /\ Models.scan_id r = scan_id /\ Models.file_path r = p
    /\ Models.match_type r = k /\ Models.score r = s
    /\ Models.matched_file_id r = i.
Proof.
  intros Hin.
  destruct (record_all_rows scan_id commit_time verdicts db)
    as (new & E & Hmap & Hall).
  rewrite <- Hmap in Hin. apply List.in_map_iff in Hin as (r & Hr & Hin).
  exists r. rewrite E. split; [apply List.in_or_app; now right|].
  apply (proj1 (List.Forall_forall _ _) Hall) in Hin as [Hs _].
  injection Hr as <- <- <- <-. now repeat split.
Qed.

Section IndexThenScan.

Variable hashing_vector : Similarity.SimilarityConfig -> string -> option bytes.
Variable fnmatch : string -> string -> bool.
Variable Vec Matrix : Type.
Variable pickle_loads : bytes -> option Vec.
Variable vstack : list Vec -> result Matrix.
Variable cosine_scores :
  Z -> Z -> Z -> string -> Matrix -> result (list float).

(** A file that was written to the index is there with its digest. *)
Lemma index_stores_hash (config : Similarity.SimilarityConfig) (g : Fs.File)
    (db db1 : SQLite.Session) (now : datetime) :
  Indexer._index_single_file hashing_vector config g db now = Ok (true, db1) ->
  exists h m,
    Fs.get_file_hash g = Ok h
    /\ List.In m (SQLite.indexed_files db1) /\ Models.file_hash m = h.
Proof.
  unfold Indexer._index_single_file.
  destruct (Indexer.stat g) as [mtime|e]; [|discriminate]. simpl.
  destruct (match SQLite.first_by_path db (Fs.path g) with
            | Some _ => _ | None => _ end); [discriminate|].
  destruct (Fs.get_file_hash g) as [h|e]; [|discriminate]. simpl.
  unfold SQLite.first_by_path.
  set (vec := if Fs.is_text_file g
              then Indexer.compute_vector hashing_vector config g else None).
  destruct (List.find _ (SQLite.indexed_files db)) as [e|] eqn:Hf;
    intros [= <-]; exists h.
  - exists (Models.mkIndexedFile (Models.id e) (Models.path e)
              (Models.filename e) h vec mtime now).
    split; [reflexivity|]. split; [|reflexivity]. simpl.
    apply List.find_some in Hf as [Hin _].
    unfold SQLite.update_row. apply List.in_map_iff. exists e.
    split; [|exact Hin]. simpl. now rewrite Z.eqb_refl.
  - exists (Models.mkIndexedFile
              (SQLite.next_id (List.map Models.id (SQLite.indexed_files db)))
              (Fs.path g) (Py.basename (Fs.path g)) h vec mtime now).
    split; [reflexivity|]. split; [|reflexivity]. simpl.
    apply List.in_or_app. right. now left.
Qed.

Context {S : Type} `{StorageBackendInterface S}.

(** Indexing, then scanning: once a file has been written to the index, a
    sequential scan records every walked file with the same digest as an
    exact match with score 1, against an indexed file that has this
    digest. *)
Theorem indexed_file_is_matched_exactly
    (ignored : Ignore.IgnoredFilesConfig)
    (index_config config : Similarity.SimilarityConfig) (g f : Fs.File)
    (db db1 db' : SQLite.Session) (now : datetime)
    (script : list Scanner.event) (storage storage' : S) (scan_id : string)
    (commit_time end_time : datetime) (ps0 ps' : Progress.ProgressStore) :
  Indexer._index_single_file hashing_vector index_config g db now
  = Ok (true, db1) ->
  List.In f (Scanner.files_of script) ->
  Fs.get_file_hash f = Fs.get_file_hash g ->
  Scanner._scan_directory_sequential fnmatch ignored Vec Matrix pickle_loads
    vstack cosine_scores false config script db1 storage scan_id commit_time
    end_time ps0 = Ok (ps', db', storage') ->
  exists r m,
    List.In r (SQLite.scan_results db')
    /\ Models.scan_id r = scan_id
    /\ Models.file_path r = Fs.path f
    /\ Models.match_type r = Models.exact
    /\ Models.score r = (1 # 1)%Q
    /\ List.In m (SQLite.indexed_files db')
    /\ Models.id m = Models.matched_file_id r
    /\ Fs.get_file_hash g = Ok (Models.file_hash m).
Proof.
  intros Hidx Hin Hhash Hrun.
  destruct (index_stores_hash _ _ _ _ _ Hidx) as (h & m0 & Hg & Hm0 & Hh0).
  destruct (SQLite.first_by_hash db1 h) as [m|] eqn:Hfind.
  2: { pose proof (List.find_none _ _ Hfind m0 Hm0) as Hn. simpl in Hn.
       rewrite Hh0, String.eqb_refl in Hn. discriminate. }
  pose proof Hfind as Hm. apply List.find_some in Hm as [Hm Hmh].
  apply String.eqb_eq in Hmh.
  pose proof (sequential_scan_store fnmatch Vec Matrix pickle_loads vstack
                cosine_scores ignored config script db1 storage scan_id
                commit_time end_time ps0) as Hstore.
  destruct (Scanner.stack_vectors _ _ _ _ _) as [[matrix ids]|e];
    [|rewrite Hstore in Hrun; discriminate].
  destruct Hstore as [ps1 Hstore]. rewrite Hstore in Hrun.
  injection Hrun as _ <- _.
  assert (Hv : List.In (Fs.path f, Models.exact, (1 # 1)%Q, Models.id m)
                 (omap (verdict cosine_scores config matrix ids db1)
                    (Scanner.files_of script))).
  { apply list_elem_of_In, list_elem_of_omap. exists f.
    split; [now apply list_elem_of_In|].
    unfold verdict. now rewrite Hhash, Hg, Hfind. }
  destruct (record_all_In scan_id commit_time _ db1 _ _ _ _ Hv)
    as (r & Hr & Hs & Hp & Hk & Hsc & Hi).
  exists r, m. repeat split; try assumption.
  - now rewrite (proj1 (record_all_indexed_files _ _ _ _)).
  - now symmetry.
  - now rewrite Hmh.
Qed.

End IndexThenScan.

(** ** What a finished scan shows of itself *)

Section ScanFinalProgress.

Variable fnmatch : string -> string -> bool.
Variable ignored : Ignore.IgnoredFilesConfig.
Variable Vec Matrix : Type.
Variable pickle_loads : bytes -> option Vec.
Variable vstack : list Vec -> result Matrix.
Variable cosine_scores :
  Z -> Z -> Z -> string -> Matrix -> result (list float).

Variable scan_id : string.
Variable p0 : Progress.TaskProgress.
Variable total : Z.
Variable db0 : SQLite.Session.

Lemma inv_progress_file (f : Fs.File) (st : Scanner.state SQLite.Session) :
  scan_invariant scan_id p0 total db0 st -> scan_invariant scan_id p0 total db0 (Scanner.progress_file scan_id f st).
Proof.
  intros [(p & Hp & s & c & ->) [Hm Hpos]]. split; [|now split].
  eexists. split.
  - unfold Scanner.progress_file, Progress.update_scan. simpl.
    apply update_task_lookup. exact Hp.
  - simpl. eexists. eexists. reflexivity.
Qed.

Lemma inv_progress_match (file_path : string) (kind : Models.MatchType)
    (score : float) (matched : Z) (commit_time : datetime)
    (st : Scanner.state SQLite.Session) :
  scan_invariant scan_id p0 total db0 st ->
  scan_invariant scan_id p0 total db0 (Scanner.progress_match scan_id
         (Scanner.db_add (Scanner.store st) scan_id file_path kind score
            matched commit_time) st).
Proof.
  intros [(p & Hp & s & c & ->) [Hm Hpos]]. split; [|split].
  - eexists. split.
    + unfold Scanner.progress_match, Progress.update_scan. simpl.
      apply update_task_lookup. exact Hp.
    + simpl. exists s, c.
      destruct (Z.eqb_spec (Scanner.matches_found st + 1) 0); [lia|].
      reflexivity.
  - simpl. unfold SQLite.count_scan_results in *. simpl.
    rewrite List.length_app. simpl. lia.
  - simpl. lia.
Qed.

Lemma inv_cancel (st : Scanner.state SQLite.Session) :
  scan_invariant scan_id p0 total db0 st -> scan_invariant scan_id p0 total db0 (Scanner.cancel scan_id st).
Proof.
  intros [(p & Hp & s & c & ->) [Hm Hpos]]. split; [|now split].
  eexists. split.
  - unfold Scanner.cancel, Progress.cancel_task. simpl. rewrite Hp. simpl.
    apply update_task_lookup. simpl. exact Hp.
  - simpl. eexists. eexists. reflexivity.
Qed.

Lemma inv_scan_file_db (config : Similarity.SimilarityConfig)
    (matrix : option Matrix) (ids : list Z) (commit_time : datetime)
    (f : Fs.File) (st : Scanner.state SQLite.Session) :
  scan_invariant scan_id p0 total db0 st ->
  scan_invariant scan_id p0 total db0 (Scanner.scan_file_db Matrix cosine_scores config matrix ids scan_id
         commit_time f st).
Proof.
  intros Hst. apply (inv_progress_file f) in Hst.
  unfold Scanner.scan_file_db.
  destruct (Fs.get_file_hash f) as [h|e]; [|exact Hst].
  cbv zeta.
  destruct (SQLite.first_by_hash _ h) as [m|];
    [now apply inv_progress_match|].
  destruct (Scanner.top_similarity_match _ _ _ _ _ f) as [[[i s] k]|];
    [now apply inv_progress_match|exact Hst].
Qed.

Lemma inv_loop (config : Similarity.SimilarityConfig)
    (matrix : option Matrix) (ids : list Z) (commit_time : datetime)
    (script : list Scanner.event) :
  forall st : Scanner.state SQLite.Session,
    scan_invariant scan_id p0 total db0 st ->
    scan_invariant scan_id p0 total db0 (Scanner.loop scan_id
           (fun f _ _ st =>
              Scanner.scan_file_db Matrix cosine_scores config matrix ids
                scan_id commit_time f st) script st).
Proof.
  unfold Scanner.loop.
  induction script as [|e es IH]; intros st Hst; [exact Hst|].
  destruct e as [f now uuid4|]; simpl; apply IH.
  - now apply inv_scan_file_db.
  - now apply inv_cancel.
Qed.

End ScanFinalProgress.

Section ScanFinalProgressClaim.

Variable fnmatch : string -> string -> bool.
Variable ignored : Ignore.IgnoredFilesConfig.
Variable Vec Matrix : Type.
Variable pickle_loads : bytes -> option Vec.
Variable vstack : list Vec -> result Matrix.
Variable cosine_scores :
  Z -> Z -> Z -> string -> Matrix -> result (list float).

Context {S : Type} `{StorageBackendInterface S}.

(** When a sequential scan of the relational store returns, its task
    shows the status ["completed"], the end time, no current file,
    [total_files] as the number of walked files that match no ignore
    pattern, and [matches_found] as the number of rows the scan stored
    (the field is left as it was when there is none); every other field,
    [files_processed] among them, is as it was when the scan started. *)
Theorem sequential_scan_final_progress
    (config : Similarity.SimilarityConfig) (script : list Scanner.event)
    (db db' : SQLite.Session) (storage storage' : S) (scan_id : string)
    (commit_time end_time : datetime) (ps0 ps' : Progress.ProgressStore)
    (p0 : Progress.TaskProgress) :
  Progress.get_task ps0 scan_id = Some p0 ->
  Scanner._scan_directory_sequential fnmatch ignored Vec Matrix pickle_loads
    vstack cosine_scores false config script db storage scan_id commit_time
    end_time ps0 = Ok (ps', db', storage') ->
  Progress.get_task ps' scan_id
  = Some (completed_scan p0
            (Scanner.count_files fnmatch ignored (Scanner.files_of script))
            (SQLite.count_scan_results db' - SQLite.count_scan_results db)
            end_time).
Proof.
  intros Hp0.
  unfold Scanner._scan_directory_sequential, Scanner.scan_relational,
    Progress.update_scan, Progress.get_task.
  destruct (Scanner.stack_vectors _ _ _ _ _) as [[matrix ids]|e];
    [|discriminate].
  cbn [mbind result_bind].
  set (total := Scanner.count_files fnmatch ignored (Scanner.files_of script)).
  match goal with
  | |- context [Scanner.loop _ _ _ ?st] =>
      pose proof (inv_loop Matrix cosine_scores scan_id p0 total db config
                    matrix ids commit_time script st) as Hinv
  end.
  intros [= <- <- _].
  destruct Hinv as [(p & Hp & s & c & ->) [Hm _]].
  - split; [|split; simpl; lia].
    eexists. split.
    + simpl. apply update_task_lookup.
      apply update_task_lookup. exact Hp0.
    + simpl. destruct p0. eexists. eexists. reflexivity.
  - rewrite (update_task_lookup _ _ _ _ Hp). simpl.
    unfold completed_scan. now rewrite Hm.
Qed.

End ScanFinalProgressClaim.

(** Three files scanned: three matches and no file left out of the count,
    yet [files_processed] still at zero. *)
Lemma sequential_scan_final_progress_witness :
  Progress.get_task
    (registry_of
       (demo_scan [Scanner.walk_file reworded 20 "u1";
                   Scanner.cancel_requested;
                   Scanner.walk_file near_copy 21 "u2";
                   Scanner.walk_file same_bytes 22 "u3"])) "scan-1"
  = Some (Progress.mkTaskProgress "scan-1" "scan" "completed" 3 0 3 0 "" 1
            (Some 60) None).
Proof.
  exact (sequential_scan_final_progress Fnmatch.fnmatch
           (Ignore.mkIgnoredFilesConfig []) unit unit (fun _ => Some tt)
           (fun _ => Ok tt) demo_cosine medium
           [Scanner.walk_file reworded 20 "u1";
            Scanner.cancel_requested;
            Scanner.walk_file near_copy 21 "u2";
            Scanner.walk_file same_bytes 22 "u3"]
           demo_index _ demo_index _ "scan-1" 50 60 demo_registry _
           (Progress.mkTaskProgress "scan-1" "scan" "pending" 0 0 0 0 "" 1
              None None) eq_refl eq_refl).
Defined.

(** With every text file ignored, the scan still stores the three rows. *)
Lemma sequential_scan_scans_ignored_files_witness :
  exists ps'',
    demo_scan_ignoring ["*.txt"] three_drafts
    = Ok (ps'', session_of (demo_scan three_drafts), demo_index).
Proof.
  apply (sequential_scan_scans_ignored_files Fnmatch.fnmatch unit unit
           (fun _ => Some tt) (fun _ => Ok tt) demo_cosine
           (Ignore.mkIgnoredFilesConfig [])
           (Ignore.mkIgnoredFilesConfig ["*.txt"]) medium three_drafts
           demo_index (session_of (demo_scan three_drafts)) demo_index
           demo_index "scan-1" 50 60 demo_registry
           (registry_of (demo_scan three_drafts))).
  vm_compute. reflexivity.
Defined.

Example ignored_files_are_scanned_but_not_counted :
  (fun p => (Progress.total_files p, Progress.matches_found p))
  <$> Progress.get_task
        (registry_of (demo_scan_ignoring ["*.txt"] three_drafts)) "scan-1"
  = Some (0, 3).
Proof. vm_compute. reflexivity. Qed.

(** The plan is indexed; its copy is then reported as an exact match. *)
Lemma indexed_file_is_matched_exactly_witness :
  exists r m,
    List.In r
      (SQLite.scan_results
         (session_of
            (Scanner._scan_directory_sequential Fnmatch.fnmatch
               (Ignore.mkIgnoredFilesConfig []) unit unit (fun _ => Some tt)
               (fun _ => Ok tt) demo_cosine false medium
               [Scanner.walk_file plan_copy 20 "u1"] index_with_plan
               demo_index "scan-1" 50 60 demo_registry)))
    /\ Models.scan_id r = "scan-1"
    /\ Models.file_path r = Fs.path plan_copy
    /\ Models.match_type r = Models.exact
    /\ Models.score r = (1 # 1)%Q
    /\ List.In m
         (SQLite.indexed_files
            (session_of
               (Scanner._scan_directory_sequential Fnmatch.fnmatch
                  (Ignore.mkIgnoredFilesConfig []) unit unit
                  (fun _ => Some tt) (fun _ => Ok tt) demo_cosine false
                  medium [Scanner.walk_file plan_copy 20 "u1"]
                  index_with_plan demo_index "scan-1" 50 60 demo_registry)))
    /\ Models.id m = Models.matched_file_id r
    /\ Fs.get_file_hash plan = Ok (Models.file_hash m).
Proof.
  apply (indexed_file_is_matched_exactly demo_vectorizer Fnmatch.fnmatch unit
           unit (fun _ => Some tt) (fun _ => Ok tt) demo_cosine
           (Ignore.mkIgnoredFilesConfig []) medium medium plan plan_copy
           demo_index index_with_plan _ 12
           [Scanner.walk_file plan_copy 20 "u1"] demo_index demo_index
           "scan-1" 50 60 demo_registry
           (registry_of
              (Scanner._scan_directory_sequential Fnmatch.fnmatch
                 (Ignore.mkIgnoredFilesConfig []) unit unit
                 (fun _ => Some tt) (fun _ => Ok tt) demo_cosine false medium
                 [Scanner.walk_file plan_copy 20 "u1"] index_with_plan
                 demo_index "scan-1" 50 60 demo_registry))).
  - vm_compute. reflexivity.
  - now left.
  - reflexivity.
  - vm_compute. reflexivity.
Defined.

(** ** Indexing a directory *)

Lemma cancel_task_keeps_flags (ps : Progress.ProgressStore) (tid t : string) :
  t ∈ Progress._cancelled ps ->
  t ∈ Progress._cancelled (Progress.cancel_task ps tid).2.
Proof.
  intros Ht. unfold Progress.cancel_task.
  destruct (Progress._tasks ps !! tid); [|exact Ht].
  simpl. rewrite update_task_cancelled. simpl.
  apply elem_of_union. now right.
Qed.

Section IndexRunFacts.

Variable hashing_vector : Similarity.SimilarityConfig -> string -> option bytes.
Variable fnmatch : string -> string -> bool.
Variable ignored : Ignore.IgnoredFilesConfig.

Context {S : Type} `{StorageBackendInterface S}.

Variable use_redis : bool.
Variable config : Similarity.SimilarityConfig.
Variable index_id : string.

(** Indexing one file reads nothing of the progress store. *)
Lemma index_file_same (f : Fs.File) (now : datetime) (uuid4 : string)
    (a b : Indexer.run S) :
  same_run index_id a b ->
  same_run index_id
    (Indexer.index_file hashing_vector use_redis config index_id f now uuid4 a)
    (Indexer.index_file hashing_vector use_redis config index_id f now uuid4 b).
Proof.
  intros (Hdb & Hst & Hfp & Hfi & Hfa & Hc & Hflags & Ha & Hb).
  unfold Indexer.index_file. rewrite Hdb, Hst, Hfp, Hfi, Hfa, Hc.
  destruct use_redis.
  - destruct (Indexer._index_single_file_with_storage _ _ _ _ _ _)
      as [[[] s']|e]; simpl.
    + repeat split; simpl; try reflexivity;
        [now rewrite !update_task_cancelled
        |now apply update_task_registered..].
    + now repeat split.
    + destruct e; now repeat split.
  - destruct (Indexer._index_single_file _ _ _ _ _) as [[[] d']|e]; simpl.
    + repeat split; simpl; try reflexivity;
        [now rewrite !update_task_cancelled
        |now apply update_task_registered..].
    + now repeat split.
    + destruct e; now repeat split.
Qed.

Lemma walk_step_same (f : Fs.File) (now : datetime) (uuid4 : string)
    (a b : Indexer.run S) :
  same_run index_id a b ->
  same_run index_id
    (Indexer.walk_step hashing_vector fnmatch ignored use_redis config
       index_id f now uuid4 a)
    (Indexer.walk_step hashing_vector fnmatch ignored use_redis config
       index_id f now uuid4 b).
Proof.
  intros Hab. pose proof Hab as (Hdb & Hst & Hfp & Hfi & Hfa & Hc & Hfl & Ha & Hb).
  unfold Indexer.walk_step, Progress.is_cancelled. rewrite <- Hc, <- Hfl.
  destruct (Indexer.cancelled a); [exact Hab|].
  destruct (Ignore.should_ignore _ _ _); [exact Hab|].
  destruct (bool_decide _).
  - now repeat split.
  - apply index_file_same. rewrite Hdb, Hst, Hfp, Hfi, Hfa.
    repeat split; simpl; try reflexivity; try (symmetry; exact Hc);
      [now rewrite !update_task_cancelled|now apply update_task_registered..].
Qed.

Lemma walk_same (script : list Scanner.event) :
  forall a b : Indexer.run S,
    same_run index_id a b ->
    same_run index_id
      (Indexer.walk hashing_vector fnmatch ignored use_redis config index_id
         script a)
      (Indexer.walk hashing_vector fnmatch ignored use_redis config index_id
         script b).
Proof.
  unfold Indexer.walk.
  induction script as [|e es IH]; intros a b Hab; [exact Hab|].
  simpl. apply IH. destruct e as [f now uuid4|].
  - now apply walk_step_same.
  - destruct Hab as (Hdb & Hst & Hfp & Hfi & Hfa & Hc & Hfl & Ha & Hb).
    repeat split; simpl; try assumption.
    + destruct Ha as [pa Ha], Hb as [pb Hb].
      unfold Progress.cancel_task. rewrite Ha, Hb. simpl.
      rewrite !update_task_cancelled. simpl. now rewrite Hfl.
    + now apply cancel_task_registered.
    + now apply cancel_task_registered.
Qed.

(** Once the flag of the run is up, the walk writes nothing more, and it
    is left at the first file that is not ignored. *)
Lemma walk_after_cancel (script : list Scanner.event) :
  forall st : Indexer.run S,
    index_id ∈ Progress._cancelled (Indexer.ps st) ->
    let st' := Indexer.walk hashing_vector fnmatch ignored use_redis config
                 index_id script st in
    Indexer.db st' = Indexer.db st
    /\ Indexer.storage st' = Indexer.storage st
    /\ Indexer.files_processed st' = Indexer.files_processed st
    /\ Indexer.files_indexed st' = Indexer.files_indexed st
    /\ Indexer.files_access_denied st' = Indexer.files_access_denied st
    /\ Indexer.cancelled st'
       = Indexer.cancelled st
         || List.existsb
              (fun f => negb (Ignore.should_ignore fnmatch ignored (Fs.name f)))
              (Scanner.files_of script).
Proof.
  unfold Indexer.walk.
  induction script as [|e es IH]; intros st Hflag.
  - simpl. now rewrite orb_false_r.
  - destruct e as [f now uuid4|]; simpl.
    + unfold Indexer.walk_step, Progress.is_cancelled.
      destruct (Indexer.cancelled st) eqn:Hc.
      * destruct (IH st Hflag) as (? & ? & ? & ? & ? & Hc').
        rewrite Hc in Hc'. now repeat split.
      * destruct (Ignore.should_ignore _ _ _) eqn:Hig.
        -- destruct (IH st Hflag) as (? & ? & ? & ? & ? & Hc').
           rewrite Hc in Hc'. now repeat split.
        -- rewrite bool_decide_eq_true_2 by exact Hflag.
           match goal with
           | |- context [fold_left _ es ?s] =>
               destruct (IH s Hflag) as (? & ? & ? & ? & ? & Hc')
           end.
           simpl in *. now repeat split.
    + match goal with
      | |- context [fold_left _ es ?s] =>
          destruct (IH s (cancel_task_keeps_flags _ _ _ Hflag))
            as (? & ? & ? & ? & ? & Hc')
      end.
      simpl in *. now repeat split.
Qed.

Lemma walk_app (a b : list Scanner.event) (st : Indexer.run S) :
  Indexer.walk hashing_vector fnmatch ignored use_redis config index_id
    (a ++ b) st
  = Indexer.walk hashing_vector fnmatch ignored use_redis config index_id b
      (Indexer.walk hashing_vector fnmatch ignored use_redis config index_id
         a st).
Proof. unfold Indexer.walk. apply List.fold_left_app. Qed.

Lemma walk_registered (script : list Scanner.event) :
  forall st : Indexer.run S,
    is_Some (Progress._tasks (Indexer.ps st) !! index_id) ->
    is_Some
      (Progress._tasks
         (Indexer.ps
            (Indexer.walk hashing_vector fnmatch ignored use_redis config
               index_id script st)) !! index_id).
Proof.
  intros st Hreg.
  assert (Hsame : same_run index_id st st) by now repeat split.
  now destruct (walk_same script st st Hsame) as (_ & _ & _ & _ & _ & _ & _ & ? & _).
Qed.

End IndexRunFacts.

Section IndexRunClaims.

Variable hashing_vector : Similarity.SimilarityConfig -> string -> option bytes.
Variable fnmatch : string -> string -> bool.
Variable ignored : Ignore.IgnoredFilesConfig.

Context {S : Type} `{StorageBackendInterface S}.

Variable use_redis : bool.
Variable config : Similarity.SimilarityConfig.
Variable index_id : string.

Lemma status_set (p : Progress.TaskProgress) (s c : string)
    (t : option datetime) :
  Progress.status
    (fold_left Progress.setattr
       [Progress.kw_status s; Progress.kw_completed_at t;
        Progress.kw_current_file c] p) = s.
Proof. destruct p. reflexivity. Qed.

(** The walk counts the files it indexes: at most those that are not
    ignored, and all of them unless it is left on a cancel request. *)
Lemma walk_counts (script : list Scanner.event) :
  forall st : Indexer.run S,
    let st' := Indexer.walk hashing_vector fnmatch ignored use_redis config
                 index_id script st in
    Indexer.files_processed st'
    <= Indexer.files_processed st
       + Indexer.count_files fnmatch ignored (Scanner.files_of script)
    /\ (Indexer.cancelled st' = false ->
        Indexer.files_processed st'
        = Indexer.files_processed st
          + Indexer.count_files fnmatch ignored (Scanner.files_of script)).
Proof.
  unfold Indexer.walk, Indexer.count_files.
  induction script as [|e es IH]; intros st; [simpl; split; lia|].
  destruct e as [f now uuid4|]; cbn [fold_left Scanner.files_of omap].
  2: { match goal with
       | |- context [fold_left _ es ?s] => specialize (IH s)
       end. exact IH. }
  match goal with
  | |- context [fold_left _ es ?s] => specialize (IH s); set (st1 := s) in *
  end.
  assert (Hstep :
            (Indexer.cancelled st1 = true
             /\ Indexer.files_processed st1 = Indexer.files_processed st)
            \/ (Indexer.files_processed st1
                = Indexer.files_processed st
                  + (if Ignore.should_ignore fnmatch ignored (Fs.name f)
                     then 0 else 1))).
  { subst st1. unfold Indexer.walk_step.
    destruct (Indexer.cancelled st) eqn:Hc; [left; now split|].
    destruct (Ignore.should_ignore _ _ _); [right; lia|].
    destruct (Progress.is_cancelled _ _); [left; now split|right].
    unfold Indexer.index_file. simpl.
    destruct use_redis.
    - destruct (Indexer._index_single_file_with_storage _ _ _ _ _ _)
        as [[[] s']|[]]; reflexivity.
    - destruct (Indexer._index_single_file _ _ _ _ _) as [[[] d']|[]];
        reflexivity. }
  assert (Hcancel : Indexer.cancelled st1 = true ->
                    Indexer.cancelled
                      (fold_left
                         (fun st e =>
                            match e with
                            | Scanner.walk_file f now uuid4 =>
                                Indexer.walk_step hashing_vector fnmatch
                                  ignored use_redis config index_id f now
                                  uuid4 st
                            | Scanner.cancel_requested =>
                                Indexer.mkRun
                                  (Progress.cancel_task (Indexer.ps st)
                                     index_id).2
                                  (Indexer.db st) (Indexer.storage st)
                                  (Indexer.files_processed st)
                                  (Indexer.files_indexed st)
                                  (Indexer.files_access_denied st)
                                  (Indexer.cancelled st)
                            end) es st1) = true).
  { clear. generalize st1. induction es as [|e es IHes]; intros s Hs;
      [exact Hs|].
    simpl. apply IHes. destruct e; [|exact Hs].
    unfold Indexer.walk_step. now rewrite Hs. }
  simpl in IH. simpl.
  destruct (Ignore.should_ignore fnmatch ignored (Fs.name f)); simpl;
    destruct IH as [IH1 IH2]; destruct Hstep as [[Hc Hp]|Hp];
    (split; [lia|intros Hfin]);
    try (rewrite (Hcancel Hc) in Hfin; discriminate);
    specialize (IH2 Hfin); lia.
Qed.

Lemma index_file_invariant (p0 : Progress.TaskProgress) (total : Z)
    (f : Fs.File) (now : datetime) (uuid4 : string) (st : Indexer.run S)
    (left_early : bool) :
  index_invariant index_id p0 total st ->
  let st1 :=
    Indexer.mkRun
      (Progress.update_task (Indexer.ps st) index_id
         [Progress.kw_files_processed (Indexer.files_processed st + 1);
          Progress.kw_current_file (Fs.path f)]).2
      (Indexer.db st) (Indexer.storage st) (Indexer.files_processed st + 1)
      (Indexer.files_indexed st) (Indexer.files_access_denied st)
      left_early in
  index_invariant index_id p0 total
    (Indexer.index_file hashing_vector use_redis config index_id f now uuid4
       st1).
Proof.
  intros ((s & c & Hp) & Hi & Ha & Hle) st1.
  assert (Hpos : 0 <= Indexer.files_processed st) by lia.
  assert (H1 : index_invariant index_id p0 total st1).
  { split; [|simpl; lia]. subst st1. simpl.
    rewrite (update_task_lookup _ _ _ _ Hp). simpl.
    destruct (Z.eqb_spec (Indexer.files_processed st + 1) 0); [lia|].
    eauto. }
  destruct H1 as ((s1 & c1 & Hp1) & _).
  assert (Hwritten : forall (d' : SQLite.Session) (s' : S),
             index_invariant index_id p0 total
               (Indexer.mkRun
                  (Progress.update_task (Indexer.ps st1) index_id
                     [Progress.kw_files_indexed
                        (Indexer.files_indexed st1 + 1)]).2
                  d' s' (Indexer.files_processed st1)
                  (Indexer.files_indexed st1 + 1)
                  (Indexer.files_access_denied st1) (Indexer.cancelled st1))).
  { intros d' s'. split; [|subst st1; simpl; lia]. simpl.
    rewrite (update_task_lookup _ _ _ _ Hp1). subst st1. simpl.
    destruct (Z.eqb_spec (Indexer.files_indexed st + 1) 0); [lia|].
    eauto. }
  assert (Hkept : forall (d' : SQLite.Session) (s' : S),
             index_invariant index_id p0 total
               (Indexer.mkRun (Indexer.ps st1) d' s'
                  (Indexer.files_processed st1) (Indexer.files_indexed st1)
                  (Indexer.files_access_denied st1) (Indexer.cancelled st1))).
  { intros d' s'. split; [eauto|subst st1; simpl; lia]. }
  assert (Hdenied :
             index_invariant index_id p0 total
               (Indexer.mkRun (Indexer.ps st1) (Indexer.db st1)
                  (Indexer.storage st1) (Indexer.files_processed st1)
                  (Indexer.files_indexed st1)
                  (Indexer.files_access_denied st1 + 1)
                  (Indexer.cancelled st1))).
  { split; [eauto|subst st1; simpl; lia]. }
  assert (Hsame : index_invariant index_id p0 total st1).
  { split; [eauto|subst st1; simpl; lia]. }
  unfold Indexer.index_file. destruct use_redis.
  - destruct (Indexer._index_single_file_with_storage _ _ _ _ _ _)
      as [[[] s']|[]]; auto.
  - destruct (Indexer._index_single_file _ _ _ _ _) as [[[] d']|[]]; auto.
Qed.

Lemma walk_invariant (p0 : Progress.TaskProgress) (total : Z)
    (script : list Scanner.event) :
  forall st : Indexer.run S,
    index_invariant index_id p0 total st ->
    index_invariant index_id p0 total
      (Indexer.walk hashing_vector fnmatch ignored use_redis config index_id
         script st).
Proof.
  unfold Indexer.walk.
  induction script as [|e es IH]; intros st Hst; [exact Hst|].
  simpl. apply IH. destruct e as [f now uuid4|].
  - unfold Indexer.walk_step.
    destruct (Indexer.cancelled st); [exact Hst|].
    destruct (Ignore.should_ignore _ _ _); [exact Hst|].
    destruct (Progress.is_cancelled _ _).
    + destruct Hst as (Hp & Hrest). split; [exact Hp|exact Hrest].
    + now apply index_file_invariant.
  - destruct Hst as ((s & c & Hp) & Hrest). split; [|exact Hrest].
    simpl. unfold Progress.cancel_task. rewrite Hp. simpl.
    erewrite update_task_lookup by (simpl; exact Hp). simpl. eauto.
Qed.

(** A cancel request stops the indexing run: whatever follows the request
    in the walk, the storage and the counters end as if the walk had ended
    where the request came in, the flag is taken down when the run ends,
    and the status is ["cancelled"] if the run was left early, that is if
    it was cancelled before or a file that is not ignored followed the
    request; it is ["completed"] otherwise. *)
Theorem index_run_stops_at_cancel (pre post : list Scanner.event)
    (db0 : SQLite.Session) (storage0 : S)
    (ops : list IndexOperations.IndexOperation)
    (end_time op_end_time : datetime) (ps0 : Progress.ProgressStore) :
  is_Some (Progress.get_task ps0 index_id) ->
  let r := (Indexer._index_directory_sequential hashing_vector fnmatch
              ignored use_redis config
              (pre ++ Scanner.cancel_requested :: post) db0 storage0 ops
              index_id end_time op_end_time ps0).1 in
  let r0 := (Indexer._index_directory_sequential hashing_vector fnmatch
               ignored use_redis config pre db0 storage0 ops index_id
               end_time op_end_time ps0).1 in
  Indexer.db r = Indexer.db r0
  /\ Indexer.storage r = Indexer.storage r0
  /\ Indexer.files_processed r = Indexer.files_processed r0
  /\ Indexer.files_indexed r = Indexer.files_indexed r0
  /\ Indexer.cancelled r
     = Indexer.cancelled r0
       || List.existsb
            (fun f => negb (Ignore.should_ignore fnmatch ignored (Fs.name f)))
            (Scanner.files_of post)
  /\ Progress.is_cancelled (Indexer.ps r) index_id = false
  /\ Progress.status <$> Progress.get_task (Indexer.ps r) index_id
     = Some (if Indexer.cancelled r then "cancelled" else "completed").
Proof.
  intros Hreg r r0. subst r r0.
  unfold Indexer._index_directory_sequential. cbn [fst].
  cbn [Indexer.db Indexer.storage Indexer.files_processed
         Indexer.files_indexed Indexer.cancelled Indexer.ps].
  rewrite walk_app.
  match goal with
  | |- context [Indexer.walk _ _ _ _ _ _ pre ?a] =>
      match goal with
      | |- context [Indexer.walk _ _ _ _ _ _ pre ?b] =>
          lazymatch a with
          | b => fail
          | _ => set (sa := a); set (sb := b)
          end
      end
  end.
  assert (Hsame : same_run index_id sa sb).
  { subst sa sb. repeat split; simpl;
      try (rewrite !update_task_cancelled; reflexivity);
      do 2 apply update_task_registered; exact Hreg. }
  apply (walk_same hashing_vector fnmatch ignored use_redis config index_id
           pre) in Hsame.
  set (wa := Indexer.walk _ _ _ _ _ _ pre sa) in *.
  set (wb := Indexer.walk _ _ _ _ _ _ pre sb) in *.
  destruct Hsame as (Hdb & Hst & Hfp & Hfi & Hfa & Hc & Hfl & Ha & Hb).
  assert (Hw : Indexer.walk hashing_vector fnmatch ignored use_redis config
                 index_id (Scanner.cancel_requested :: post) wa
               = Indexer.walk hashing_vector fnmatch ignored use_redis config
                   index_id post
                   (Indexer.mkRun
                      (Progress.cancel_task (Indexer.ps wa) index_id).2
                      (Indexer.db wa) (Indexer.storage wa)
                      (Indexer.files_processed wa) (Indexer.files_indexed wa)
                      (Indexer.files_access_denied wa) (Indexer.cancelled wa)))
    by reflexivity.
  rewrite Hw. clear Hw.
  match goal with
  | |- context [Indexer.walk _ _ _ _ _ _ post ?s] => set (sc := s)
  end.
  assert (Hflag : index_id ∈ Progress._cancelled (Indexer.ps sc)).
  { subst sc. simpl. now apply cancel_task_registered. }
  assert (Hregc : is_Some (Progress._tasks (Indexer.ps sc) !! index_id)).
  { subst sc. simpl. now apply cancel_task_registered. }
  pose proof (walk_after_cancel hashing_vector fnmatch ignored use_redis
                config index_id post sc Hflag) as Hafter.
  pose proof (walk_registered hashing_vector fnmatch ignored use_redis config
                index_id post sc Hregc) as Hregw.
  cbv zeta in Hafter.
  set (wc := Indexer.walk _ _ _ _ _ _ post sc) in *.
  destruct Hafter as (Hd & Hs & Hp & Hi & _ & Hcc).
  subst sc. simpl in Hd, Hs, Hp, Hi, Hcc.
  split; [congruence|]. split; [congruence|]. split; [congruence|].
  split; [congruence|]. split; [now rewrite Hcc, Hc|]. split.
  - unfold Progress.is_cancelled, Progress.clear_cancelled. simpl.
    apply bool_decide_eq_false. intros Hin.
    apply elem_of_difference in Hin as [_ Hin]. apply Hin.
    now apply elem_of_singleton.
  - unfold Progress.get_task, Progress.clear_cancelled. simpl.
    destruct Hregw as [p Hp'].
    rewrite (update_task_lookup _ _ _ _ Hp'). simpl.
    now destruct p.
Qed.

(** What an indexing run shows when it has ended: the task carries the
    final status, the end time, no current file, the number of files that
    are not ignored as [total_files], and the counters of the run (each
    left as it was while it is zero). The files indexed and those refused
    are among the files processed, which are at most [total_files] and
    exactly that many unless the run was cancelled. The cancel flag is
    down. *)
Theorem index_run_final_progress (script : list Scanner.event)
    (db0 : SQLite.Session) (storage0 : S)
    (ops : list IndexOperations.IndexOperation)
    (end_time op_end_time : datetime) (ps0 : Progress.ProgressStore)
    (p0 : Progress.TaskProgress) :
  Progress.get_task ps0 index_id = Some p0 ->
  let r := (Indexer._index_directory_sequential hashing_vector fnmatch
              ignored use_redis config script db0 storage0 ops index_id
              end_time op_end_time ps0).1 in
  let total := Indexer.count_files fnmatch ignored (Scanner.files_of script) in
  Progress.get_task (Indexer.ps r) index_id
  = Some (finished_index p0 total (Indexer.files_processed r)
            (Indexer.files_indexed r) (Indexer.cancelled r) end_time)
  /\ 0 <= Indexer.files_indexed r
  /\ Indexer.files_indexed r + Indexer.files_access_denied r
     <= Indexer.files_processed r
  /\ Indexer.files_processed r <= total
  /\ (Indexer.cancelled r = false -> Indexer.files_processed r = total)
  /\ Progress.is_cancelled (Indexer.ps r) index_id = false.
Proof.
  intros Hp0 r total. subst r.
  unfold Indexer._index_directory_sequential. cbn [fst].
  cbn [Indexer.db Indexer.storage Indexer.files_processed
         Indexer.files_indexed Indexer.files_access_denied Indexer.cancelled
         Indexer.ps].
  fold total.
  match goal with
  | |- context [Indexer.walk _ _ _ _ _ _ script ?s] => set (s0 := s)
  end.
  assert (Hinv0 : index_invariant index_id p0 total s0).
  { subst s0. split; [|simpl; lia]. simpl.
    rewrite (update_task_lookup _ index_id _
               (Progress.setattr p0 (Progress.kw_status "counting"))).
    - destruct p0. simpl. eauto.
    - exact (update_task_lookup ps0 index_id [Progress.kw_status "counting"]
               p0 Hp0). }
  pose proof (walk_invariant p0 total script s0 Hinv0) as Hinv.
  pose proof (walk_counts script s0) as Hcount. cbv zeta in Hcount.
  fold total in Hcount.
  set (w := Indexer.walk _ _ _ _ _ _ script s0) in *.
  destruct Hinv as ((s & c & Hp) & Hi & Ha & Hle).
  destruct Hcount as [Hc1 Hc2]. subst s0. simpl in Hc1, Hc2.
  split; [|repeat split; try lia; try (intros Hn; specialize (Hc2 Hn); lia)].
  - unfold Progress.get_task, Progress.clear_cancelled. simpl.
    rewrite (update_task_lookup _ _ _ _ Hp). reflexivity.
  - unfold Progress.is_cancelled, Progress.clear_cancelled. simpl.
    apply bool_decide_eq_false. intros Hin.
    apply elem_of_difference in Hin as [_ Hin]. apply Hin.
    now apply elem_of_singleton.
Qed.

End IndexRunClaims.

(** ** Indexing a directory: what ends up in the index *)

Lemma find_update_row (rows : list Models.IndexedFile)
    (e' : Models.IndexedFile) (p : string) :
  (forall m, List.In m rows -> Models.id m = Models.id e' ->
             Models.path m <> p) ->
  Models.path e' <> p ->
  List.find (fun m => String.eqb (Models.path m) p) (SQLite.update_row e' rows)
  = List.find (fun m => String.eqb (Models.path m) p) rows.
Proof.
  intros Hrows He'. induction rows as [|x xs IH]; [reflexivity|].
  assert (IH' : List.find (fun m => String.eqb (Models.path m) p)
                  (SQLite.update_row e' xs)
                = List.find (fun m => String.eqb (Models.path m) p) xs).
  { apply IH. intros m Hm. apply Hrows. now right. }
  simpl. destruct (Z.eqb_spec (Models.id x) (Models.id e')) as [E|_].
  - destruct (String.eqb_spec (Models.path e') p) as [|_]; [contradiction|].
    destruct (String.eqb_spec (Models.path x) p) as [Hx|_]; [|exact IH'].
    exfalso. exact (Hrows x (or_introl eq_refl) E Hx).
  - destruct (String.eqb (Models.path x) p); [reflexivity|exact IH'].
Qed.

Lemma find_app_miss {A : Type} (P : A -> bool) (l : list A) (x : A) :
  P x = false -> List.find P (l ++ [x]) = List.find P l.
Proof.
  intros Hx. induction l as [|y ys IH]; simpl; [now rewrite Hx|].
  destruct (P y); [reflexivity|exact IH].
Qed.

(** An upsert leaves the rows of the other paths as they were. *)
Lemma upsert_other_path (db : SQLite.Session) (p p' f h : string)
    (v : option bytes) (m : float) (now : datetime) :
  schema_ok db -> p' <> p ->
  SQLite.first_by_path (SQLite.add_or_update_indexed_file db p f h v m now).2 p'
  = SQLite.first_by_path db p'.
Proof.
  intros [Hid _] Hne.
  unfold SQLite.add_or_update_indexed_file, SQLite.first_by_path.
  destruct (List.find _ (SQLite.indexed_files db)) as [e|] eqn:Hf; simpl.
  - pose proof Hf as He. apply List.find_some in He as [He Hp].
    apply String.eqb_eq in Hp.
    apply find_update_row; simpl; [|congruence].
    intros x Hx E.
    assert (x = e); [|congruence].
    pose proof (first_by_id_In _ x Hid Hx) as Hfx. rewrite E in Hfx.
    rewrite (first_by_id_In _ e Hid He) in Hfx. congruence.
  - apply find_app_miss. simpl.
    destruct (String.eqb_spec p p'); [congruence|reflexivity].
Qed.

Section IndexedRows.

Variable hashing_vector : Similarity.SimilarityConfig -> string -> option bytes.
Variable config : Similarity.SimilarityConfig.

(** Indexing a file keeps the schema and the rows of the other paths. *)
Lemma index_single_file_frame (f : Fs.File) (db db' : SQLite.Session)
    (now : datetime) (b : bool) (p : string) :
  schema_ok db ->
  Indexer._index_single_file hashing_vector config f db now = Ok (b, db') ->
  schema_ok db'
  /\ (p <> Fs.path f -> SQLite.first_by_path db' p = SQLite.first_by_path db p).
Proof.
  intros Hok Hrun.
  destruct (Fs.st_mtime f) as [mtime|e] eqn:Hstat.
  2: { unfold Indexer._index_single_file, Indexer.stat in Hrun.
       rewrite Hstat in Hrun. destruct e; discriminate. }
  pose proof (skip_test hashing_vector config f db mtime) as Htest.
  destruct (match SQLite.first_by_path db (Fs.path f) with
            | Some _ => _ | None => _ end) eqn:Hskip.
  - unfold Indexer._index_single_file, Indexer.stat in Hrun.
    rewrite Hstat in Hrun. simpl in Hrun. rewrite Hskip in Hrun.
    injection Hrun as _ <-. now split.
  - rewrite (index_writes_upsert hashing_vector config f db now mtime Hstat)
      in Hrun.
    + destruct (Fs.get_file_hash f) as [h|e]; [|discriminate].
      simpl in Hrun. injection Hrun as _ <-. unfold written. split.
      * now apply upsert_schema_ok.
      * intros Hne. now apply upsert_other_path.
    + intros Hun. apply Htest in Hun. discriminate.
Qed.

(** A file whose mtime and digest can be read is indexed or skipped, and
    either way the index then has a row for it with its mtime. *)
Lemma index_single_file_row (f : Fs.File) (db : SQLite.Session)
    (now : datetime) (mtime : float) (h : string) :
  schema_ok db ->
  Fs.st_mtime f = Ok mtime ->
  Fs.get_file_hash f = Ok h ->
  exists b db' row,
    Indexer._index_single_file hashing_vector config f db now = Ok (b, db')
    /\ SQLite.first_by_path db' (Fs.path f) = Some row
    /\ (Models.last_modified row == mtime)%Q.
Proof.
  intros Hok Hstat Hhash.
  pose proof (skip_test hashing_vector config f db mtime) as Htest.
  destruct (match SQLite.first_by_path db (Fs.path f) with
            | Some _ => _ | None => _ end) eqn:Hskip.
  - destruct (proj1 Htest eq_refl) as (e & He & Hm & _).
    exists false, db, e. split; [|now split].
    unfold Indexer._index_single_file, Indexer.stat.
    rewrite Hstat. simpl. now rewrite Hskip.
  - destruct (upsert_lookup db (Fs.path f) (Py.basename (Fs.path f)) h
                (vector_blob hashing_vector config f) mtime now Hok)
      as (row & Hrow & _ & _ & _ & Hm & _).
    exists true, (written hashing_vector config f mtime h now db), row.
    split; [|split; [exact Hrow|now rewrite Hm]].
    rewrite (index_writes_upsert hashing_vector config f db now mtime Hstat).
    + now rewrite Hhash.
    + intros Hun. apply Htest in Hun. discriminate.
Qed.

Variable fnmatch : string -> string -> bool.
Variable ignored : Ignore.IgnoredFilesConfig.
Variable index_id : string.

Context {S : Type} `{StorageBackendInterface S}.

Lemma walk_step_frame (f : Fs.File) (now : datetime) (uuid4 : string)
    (st : Indexer.run S) (p : string) :
  schema_ok (Indexer.db st) ->
  let st' := Indexer.walk_step hashing_vector fnmatch ignored false config
               index_id f now uuid4 st in
  schema_ok (Indexer.db st')
  /\ (p <> Fs.path f ->
      SQLite.first_by_path (Indexer.db st') p
      = SQLite.first_by_path (Indexer.db st) p)
  /\ Progress._cancelled (Indexer.ps st') = Progress._cancelled (Indexer.ps st).
Proof.
  intros Hok st'. subst st'. unfold Indexer.walk_step.
  assert (Hsame : schema_ok (Indexer.db st)
                  /\ (p <> Fs.path f ->
                      SQLite.first_by_path (Indexer.db st) p
                      = SQLite.first_by_path (Indexer.db st) p)
                  /\ Progress._cancelled (Indexer.ps st)
                     = Progress._cancelled (Indexer.ps st))
    by (split; [exact Hok|split; [intros _|]; reflexivity]).
  destruct (Indexer.cancelled st); [exact Hsame|].
  destruct (Ignore.should_ignore _ _ _); [exact Hsame|].
  destruct (Progress.is_cancelled _ _); [exact Hsame|].
  unfold Indexer.index_file. cbn [Indexer.db Indexer.ps].
  destruct (Indexer._index_single_file _ _ _ _ _) as [[b d']|e] eqn:Hrun.
  - destruct (index_single_file_frame f _ d' now b p Hok Hrun) as [Hs Hf].
    destruct b; simpl; (split; [exact Hs|split; [exact Hf|]]);
      now rewrite !update_task_cancelled.
  - destruct e; simpl; (split; [exact Hok|split; [intros _; reflexivity|]]);
      now rewrite !update_task_cancelled.
Qed.

Lemma walk_frame (script : list Scanner.event) (p : string) :
  forall st : Indexer.run S,
    schema_ok (Indexer.db st) ->
    ~ List.In p (List.map Fs.path (Scanner.files_of script)) ->
    let st' := Indexer.walk hashing_vector fnmatch ignored false config
                 index_id script st in
    schema_ok (Indexer.db st')
    /\ SQLite.first_by_path (Indexer.db st') p
       = SQLite.first_by_path (Indexer.db st) p.
Proof.
  unfold Indexer.walk.
  induction script as [|e es IH]; intros st Hok Hp; [now split|].
  destruct e as [f now uuid4|]; simpl.
  - simpl in Hp.
    destruct (walk_step_frame f now uuid4 st p Hok) as (Hs & Hf & _).
    match goal with
    | |- context [fold_left _ es ?s] =>
        destruct (IH s Hs) as [Hs' Hf']; [tauto|]
    end.
    split; [exact Hs'|]. rewrite Hf'. apply Hf. intros ->. tauto.
  - match goal with
    | |- context [fold_left _ es ?s] => exact (IH s Hok Hp)
    end.
Qed.

(** After a run that is not cancelled, every walked file that is not
    ignored and whose mtime and digest can be read has a row in the index
    that carries its current mtime, whatever happened to the other files
    (each path being walked once). *)
Theorem index_run_postcondition (script : list Scanner.event)
    (db0 : SQLite.Session) (storage0 : S)
    (ops : list IndexOperations.IndexOperation)
    (end_time op_end_time : datetime) (ps0 : Progress.ProgressStore)
    (f : Fs.File) (mtime : float) (h : string) :
  schema_ok db0 ->
  Progress.is_cancelled ps0 index_id = false ->
  without_cancel script = script ->
  List.NoDup (List.map Fs.path (Scanner.files_of script)) ->
  List.In f (Scanner.files_of script) ->
  Ignore.should_ignore fnmatch ignored (Fs.name f) = false ->
  Fs.st_mtime f = Ok mtime ->
  Fs.get_file_hash f = Ok h ->
  let r := (Indexer._index_directory_sequential hashing_vector fnmatch
              ignored false config script db0 storage0 ops index_id end_time
              op_end_time ps0).1 in
  exists row,
    SQLite.first_by_path (Indexer.db r) (Fs.path f) = Some row
    /\ (Models.last_modified row == mtime)%Q.
Proof.
  intros Hok Hflag Hnc Hnd Hin Hig Hstat Hhash r. subst r.
  unfold Indexer._index_directory_sequential. cbn [fst Indexer.db].
  match goal with
  | |- context [Indexer.walk _ _ _ _ _ _ script ?s] => set (s0 := s)
  end.
  assert (H0 : schema_ok (Indexer.db s0)
               /\ Indexer.cancelled s0 = false
               /\ index_id ∉ Progress._cancelled (Indexer.ps s0)).
  { subst s0. simpl. split; [exact Hok|]. split; [reflexivity|].
    rewrite !update_task_cancelled.
    unfold Progress.is_cancelled in Hflag.
    now apply bool_decide_eq_false in Hflag. }
  clearbody s0. clear Hok Hflag. revert s0 H0 Hnc Hnd Hin.
  unfold Indexer.walk.
  induction script as [|e es IH]; intros st (Hok & Hc & Hflag) Hnc Hnd Hin;
    [destruct Hin|].
  destruct e as [g now uuid4|].
  2: { exfalso.
       assert (Hhead : List.In Scanner.cancel_requested (without_cancel es))
         by (simpl in Hnc; rewrite Hnc; now left).
       apply List.filter_In in Hhead as [_ Hhead]. discriminate. }
  simpl in Hnc. injection Hnc as Hnc.
  change (Scanner.files_of (Scanner.walk_file g now uuid4 :: es))
    with (g :: Scanner.files_of es) in Hnd, Hin.
  cbn [List.map] in Hnd.
  apply List.NoDup_cons_iff in Hnd as [Hg Hnd].
  cbn [fold_left].
  destruct (walk_step_frame g now uuid4 st (Fs.path f) Hok)
    as (Hs & Hf & Hfl).
  assert (Hc' : Indexer.cancelled
                  (Indexer.walk_step hashing_vector fnmatch ignored false
                     config index_id g now uuid4 st) = false).
  { unfold Indexer.walk_step. rewrite Hc.
    destruct (Ignore.should_ignore fnmatch ignored (Fs.name g));
      [exact Hc|].
    unfold Progress.is_cancelled.
    rewrite bool_decide_eq_false_2 by exact Hflag.
    unfold Indexer.index_file. cbn [Indexer.db Indexer.ps].
    destruct (Indexer._index_single_file _ _ _ _ _) as [[[] d']|[]];
      reflexivity. }
  destruct Hin as [->|Hin].
  - (* the file itself: it is written or skipped here, and kept after *)
    destruct (index_single_file_row f (Indexer.db st) now mtime h Hok Hstat
                Hhash) as (b & d' & row & Hrun & Hrow & Hm).
    assert (Hstep : Indexer.db
                      (Indexer.walk_step hashing_vector fnmatch ignored false
                         config index_id f now uuid4 st) = d').
    { unfold Indexer.walk_step. rewrite Hc, Hig.
      unfold Progress.is_cancelled.
      rewrite bool_decide_eq_false_2 by exact Hflag.
      unfold Indexer.index_file. cbn [Indexer.db Indexer.ps].
      rewrite Hrun. now destruct b. }
    destruct (walk_frame es (Fs.path f) _ Hs Hg) as [_ Hkeep].
    unfold Indexer.walk in Hkeep. exists row. rewrite Hkeep, Hstep.
    now split.
  - apply IH; [|exact Hnc|exact Hnd|exact Hin].
    split; [exact Hs|]. split; [exact Hc'|]. rewrite Hfl. exact Hflag.
Qed.

End IndexedRows.

Section IndexRunEquivalences.

Variable hashing_vector : Similarity.SimilarityConfig -> string -> option bytes.
Variable fnmatch : string -> string -> bool.
Variable ignored : Ignore.IgnoredFilesConfig.

Context {S : Type} `{StorageBackendInterface S}.

Variable use_redis : bool.
Variable config : Similarity.SimilarityConfig.
Variable index_id : string.

Lemma count_files_not_ignored (script : list Scanner.event) :
  Indexer.count_files fnmatch ignored
    (Scanner.files_of (List.filter (not_ignored fnmatch ignored) script))
  = Indexer.count_files fnmatch ignored (Scanner.files_of script).
Proof.
  unfold Indexer.count_files. f_equal. f_equal.
  induction script as [|e es IH]; [reflexivity|].
  destruct e as [f now uuid4|]; [|exact IH].
  cbn [List.filter not_ignored].
  change (Scanner.files_of (Scanner.walk_file f now uuid4 :: es))
    with (f :: Scanner.files_of es).
  destruct (Ignore.should_ignore fnmatch ignored (Fs.name f)) eqn:Hig;
    cbn [negb].
  - cbn [List.filter]. rewrite Hig. exact IH.
  - change (Scanner.files_of
              (Scanner.walk_file f now uuid4
               :: List.filter (not_ignored fnmatch ignored) es))
      with (f :: Scanner.files_of
                   (List.filter (not_ignored fnmatch ignored) es)).
    cbn [List.filter]. rewrite Hig. cbn [negb]. now rewrite IH.
Qed.

Lemma walk_not_ignored (script : list Scanner.event) :
  forall st : Indexer.run S,
    Indexer.walk hashing_vector fnmatch ignored use_redis config index_id
      (List.filter (not_ignored fnmatch ignored) script) st
    = Indexer.walk hashing_vector fnmatch ignored use_redis config index_id
        script st.
Proof.
  unfold Indexer.walk.
  induction script as [|e es IH]; intros st; [reflexivity|].
  destruct e as [f now uuid4|]; cbn [List.filter not_ignored].
  - destruct (Ignore.should_ignore fnmatch ignored (Fs.name f)) eqn:Hig;
      cbn [negb fold_left].
    + rewrite IH. f_equal. unfold Indexer.walk_step. rewrite Hig.
      now destruct (Indexer.cancelled st).
    + apply IH.
  - cbn [fold_left]. apply IH.
Qed.

(** An ignored file leaves no trace of any kind in an indexing run: the
    run over a walk is the run over the walk without its ignored files,
    in the index, in the counters, in the progress store and in the table
    of operations. *)
Theorem index_run_passes_over_ignored_files (script : list Scanner.event)
    (db0 : SQLite.Session) (storage0 : S)
    (ops : list IndexOperations.IndexOperation)
    (end_time op_end_time : datetime) (ps0 : Progress.ProgressStore) :
  Indexer._index_directory_sequential hashing_vector fnmatch ignored use_redis
    config script db0 storage0 ops index_id end_time op_end_time ps0
  = Indexer._index_directory_sequential hashing_vector fnmatch ignored
      use_redis config (List.filter (not_ignored fnmatch ignored) script) db0
      storage0 ops index_id end_time op_end_time ps0.
Proof.
  unfold Indexer._index_directory_sequential.
  now rewrite count_files_not_ignored, walk_not_ignored.
Qed.

Lemma index_directory_walk (script : list Scanner.event) :
  forall st : Indexer.run S,
    Indexer.cancelled st = false ->
    index_id ∉ Progress._cancelled (Indexer.ps st) ->
    let w := Indexer.walk hashing_vector fnmatch ignored use_redis config
               index_id (without_cancel script) st in
    fold_left
      (fun '(db, storage) e =>
         match e with
         | Scanner.walk_file f now uuid4 =>
             if Ignore.should_ignore fnmatch ignored (Fs.name f)
             then (db, storage)
             else if use_redis
                  then match Indexer._index_single_file_with_storage
                               hashing_vector config f storage now uuid4 with
                       | Ok (_, storage') => (db, storage')
                       | Raise _ => (db, storage)
                       end
                  else match Indexer._index_single_file hashing_vector config
                               f db now with
                       | Ok (_, db') => (db', storage)
                       | Raise _ => (db, storage)
                       end
         | Scanner.cancel_requested => (db, storage)
         end) script (Indexer.db st, Indexer.storage st)
    = (Indexer.db w, Indexer.storage w).
Proof.
  unfold Indexer.walk.
  induction script as [|e es IH]; intros st Hc Hflag; [reflexivity|].
  destruct e as [f now uuid4|]; cbn [without_cancel List.filter fold_left].
  2: { exact (IH st Hc Hflag). }
  fold (without_cancel es).
  set (st1 := Indexer.walk_step hashing_vector fnmatch ignored use_redis
                config index_id f now uuid4 st).
  assert (Hst1 : Indexer.cancelled st1 = false
                 /\ (index_id ∉ Progress._cancelled (Indexer.ps st1))
                 /\ (Indexer.db st1, Indexer.storage st1)
                    = (if Ignore.should_ignore fnmatch ignored (Fs.name f)
                       then (Indexer.db st, Indexer.storage st)
                       else if use_redis
                            then match Indexer._index_single_file_with_storage
                                         hashing_vector config f
                                         (Indexer.storage st) now uuid4 with
                                 | Ok (_, storage') =>
                                     (Indexer.db st, storage')
                                 | Raise _ =>
                                     (Indexer.db st, Indexer.storage st)
                                 end
                            else match Indexer._index_single_file
                                         hashing_vector config f
                                         (Indexer.db st) now with
                                 | Ok (_, db') => (db', Indexer.storage st)
                                 | Raise _ =>
                                     (Indexer.db st, Indexer.storage st)
                                 end)).
  { subst st1. unfold Indexer.walk_step. rewrite Hc.
    destruct (Ignore.should_ignore fnmatch ignored (Fs.name f));
      [now repeat split|].
    unfold Progress.is_cancelled.
    rewrite bool_decide_eq_false_2 by exact Hflag.
    unfold Indexer.index_file.
    cbn [Indexer.db Indexer.storage Indexer.ps Indexer.cancelled].
    destruct use_redis.
    - destruct (Indexer._index_single_file_with_storage _ _ _ _ _ _)
        as [[[] s']|[]]; cbn [Indexer.db Indexer.storage Indexer.ps
                                Indexer.cancelled];
        rewrite ?update_task_cancelled; now repeat split.
    - destruct (Indexer._index_single_file _ _ _ _ _) as [[[] d']|[]];
        cbn [Indexer.db Indexer.storage Indexer.ps Indexer.cancelled];
        rewrite ?update_task_cancelled; now repeat split. }
  destruct Hst1 as (Hc1 & Hf1 & Hdata). rewrite <- Hdata.
  exact (IH st1 Hc1 Hf1).
Qed.

(** [index_directory], the entry point without progress tracking, writes
    what [_index_directory_sequential] writes when no cancel request is
    made: the two leave the same session and the same storage. *)
Theorem index_directory_agrees_with_run (script : list Scanner.event)
    (db0 : SQLite.Session) (storage0 : S)
    (ops : list IndexOperations.IndexOperation)
    (end_time op_end_time : datetime) (ps0 : Progress.ProgressStore) :
  Progress.is_cancelled ps0 index_id = false ->
  let r := (Indexer._index_directory_sequential hashing_vector fnmatch
              ignored use_redis config (without_cancel script) db0 storage0
              ops index_id end_time op_end_time ps0).1 in
  Indexer.index_directory hashing_vector fnmatch ignored use_redis config
    script db0 storage0
  = (Indexer.db r, Indexer.storage r).
Proof.
  intros Hflag r. subst r.
  unfold Indexer._index_directory_sequential, Indexer.index_directory.
  cbn [fst Indexer.db Indexer.storage].
  match goal with
  | |- context [Indexer.walk _ _ _ _ _ _ _ ?s] =>
      apply (index_directory_walk script s)
  end.
  - reflexivity.
  - simpl. rewrite !update_task_cancelled.
    unfold Progress.is_cancelled in Hflag.
    now apply bool_decide_eq_false in Hflag.
Qed.

End IndexRunEquivalences.

(** ** Indexing a directory: sample runs *)

(** The request comes in after the plan: the note is not indexed. *)
Lemma index_run_stops_at_cancel_witness :
  let r := (Indexer._index_directory_sequential demo_vectorizer
              Fnmatch.fnmatch (Ignore.mkIgnoredFilesConfig ["*.log"]) false
              medium
              ([Scanner.walk_file plan 10 "u1"]
               ++ Scanner.cancel_requested
                  :: [Scanner.walk_file build_log 11 "u2";
                      Scanner.walk_file short_note 13 "u4"])
              SQLite.empty SQLite.empty [running_operation] "index-1" 90 91
              index_registry).1 in
  let r0 := (Indexer._index_directory_sequential demo_vectorizer
               Fnmatch.fnmatch (Ignore.mkIgnoredFilesConfig ["*.log"]) false
               medium [Scanner.walk_file plan 10 "u1"] SQLite.empty
               SQLite.empty [running_operation] "index-1" 90 91
               index_registry).1 in
  Indexer.db r = Indexer.db r0
  /\ Indexer.storage r = Indexer.storage r0
  /\ Indexer.files_processed r = Indexer.files_processed r0
  /\ Indexer.files_indexed r = Indexer.files_indexed r0
  /\ Indexer.cancelled r
     = Indexer.cancelled r0
       || List.existsb
            (fun f =>
               negb (Ignore.should_ignore Fnmatch.fnmatch
                       (Ignore.mkIgnoredFilesConfig ["*.log"]) (Fs.name f)))
            (Scanner.files_of
               [Scanner.walk_file build_log 11 "u2";
                Scanner.walk_file short_note 13 "u4"])
  /\ Progress.is_cancelled (Indexer.ps r) "index-1" = false
  /\ Progress.status <$> Progress.get_task (Indexer.ps r) "index-1"
     = Some (if Indexer.cancelled r then "cancelled" else "completed").
Proof.
  refine (index_run_stops_at_cancel demo_vectorizer Fnmatch.fnmatch
            (Ignore.mkIgnoredFilesConfig ["*.log"]) false medium "index-1"
            [Scanner.walk_file plan 10 "u1"]
            [Scanner.walk_file build_log 11 "u2";
             Scanner.walk_file short_note 13 "u4"]
            SQLite.empty SQLite.empty [running_operation] 90 91
            index_registry _).
  vm_compute. eexists. reflexivity.
Defined.

Example index_run_cancelled_midway :
  let r := demo_index_run
             [Scanner.walk_file plan 10 "u1"; Scanner.cancel_requested;
              Scanner.walk_file build_log 11 "u2";
              Scanner.walk_file short_note 13 "u4"] in
  (List.map Models.path (SQLite.indexed_files (Indexer.db r.1)),
   List.map (fun op => (IndexOperations.status op,
                        IndexOperations.total_files op,
                        IndexOperations.files_indexed op,
                        IndexOperations.files_skipped op)) r.2)
  = (["/protected/plan.txt"], [("cancelled", 2, 1, 0)]).
Proof. vm_compute. reflexivity. Qed.

(** The whole directory: three files counted, two indexed, one refused. *)
Lemma index_run_final_progress_witness :
  let r := (Indexer._index_directory_sequential demo_vectorizer
              Fnmatch.fnmatch (Ignore.mkIgnoredFilesConfig ["*.log"]) false
              medium protected_walk SQLite.empty SQLite.empty
              [running_operation] "index-1" 90 91 index_registry).1 in
  let total := Indexer.count_files Fnmatch.fnmatch
                 (Ignore.mkIgnoredFilesConfig ["*.log"])
                 (Scanner.files_of protected_walk) in
  Progress.get_task (Indexer.ps r) "index-1"
  = Some (finished_index
            (Progress.mkTaskProgress "index-1" "index" "pending" 0 0 0 0 "" 1
               None None)
            total (Indexer.files_processed r) (Indexer.files_indexed r)
            (Indexer.cancelled r) 90)
  /\ 0 <= Indexer.files_indexed r
  /\ Indexer.files_indexed r + Indexer.files_access_denied r
     <= Indexer.files_processed r
  /\ Indexer.files_processed r <= total
  /\ (Indexer.cancelled r = false -> Indexer.files_processed r = total)
  /\ Progress.is_cancelled (Indexer.ps r) "index-1" = false.
Proof.
  refine (index_run_final_progress demo_vectorizer Fnmatch.fnmatch
            (Ignore.mkIgnoredFilesConfig ["*.log"]) false medium "index-1"
            protected_walk SQLite.empty SQLite.empty [running_operation] 90 91
            index_registry
            (Progress.mkTaskProgress "index-1" "index" "pending" 0 0 0 0 "" 1
               None None) _).
  vm_compute. reflexivity.
Defined.

Example index_run_whole_directory :
  let r := (demo_index_run protected_walk).1 in
  (Progress.get_task (Indexer.ps r) "index-1",
   Indexer.files_processed r, Indexer.files_indexed r,
   Indexer.files_access_denied r, Indexer.cancelled r)
  = (Some (Progress.mkTaskProgress "index-1" "index" "completed" 3 3 0 2 "" 1
             (Some 90) None), 3, 2, 1, false).
Proof. vm_compute. reflexivity. Qed.

(** The note is in the index after the run, the unreadable key before it
    notwithstanding. *)
Lemma index_run_postcondition_witness :
  let r := (Indexer._index_directory_sequential demo_vectorizer
              Fnmatch.fnmatch (Ignore.mkIgnoredFilesConfig ["*.log"]) false
              medium protected_walk SQLite.empty SQLite.empty
              [running_operation] "index-1" 90 91 index_registry).1 in
  exists row,
    SQLite.first_by_path (Indexer.db r) (Fs.path short_note) = Some row
    /\ (Models.last_modified row == (1700000000 # 1))%Q.
Proof.
  refine (index_run_postcondition demo_vectorizer medium Fnmatch.fnmatch
            (Ignore.mkIgnoredFilesConfig ["*.log"]) "index-1" protected_walk
            SQLite.empty SQLite.empty [running_operation] 90 91 index_registry
            short_note (1700000000 # 1) "digest-todo" _ _ _ _ _ _ _ _).
  - split; constructor.
  - vm_compute. reflexivity.
  - vm_compute. reflexivity.
  - vm_compute.
    repeat (constructor; [simpl; intuition discriminate|]). constructor.
  - vm_compute. tauto.
  - vm_compute. reflexivity.
  - vm_compute. reflexivity.
  - vm_compute. reflexivity.
Defined.

(** The same directory through the entry point without progress. *)
Lemma index_directory_agrees_with_run_witness :
  let r := (Indexer._index_directory_sequential demo_vectorizer
              Fnmatch.fnmatch (Ignore.mkIgnoredFilesConfig ["*.log"]) false
              medium (without_cancel protected_walk) SQLite.empty SQLite.empty
              [running_operation] "index-1" 90 91 index_registry).1 in
  Indexer.index_directory demo_vectorizer Fnmatch.fnmatch
    (Ignore.mkIgnoredFilesConfig ["*.log"]) false medium protected_walk
    SQLite.empty SQLite.empty
  = (Indexer.db r, Indexer.storage r).
Proof.
  refine (index_directory_agrees_with_run demo_vectorizer Fnmatch.fnmatch
            (Ignore.mkIgnoredFilesConfig ["*.log"]) false medium "index-1"
            protected_walk SQLite.empty SQLite.empty [running_operation] 90 91
            index_registry _).
  vm_compute. reflexivity.
Defined.
